(** * CI status dashboard generator: a shallow embedding of
    [scripts/generate_dashboard.py] and the properties of its specification.

    The script lists the repositories of an organization, fetches the latest
    workflow run of each, classifies it, sorts the records and renders a
    static HTML page.  The embedding keeps the program's own shape:

    - Python values that come out of the JSON API are [value]s, JSON objects
      are insertion-ordered association lists ([dict]);
    - [str] is kept as its UTF-8 encoding (a Rocq [string] of bytes); the
      order of two encodings byte by byte is the order of the code points,
      which is how Python compares strings;
    - a Python exception or [sys.exit] is an [outcome]; functions that talk
      to the network or print also produce a trace of [event]s;
    - what the script takes from its host (the process environment, the HTTP
      server, [datetime] parsing and formatting, [repr] of containers) is a
      variable of the section [Dashboard].

    [main], which checks the token, calls the functions below in turn and
    writes the page and its JSON snapshot to disk, is not embedded. *)

From Stdlib Require Import ZArith List String Ascii Bool Lia.
From Stdlib Require Import Sorted Permutation DecimalString.
Import ListNotations.

Open Scope string_scope.
Open Scope Z_scope.

(* ===================================================================== *)
(** ** Python strings *)
(* ===================================================================== *)

Module PyStr.

(** The double quote, which the templates below need between literals. *)
Definition dq : string := String (ascii_of_nat 34) EmptyString.

(** [str(n)] for an [int]. *)
Definition of_Z (n : Z) : string := NilZero.string_of_int (Z.to_int n).

(** A continuation byte of a UTF-8 sequence ([10xxxxxx]). *)
Definition is_cont (c : ascii) : bool :=
  let n := nat_of_ascii c in (Nat.leb 128 n && Nat.ltb n 192)%bool.

(** [s[:n]]: the first [n] code points.  A continuation byte stays with the
    byte that opens its code point. *)
Fixpoint prefix_chars (n : nat) (s : string) : string :=
  match s with
  | EmptyString => EmptyString
  | String c s' =>
      if is_cont c then String c (prefix_chars n s')
      else match n with
           | O => EmptyString
           | S n' => String c (prefix_chars n' s')
           end
  end.

Definition starts_with_cont (s : string) : bool :=
  match s with
  | String c _ => is_cont c
  | EmptyString => false
  end.

(** [list(s)]: the code points of [s], each as a one-character string. *)
Fixpoint chars (s : string) : list string :=
  match s with
  | EmptyString => []
  | String c s' =>
      match chars s' with
      | ch :: rest =>
          if starts_with_cont ch then String c ch :: rest
          else String c EmptyString :: ch :: rest
      | [] => [String c EmptyString]
      end
  end.

(** [s.replace(c, by)] for a one-character pattern [c]. *)
Fixpoint replace_chr (c : ascii) (by_ : string) (s : string) : string :=
  match s with
  | EmptyString => EmptyString
  | String a s' =>
      if Ascii.eqb a c then by_ ++ replace_chr c by_ s'
      else String a (replace_chr c by_ s')
  end.


(** [needle in hay]. *)
Fixpoint contains (needle hay : string) : bool :=
  (String.prefix needle hay ||
   match hay with
   | EmptyString => false
   | String _ hay' => contains needle hay'
   end)%bool.

(** [s.lower()] on the ASCII letters.  Python lowers every cased code
    point; for the one use in this program, searching the all-ASCII needle
    [rate limit] in the lowered text, the two agree: no code point outside
    ASCII lowers to one of the needle's letters followed by the needle's next
    letter. *)
Definition lower_chr (c : ascii) : ascii :=
  let n := nat_of_ascii c in
  if (Nat.leb 65 n && Nat.leb n 90)%bool then ascii_of_nat (n + 32) else c.

Fixpoint lower (s : string) : string :=
  match s with
  | EmptyString => EmptyString
  | String c s' => String (lower_chr c) (lower s')
  end.

(** [html.escape(s, quote=True)] as the standard library writes it: five
    replacements in sequence, the ampersand first. *)
Definition escape (s : string) : string :=
  let s := replace_chr "&" "&amp;" s in
  let s := replace_chr "<" "&lt;" s in
  let s := replace_chr ">" "&gt;" s in
  let s := replace_chr (ascii_of_nat 34) "&quot;" s in
  let s := replace_chr "'" "&#x27;" s in
  s.

End PyStr.

(* ===================================================================== *)
(** ** Python values, as the JSON decoder builds them *)
(* ===================================================================== *)

(** [None], [bool], [int], [str], [list] and [dict] with [str] keys.  JSON
    numbers with a fraction ([float]) are not modelled; the API sends none
    in the fields the program reads. *)
#[local] Set Warnings "-register-all".
Inductive value : Type :=
| VNone
| VBool (b : bool)
| VInt (n : Z)
| VStr (s : string)
| VList (l : list value)
| VDict (d : list (string * value)).
#[local] Set Warnings "+register-all".

(** A JSON object: bindings in insertion order, the first binding of a key
    is the one that counts. *)
Definition dict : Type := list (string * value).

(** Truth value of an object ([bool(v)], [if v], [not v], [v or w]). *)
Definition truthy (v : value) : bool :=
  match v with
  | VNone => false
  | VBool b => b
  | VInt n => negb (n =? 0)
  | VStr s => negb (String.eqb s EmptyString)
  | VList l => match l with [] => false | _ => true end
  | VDict d => match d with [] => false | _ => true end
  end.

(** [a or b]. *)
Definition py_or (a b : value) : value := if truthy a then a else b.

(** [v == "lit"] against a string literal. *)
Definition eq_str (v : value) (lit : string) : bool :=
  match v with
  | VStr s => String.eqb s lit
  | _ => false
  end.

(** [v in (lit1, lit2, ...)] for a tuple of string literals. *)
Definition in_strs (v : value) (lits : list string) : bool :=
  existsb (eq_str v) lits.

(** [v is None]. *)
Definition is_none (v : value) : bool :=
  match v with
  | VNone => true
  | _ => false
  end.

Fixpoint dict_get (d : dict) (k : string) : option value :=
  match d with
  | [] => None
  | (k', v) :: d' => if String.eqb k' k then Some v else dict_get d' k
  end.

(** [d.get(k, default)] on a [dict]. *)
Definition get_or (d : dict) (k : string) (default : value) : value :=
  match dict_get d k with
  | Some v => v
  | None => default
  end.

(** [d[k] = v]: an existing key keeps its place, a new key goes last. *)
Fixpoint dict_set (d : dict) (k : string) (v : value) : dict :=
  match d with
  | [] => [(k, v)]
  | (k', v') :: d' =>
      if String.eqb k' k then (k', v) :: d' else (k', v') :: dict_set d' k v
  end.

(** [d.update(other)]. *)
Definition dict_update (d other : dict) : dict :=
  fold_left (fun acc kv => dict_set acc (fst kv) (snd kv)) other d.

(* ===================================================================== *)
(** ** Exceptions, process exit and the trace of effects *)
(* ===================================================================== *)

Inductive exn : Type :=
| KeyError
| IndexError
| TypeError
| AttributeError
| ValueError          (* also json's JSONDecodeError, a subclass *)
| OverflowError       (* a date out of the years 1 to 9999 *)
| OSError             (* the clock of the host refuses a time *)
| RequestException.   (* what requests.get raises: timeout, no connection *)

(** How a call ends: it returns, an exception leaves it, the process exits
    ([sys.exit]), or the model's loop bound ran out before the loop did. *)
Inductive outcome (A : Type) : Type :=
| Ret (a : A)
| Raise (e : exn)
| Exit (code : Z)
| OutOfFuel.

Arguments Ret {A} a.
Arguments Raise {A} e.
Arguments Exit {A} code.
Arguments OutOfFuel {A}.

Definition obind {A B} (m : outcome A) (k : A -> outcome B) : outcome B :=
  match m with
  | Ret a => k a
  | Raise e => Raise e
  | Exit c => Exit c
  | OutOfFuel => OutOfFuel
  end.

(** An HTTP GET as [requests.get] receives it. *)
Record request : Type := mkRequest {
  req_url : string;
  req_headers : dict;
  req_params : value;
  req_timeout : Z
}.

Inductive event : Type :=
| EvGet (r : request)       (* requests.get(...) was called *)
| EvPrint (line : string).  (* print(...) wrote a line *)

(** An effectful computation: the events it produced, in order, and how it
    ended. *)
Definition M (A : Type) : Type := (list event * outcome A)%type.

Definition ret {A} (a : A) : M A := ([], Ret a).

Definition bind {A B} (m : M A) (k : A -> M B) : M B :=
  match m with
  | (t, Ret a) => let (t', r) := k a in ((t ++ t')%list, r)
  | (t, Raise e) => (t, Raise e)
  | (t, Exit c) => (t, Exit c)
  | (t, OutOfFuel) => (t, OutOfFuel)
  end.

(** A pure computation inside an effectful one. *)
Definition lift {A} (o : outcome A) : M A := ([], o).

Definition print (line : string) : M unit := ([EvPrint line], Ret tt).

Definition sys_exit {A} (code : Z) : M A := ([], Exit code).

Declare Scope py_scope.
Delimit Scope py_scope with py.
Notation "x <- m ;; k" := (bind m (fun x => k))
  (at level 61, m at next level, right associativity) : py_scope.
Notation "m ;; k" := (bind m (fun _ => k))
  (at level 61, right associativity) : py_scope.
Notation "x <~ m ;; k" := (obind m (fun x => k))
  (at level 61, m at next level, right associativity) : py_scope.
Open Scope py_scope.

(** What a computation returned, and the requests it sent. *)
Definition result {A} (m : M A) : outcome A := snd m.
Definition trace {A} (m : M A) : list event := fst m.

Definition requests_of (t : list event) : list request :=
  flat_map (fun e => match e with EvGet r => [r] | EvPrint _ => [] end) t.

(* ===================================================================== *)
(** ** Operations on values that can raise *)
(* ===================================================================== *)

(** [v[k]] with a string key: only a [dict] can answer. *)
Definition subscript (v : value) (k : string) : outcome value :=
  match v with
  | VDict d => match dict_get d k with
               | Some x => Ret x
               | None => Raise KeyError
               end
  | _ => Raise TypeError
  end.

(** [v.get(k, default)]: among these values only [dict] has the method. *)
Definition dot_get (v : value) (k : string) (default : value) : outcome value :=
  match v with
  | VDict d => Ret (get_or d k default)
  | _ => Raise AttributeError
  end.

(** [v[0]]. *)
Definition first_item (v : value) : outcome value :=
  match v with
  | VList (x :: _) => Ret x
  | VList [] => Raise IndexError
  | VStr s => match PyStr.chars s with
              | ch :: _ => Ret (VStr ch)
              | [] => Raise IndexError
              end
  | VDict _ => Raise KeyError
  | _ => Raise TypeError
  end.

(** The items [list.extend(v)] appends: the elements of a list, the
    characters of a string, the keys of a dict. *)
Definition iter_items (v : value) : outcome (list value) :=
  match v with
  | VList l => Ret l
  | VStr s => Ret (map VStr (PyStr.chars s))
  | VDict d => Ret (map (fun kv => VStr (fst kv)) d)
  | _ => Raise TypeError
  end.

(** [v[:n]]. *)
Definition slice_to (n : nat) (v : value) : outcome value :=
  match v with
  | VStr s => Ret (VStr (PyStr.prefix_chars n s))
  | VList l => Ret (VList (firstn n l))
  | _ => Raise TypeError
  end.

(** [v.replace(c, by)]: a [str] method. *)
Definition dot_replace (v : value) (c : ascii) (by_ : string) : outcome string :=
  match v with
  | VStr s => Ret (PyStr.replace_chr c by_ s)
  | _ => Raise AttributeError
  end.

(** [map] for a function that can raise: the first failure ends it. *)
Fixpoint map_outcome {A B} (f : A -> outcome B) (l : list A) : outcome (list B) :=
  match l with
  | [] => Ret []
  | x :: l' => y <~ f x ;; ys <~ map_outcome f l' ;; Ret (y :: ys)
  end.

(* ===================================================================== *)
(** ** The host: HTTP responses and datetimes *)
(* ===================================================================== *)

(** A [requests.Response], by the attributes the program reads.
    [json_body] is what [resp.json()] decodes ([None]: the body is no JSON
    and the call raises); [ratelimit_remaining] is
    [resp.headers.get('X-RateLimit-Remaining')]. *)
Record response : Type := mkResponse {
  status_code : Z;
  text : string;
  json_body : option value;
  ratelimit_remaining : value
}.

(** What [requests.get] does with a request: it returns a response, or it
    raises (timeout after 30 seconds, connection failure). *)
Inductive reply : Type :=
| Response (r : response)
| NoResponse.

Definition resp_json (resp : response) : outcome value :=
  match json_body resp with
  | Some v => Ret v
  | None => Raise ValueError
  end.

(** A [datetime]: microseconds since the first instant of 1970 on its own
    time line, and whether it carries a UTC offset (for an aware one the
    line is UTC).  Python refuses to subtract an aware and a naive
    datetime. *)
Record datetime : Type := mkDatetime {
  micros : Z;
  aware : bool
}.

(** [a - b], a [timedelta], as its exact number of microseconds. *)
Definition dt_sub (a b : datetime) : outcome Z :=
  if Bool.eqb (aware a) (aware b) then Ret (micros a - micros b)
  else Raise TypeError.

(** The whole number nearest to [n / d], the even one of two that are as
    near, for [n >= 0] and [d > 0]. *)
Definition round_half_even (n d : Z) : Z :=
  let q := n / d in
  let r := n mod d in
  if 2 * r <? d then q
  else if d <? 2 * r then q + 1
  else if Z.even q then q else q + 1.

(** The exponent of [n / d] as a float: the [e] with
    [2^e <= n / d < 2^(e+1)], for positive [n] and [d]. *)
Definition quotient_exponent (n d : Z) : Z :=
  let e := Z.log2 n - Z.log2 d in
  if n * 2 ^ Z.max 0 (- e) <? d * 2 ^ Z.max 0 e then e - 1 else e.

(** [int(n / d)] for two ints, [n >= 0] and [d > 0].  [n / d] is the float
    nearest to the quotient: 53 significant bits, so a whole number [m] of
    units of [2^(e-52)], rounded half to even; [int] then drops what is
    left of a fraction.  (The quotients of this program are far from the
    largest and the smallest float.) *)
Definition int_true_div (n d : Z) : Z :=
  if n =? 0 then 0
  else
    let s := 52 - quotient_exponent n d in
    let m := round_half_even (n * 2 ^ Z.max 0 s) (d * 2 ^ Z.max 0 (- s)) in
    m * 2 ^ Z.max 0 (- s) / 2 ^ Z.max 0 s.

(** [int(delta.total_seconds())] for a [timedelta] of [delta_us]
    microseconds.  [total_seconds()] is the float of the microseconds
    divided by [10**6], a negative span mirroring the positive one, and
    [int] truncates it toward zero. *)
Definition int_total_seconds (delta_us : Z) : Z :=
  Z.sgn delta_us * int_true_div (Z.abs delta_us) 1000000.

(** The first and the last instant a [datetime] can hold: the start of
    year 1 and the last microsecond of year 9999. *)
Definition datetime_min : Z := -62135596800000000.
Definition datetime_max : Z := 253402300799999999.

(** The offset of [AR_TZ], minus three hours. *)
Definition art_offset : Z := -10800000000.

(* ===================================================================== *)
(** ** Pure functions of the script *)
(* ===================================================================== *)

(** [format_duration(seconds)].  [divmod] is floor division and its
    remainder, which are [Z.div] and [Z.modulo] for the positive divisor. *)
Definition format_duration (seconds : Z) : string :=
  if seconds <? 60 then PyStr.of_Z seconds ++ "s"
  else
    let m := seconds / 60 in
    let s := seconds mod 60 in
    if m <? 60 then PyStr.of_Z m ++ "m " ++ PyStr.of_Z s ++ "s"
    else
      let h := m / 60 in
      let m := m mod 60 in
      PyStr.of_Z h ++ "h " ++ PyStr.of_Z m ++ "m".

(** [get_status_info(run)]: the status key, the label and the icon.  The
    key and the icon are always one of the literals; the label can be any
    value the run carries. *)
Definition get_status_info (run : value) : outcome (string * value * string) :=
  if is_none run then Ret ("no_ci", VStr "Sin CI", "⚠️")
  else
    status <~ dot_get run "status" (VStr EmptyString) ;;
    conclusion <~ dot_get run "conclusion" (VStr EmptyString) ;;
    if in_strs status ["in_progress"; "queued"; "waiting"] then
      Ret ("running", VStr "Running", "🔄")
    else if eq_str conclusion "success" then
      Ret ("success", VStr "Passing", "✅")
    else if eq_str conclusion "failure" then
      Ret ("failure", VStr "Failing", "❌")
    else if eq_str conclusion "cancelled" then
      Ret ("cancelled", VStr "Cancelled", "⏹️")
    else
      Ret ("unknown", py_or conclusion (py_or status (VStr "Unknown")), "❓").

(** The closed set of status keys. *)
Definition status_keys : list string :=
  ["failure"; "running"; "cancelled"; "no_ci"; "unknown"; "success"].

(** *** Sorting the records *)

(** [order] of [build_repo_data]. *)
Definition order : list (string * Z) :=
  [("failure", 0); ("running", 1); ("cancelled", 2);
   ("no_ci", 3); ("unknown", 4); ("success", 5)].

Fixpoint assoc_str {A} (l : list (string * A)) (k : string) : option A :=
  match l with
  | [] => None
  | (k', a) :: l' => if String.eqb k' k then Some a else assoc_str l' k
  end.

(** The rank of a status key: [order.get(k, 99)] for a [str]. *)
Definition rank (k : string) : Z :=
  match assoc_str order k with
  | Some n => n
  | None => 99
  end.

(** [order.get(k, 99)] for any value: a list or a dict cannot be hashed,
    and no other value equals one of the string keys. *)
Definition order_get (k : value) : outcome Z :=
  match k with
  | VStr s => Ret (rank s)
  | VList _ | VDict _ => Raise TypeError
  | _ => Ret 99
  end.

(** The sort key [(order.get(r["status_key"], 99), r["name"])].  Repository
    names are strings; Python would also order names that are all numbers,
    and raises [TypeError] when two names that cannot be ordered meet.  The
    model covers string names and raises for any other. *)
Definition sort_key (r : value) : outcome (Z * string) :=
  k <~ subscript r "status_key" ;;
  rk <~ order_get k ;;
  n <~ subscript r "name" ;;
  match n with
  | VStr s => Ret (rk, s)
  | _ => Raise TypeError
  end.

(** [a < b] on two keys, as Python compares tuples: the first components
    decide unless they are equal. *)
Definition key_lt (a b : Z * string) : bool :=
  ((fst a <? fst b) || ((fst a =? fst b) && String.ltb (snd a) (snd b)))%bool.

(** [list.sort(key=...)] is a stable sort that only asks [<] of the keys.
    Every stable sort returns the same list, so the model is free to be an
    insertion sort: an element goes before the first one that is not
    smaller than it. *)
Fixpoint insert_keyed {A} (x : (Z * string) * A) (l : list ((Z * string) * A))
  : list ((Z * string) * A) :=
  match l with
  | [] => [x]
  | y :: l' => if key_lt (fst y) (fst x) then y :: insert_keyed x l' else x :: l
  end.

Definition sort_keyed {A} (l : list ((Z * string) * A)) : list ((Z * string) * A) :=
  fold_right insert_keyed [] l.

(** [results.sort(key=lambda r: ...)]: the keys are computed first. *)
Definition sort_results (results : list value) : outcome (list value) :=
  keys <~ map_outcome sort_key results ;;
  Ret (map snd (sort_keyed (combine keys results))).

(** *** Counting *)

(** The [counts] dict of [count_statuses]: its keys are status keys (any
    hashable value), its values are counts. *)
Definition counts : Type := list (value * Z).

(** [a == b] on hashable values; [True == 1] and [False == 0]. *)
Definition key_eqb (a b : value) : bool :=
  match a, b with
  | VNone, VNone => true
  | VBool x, VBool y => Bool.eqb x y
  | VBool x, VInt n | VInt n, VBool x => n =? (if x then 1 else 0)
  | VInt n, VInt m => n =? m
  | VStr s, VStr t => String.eqb s t
  | _, _ => false
  end.

(** [hash(k)] raises for a list or a dict. *)
Definition hashable (k : value) : outcome unit :=
  match k with
  | VList _ | VDict _ => Raise TypeError
  | _ => Ret tt
  end.

Fixpoint counts_get (c : counts) (k : value) (default : Z) : Z :=
  match c with
  | [] => default
  | (k', n) :: c' => if key_eqb k' k then n else counts_get c' k default
  end.

Fixpoint counts_set (c : counts) (k : value) (n : Z) : counts :=
  match c with
  | [] => [(k, n)]
  | (k', n') :: c' =>
      if key_eqb k' k then (k', n) :: c' else (k', n') :: counts_set c' k n
  end.

(** The loop of [count_statuses], from the counts so far. *)
Fixpoint count_loop (data : list value) (c : counts) : outcome counts :=
  match data with
  | [] => Ret c
  | r :: rest =>
      k <~ subscript r "status_key" ;;
      _ <~ hashable k ;;
      count_loop rest (counts_set c k (counts_get c k 0 + 1))
  end.

Definition count_statuses (data : list value) : outcome counts :=
  count_loop data [].

(** [sum(counts.values())]. *)
Definition sum_values (c : counts) : Z :=
  fold_right (fun kn acc => snd kn + acc) 0 c.

(* ===================================================================== *)
(** ** The HTML templates *)
(* ===================================================================== *)

(** The two f-string templates of [generate_html], with the text between
    their placeholders as the script has it. *)
Module Template.
Import PyStr.

Definition row_template (status_class status_icon status_label url name lock branch commit_info duration run_link copy_btn : string) : string :=
  "
        <tr class=" ++ dq ++ "status-" ++ status_class ++ dq ++ ">
            <td class=" ++ dq ++ "status-cell" ++ dq ++ "><span class=" ++ dq ++ "status-icon" ++ dq ++ ">" ++ status_icon ++ "</span> " ++ status_label ++ "</td>
            <td><a href=" ++ dq ++ url ++ dq ++ " target=" ++ dq ++ "_blank" ++ dq ++ " class=" ++ dq ++ "repo-link" ++ dq ++ ">" ++ name ++ "</a>" ++ lock ++ "</td>
            <td class=" ++ dq ++ "branch-cell" ++ dq ++ ">" ++ branch ++ "</td>
            <td class=" ++ dq ++ "commit-cell" ++ dq ++ ">" ++ commit_info ++ "</td>
            <td class=" ++ dq ++ "duration-cell" ++ dq ++ ">" ++ duration ++ "</td>
            <td class=" ++ dq ++ "action-cell" ++ dq ++ ">" ++ run_link ++ " " ++ copy_btn ++ "</td>
        </tr>".

Definition page_template (health health_color total passing failing running no_ci other_span timestamp rows : string) : string :=
  "<!DOCTYPE html>
<html lang=" ++ dq ++ "en" ++ dq ++ ">
<head>
<meta charset=" ++ dq ++ "UTF-8" ++ dq ++ ">
<meta name=" ++ dq ++ "viewport" ++ dq ++ " content=" ++ dq ++ "width=device-width, initial-scale=1.0" ++ dq ++ ">
<title>CI Status — algojj</title>
<style>
* { margin: 0; padding: 0; box-sizing: border-box; }
body {
    font-family: -apple-system, BlinkMacSystemFont, 'Segoe UI', Roboto, monospace;
    background: #0d1117;
    color: #c9d1d9;
    min-height: 100vh;
}
.header {
    background: #161b22;
    border-bottom: 1px solid #30363d;
    padding: 20px 24px;
}
.header-top {
    display: flex;
    justify-content: space-between;
    align-items: center;
    flex-wrap: wrap;
    gap: 12px;
}
.title {
    font-size: 24px;
    font-weight: 700;
    color: #f0f6fc;
}
.title span { color: #58a6ff; }
.health-badge {
    font-size: 14px;
    font-weight: 700;
    padding: 6px 16px;
    border-radius: 20px;
    background: " ++ health_color ++ "22;
    color: " ++ health_color ++ ";
    border: 1px solid " ++ health_color ++ "44;
}
.stats {
    display: flex;
    gap: 16px;
    margin-top: 12px;
    flex-wrap: wrap;
}
.stat {
    font-size: 13px;
    padding: 4px 12px;
    border-radius: 12px;
    background: #21262d;
    border: 1px solid #30363d;
}
.stat-total { color: #8b949e; }
.stat-pass { color: #3fb950; }
.stat-fail { color: #f85149; }
.stat-run { color: #d29922; }
.stat-noci { color: #8b949e; }
.timestamp {
    font-size: 12px;
    color: #8b949e;
    margin-top: 8px;
}
.container {
    padding: 16px 24px;
    overflow-x: auto;
}
table {
    width: 100%;
    border-collapse: collapse;
    font-size: 14px;
}
th {
    text-align: left;
    padding: 10px 12px;
    background: #161b22;
    border-bottom: 2px solid #30363d;
    color: #8b949e;
    font-weight: 600;
    font-size: 12px;
    text-transform: uppercase;
    letter-spacing: 0.5px;
    position: sticky;
    top: 0;
    z-index: 1;
}
td {
    padding: 10px 12px;
    border-bottom: 1px solid #21262d;
    vertical-align: middle;
}
tr:hover { background: #161b2288; }
.status-cell {
    white-space: nowrap;
    font-weight: 600;
    min-width: 110px;
}
.status-icon { font-size: 16px; }
.status-failure .status-cell { color: #f85149; }
.status-success .status-cell { color: #3fb950; }
.status-running .status-cell { color: #d29922; }
.status-no_ci .status-cell { color: #8b949e; }
.status-cancelled .status-cell { color: #8b949e; }
.status-failure { background: #f8514908; }
.repo-link {
    color: #58a6ff;
    text-decoration: none;
    font-weight: 600;
}
.repo-link:hover { text-decoration: underline; }
.run-link {
    color: #8b949e;
    text-decoration: none;
    font-size: 12px;
    padding: 3px 8px;
    border: 1px solid #30363d;
    border-radius: 6px;
    white-space: nowrap;
}
.run-link:hover { background: #21262d; color: #58a6ff; border-color: #58a6ff; }
.branch-cell {
    color: #7ee787;
    font-family: monospace;
    font-size: 12px;
}
.commit-cell { max-width: 300px; }
.commit-msg {
    color: #c9d1d9;
    font-size: 13px;
    display: -webkit-box;
    -webkit-line-clamp: 1;
    -webkit-box-orient: vertical;
    overflow: hidden;
}
.commit-date { color: #8b949e; font-size: 11px; }
.duration-cell {
    color: #8b949e;
    font-family: monospace;
    font-size: 12px;
    white-space: nowrap;
}
.action-cell { white-space: nowrap; display: flex; align-items: center; gap: 6px; }
.copy-btn {
    background: none;
    border: 1px solid #30363d;
    border-radius: 6px;
    padding: 3px 6px;
    cursor: pointer;
    font-size: 14px;
    color: #8b949e;
    transition: all 0.2s;
    line-height: 1;
}
.copy-btn:hover { background: #21262d; border-color: #58a6ff; }
.copy-btn.copied { border-color: #3fb950; }
@media (max-width: 768px) {
    .header { padding: 16px; }
    .container { padding: 12px; }
    .branch-cell, .duration-cell { display: none; }
    .commit-cell { max-width: 160px; }
    table { font-size: 13px; }
    td, th { padding: 8px 6px; }
    .stats { gap: 8px; }
    .stat { font-size: 12px; padding: 3px 8px; }
}
@media (max-width: 480px) {
    .commit-cell { display: none; }
    .title { font-size: 18px; }
}
</style>
</head>
<body>
<div class=" ++ dq ++ "header" ++ dq ++ ">
    <div class=" ++ dq ++ "header-top" ++ dq ++ ">
        <div class=" ++ dq ++ "title" ++ dq ++ ">⚡ <span>algojj</span> CI Status</div>
        <div class=" ++ dq ++ "health-badge" ++ dq ++ ">" ++ health ++ "</div>
    </div>
    <div class=" ++ dq ++ "stats" ++ dq ++ ">
        <span class=" ++ dq ++ "stat stat-total" ++ dq ++ ">" ++ total ++ " repos</span>
        <span class=" ++ dq ++ "stat stat-pass" ++ dq ++ ">✅ " ++ passing ++ " passing</span>
        <span class=" ++ dq ++ "stat stat-fail" ++ dq ++ ">❌ " ++ failing ++ " failing</span>
        <span class=" ++ dq ++ "stat stat-run" ++ dq ++ ">🔄 " ++ running ++ " running</span>
        <span class=" ++ dq ++ "stat stat-noci" ++ dq ++ ">⚠️ " ++ no_ci ++ " sin CI</span>
        " ++ other_span ++ "
    </div>
    <div class=" ++ dq ++ "timestamp" ++ dq ++ ">Last updated: " ++ timestamp ++ " (Argentina) — Refreshes every 15 min (Mon-Fri 8am-9pm ART)</div>
</div>
<div class=" ++ dq ++ "container" ++ dq ++ ">
<table>
<thead>
    <tr>
        <th>Status</th>
        <th>Repository</th>
        <th>Branch</th>
        <th>Last Commit</th>
        <th>Duration</th>
        <th>Actions</th>
    </tr>
</thead>
<tbody>
" ++ rows ++ "
</tbody>
</table>
</div>
<script>
document.querySelectorAll('.copy-btn').forEach(function(btn) {
    btn.addEventListener('click', function() {
        var text = this.getAttribute('data-copy');
        navigator.clipboard.writeText(text).then(function() {
            btn.textContent = '✅';
            btn.classList.add('copied');
            setTimeout(function() { btn.textContent = '📋'; btn.classList.remove('copied'); }, 2000);
        });
    });
});
</script>
</body>
</html>".

End Template.

(* ===================================================================== *)
(** ** The script *)
(* ===================================================================== *)

Section Dashboard.

#[local] Set Default Proof Using "Type".

(** [os.environ]. *)
Variable environ : string -> option string.

(** The server behind [requests.get]. *)
Variable http : request -> reply.

(** [repr] of a list or a dict, which is what an f-string prints for one. *)
Variable py_repr : value -> string.

(** [datetime.fromisoformat]; [None] when it raises [ValueError]. *)
Variable fromisoformat : string -> option datetime.

(** [d.astimezone(AR_TZ).strftime("%Y-%m-%d %H:%M")], with [AR_TZ] the
    fixed offset of minus three hours, when [astimezone] returns. *)
Variable strftime_art : datetime -> string.

(** For a naive datetime [astimezone] asks the clock of the host where
    the local time lies; the exception this raises, if it does. *)
Variable local_refusal : datetime -> option exn.

(** [str(v)], and [{v}] in an f-string. *)
Definition py_str (v : value) : string :=
  match v with
  | VNone => "None"
  | VBool true => "True"
  | VBool false => "False"
  | VInt n => PyStr.of_Z n
  | VStr s => s
  | VList _ | VDict _ => py_repr v
  end.

Definition environ_get (k : string) : value :=
  match environ k with
  | Some s => VStr s
  | None => VNone
  end.

Definition GH_TOKEN : value :=
  py_or (environ_get "GH_TOKEN") (environ_get "GITHUB_TOKEN").

Definition ORG_NAME : string :=
  match environ "ORG_NAME" with
  | Some s => s
  | None => "algojj"
  end.

Definition API : string := "https://api.github.com".

Definition HEADERS : dict :=
  [("Authorization", VStr ("token " ++ py_str GH_TOKEN));
   ("Accept", VStr "application/vnd.github+json")].

Definition requests_get (r : request) : M response :=
  ([EvGet r],
   match http r with
   | Response resp => Ret resp
   | NoResponse => Raise RequestException
   end).

(** A 403 whose body speaks of a rate limit ends the process. *)
Definition rate_limited (resp : response) : bool :=
  ((status_code resp =? 403) &&
   PyStr.contains "rate limit" (PyStr.lower (text resp)))%bool.

Definition api_get (url : string) (params : value) : M response :=
  resp <- requests_get (mkRequest url HEADERS (py_or params (VDict [])) 30) ;;
  if rate_limited resp then
    print ("Rate limited. Headers: " ++ py_str (ratelimit_remaining resp)) ;;
    sys_exit 1
  else ret resp.

(** The request of [get_all_repos] for one page. *)
Definition repos_url : string := API ++ "/orgs/" ++ ORG_NAME ++ "/repos".

Definition repos_params (page : Z) : value :=
  VDict [("per_page", VInt 100); ("page", VInt page); ("type", VStr "all")].

(** The [while True] loop of [get_all_repos], from the repositories
    gathered so far and the next page number; [fuel] bounds the number of
    pages the model follows. *)
Fixpoint get_all_repos_loop (fuel : nat) (repos : list value) (page : Z)
  : M (list value) :=
  match fuel with
  | O => lift OutOfFuel
  | S fuel' =>
      resp <- api_get repos_url (repos_params page) ;;
      if negb (status_code resp =? 200) then
        print ("Error listing repos: " ++ PyStr.of_Z (status_code resp) ++ " "
               ++ PyStr.prefix_chars 200 (text resp)) ;;
        ret repos
      else
        data <- lift (resp_json resp) ;;
        if negb (truthy data) then ret repos
        else
          items <- lift (iter_items data) ;;
          get_all_repos_loop fuel' (repos ++ items)%list (page + 1)
  end.

Definition get_all_repos (fuel : nat) : M (list value) :=
  get_all_repos_loop fuel [] 1.

Definition runs_url (repo_name : value) : string :=
  API ++ "/repos/" ++ ORG_NAME ++ "/" ++ py_str repo_name ++ "/actions/runs".

Definition runs_params : value := VDict [("per_page", VInt 1)].

Definition get_latest_run (repo_name : value) : M value :=
  resp <- api_get (runs_url repo_name) runs_params ;;
  if negb (status_code resp =? 200) then ret VNone
  else
    body <- lift (resp_json resp) ;;
    runs <- lift (dot_get body "workflow_runs" VNone) ;;
    if negb (truthy runs) then ret VNone
    else
      body' <- lift (resp_json resp) ;;
      runs' <- lift (subscript body' "workflow_runs") ;;
      lift (first_item runs').

(** [d.astimezone(AR_TZ)] returns or raises.  An aware datetime is taken
    to UTC and from there three hours back, and either step raises
    [OverflowError] when it leaves the years 1 to 9999.  A naive one is
    first placed by the clock of the host. *)
Definition astimezone_art (d : datetime) : outcome unit :=
  if aware d then
    if ((datetime_min <=? micros d) && (micros d <=? datetime_max)
        && (datetime_min <=? micros d + art_offset))%bool
    then Ret tt
    else Raise OverflowError
  else
    match local_refusal d with
    | Some e => Raise e
    | None => Ret tt
    end.

(** The fields [build_repo_data] adds for a run, in the order the script
    evaluates them. *)
Definition run_fields (run : value) : outcome dict :=
  c <~ subscript run "created_at" ;;
  c <~ dot_replace c "Z" "+00:00" ;;
  created <~ match fromisoformat c with
             | Some d => Ret d
             | None => Raise ValueError
             end ;;
  u <~ subscript run "updated_at" ;;
  u <~ dot_replace u "Z" "+00:00" ;;
  updated <~ match fromisoformat u with
             | Some d => Ret d
             | None => Raise ValueError
             end ;;
  delta <~ dt_sub updated created ;;
  let duration_s := int_total_seconds delta in
  run_url <~ subscript run "html_url" ;;
  title <~ dot_get run "display_title" (VStr EmptyString) ;;
  run_name <~ dot_get run "name" title ;;
  branch <~ dot_get run "head_branch" (VStr EmptyString) ;;
  title' <~ dot_get run "display_title" VNone ;;
  msg <~ (if truthy title' then Ret title'
          else
            head_commit <~ dot_get run "head_commit" (VDict []) ;;
            dot_get head_commit "message" (VStr EmptyString)) ;;
  commit_msg <~ slice_to 80 msg ;;
  _ <~ astimezone_art created ;;
  workflow <~ dot_get run "name" (VStr EmptyString) ;;
  Ret [("run_url", run_url);
       ("run_name", run_name);
       ("branch", branch);
       ("commit_msg", commit_msg);
       ("commit_date", VStr (strftime_art created));
       ("duration", VStr (format_duration duration_s));
       ("workflow", workflow)].

(** The body of the [for repo in repos] loop: the entry of one repository. *)
Definition build_entry (repo : value) : M value :=
  name <- lift (subscript repo "name") ;;
  print ("  Checking " ++ py_str name ++ "...") ;;
  run <- get_latest_run name ;;
  info <- lift (get_status_info run) ;;
  let '(status_key, status_label, status_icon) := info in
  url <- lift (subscript repo "html_url") ;;
  private <- lift (dot_get repo "private" (VBool false)) ;;
  let entry :=
    [("name", name);
     ("url", url);
     ("private", private);
     ("status_key", VStr status_key);
     ("status_label", status_label);
     ("status_icon", VStr status_icon)] in
  if truthy run then
    fields <- lift (run_fields run) ;;
    ret (VDict (dict_update entry fields))
  else ret (VDict entry).

(** The loop, from the results appended so far. *)
Fixpoint build_loop (repos : list value) (results : list value)
  : M (list value) :=
  match repos with
  | [] => ret results
  | repo :: rest =>
      entry <- build_entry repo ;;
      build_loop rest (results ++ [entry])%list
  end.

Definition build_repo_data (repos : list value) : M (list value) :=
  results <- build_loop repos [] ;;
  lift (sort_results results).

(** *** The renderer *)

(** The residual count of the summary strip. *)
Definition other_count (data : list value) (cnt : counts) : Z :=
  let total := Z.of_nat (List.length data) in
  let failing := counts_get cnt (VStr "failure") 0 in
  let passing := counts_get cnt (VStr "success") 0 in
  let running := counts_get cnt (VStr "running") 0 in
  let no_ci := counts_get cnt (VStr "no_ci") 0 in
  total - failing - passing - running - no_ci.

(** The last entry of the summary strip. *)
Definition other_span (other : Z) : string :=
  if other >? 0 then
    "<span class='stat stat-noci'>⏹️ " ++ PyStr.of_Z other ++ " other</span>"
  else EmptyString.

(** [copy_text] of a record. *)
Definition copy_text (r : value) : outcome string :=
  workflow <~ dot_get r "workflow" (VStr EmptyString) ;;
  name <~ subscript r "name" ;;
  branch <~ dot_get r "branch" (VStr "?") ;;
  commit_msg <~ dot_get r "commit_msg" (VStr EmptyString) ;;
  commit_date <~ dot_get r "commit_date" (VStr EmptyString) ;;
  run_url <~ dot_get r "run_url" (VStr EmptyString) ;;
  Ret ("El pipeline " ++ PyStr.dq ++ py_str workflow ++ PyStr.dq
       ++ " fallo en el repo algojj/" ++ py_str name ++ ", "
       ++ "branch: " ++ py_str branch ++ ", "
       ++ "commit: " ++ PyStr.dq ++ py_str commit_msg ++ PyStr.dq
       ++ " (" ++ py_str commit_date ++ "). "
       ++ "Run: " ++ py_str run_url ++ " — "
       ++ "Por favor revisa los logs del workflow y decime que paso.").

(** The copy-to-clipboard control around an escaped text. *)
Definition copy_button (safe_text : string) : string :=
  "<button class=" ++ PyStr.dq ++ "copy-btn" ++ PyStr.dq
  ++ " data-copy=" ++ PyStr.dq ++ safe_text ++ PyStr.dq
  ++ " title=" ++ PyStr.dq ++ "Copy for Claude Code" ++ PyStr.dq
  ++ ">📋</button>".

(** [copy_btn] of a record: the control, or the empty string. *)
Definition copy_btn (r : value) : outcome string :=
  k <~ subscript r "status_key" ;;
  if in_strs k ["failure"; "cancelled"] then
    run_url <~ dot_get r "run_url" VNone ;;
    if truthy run_url then
      t <~ copy_text r ;;
      Ret (copy_button (PyStr.escape t))
    else Ret EmptyString
  else Ret EmptyString.

(** [run_link], [commit_info], [duration] and [branch] of a record. *)
Definition run_cells (r : value) : outcome (string * string * value * value) :=
  run_url <~ dot_get r "run_url" VNone ;;
  if truthy run_url then
    run_url <~ subscript r "run_url" ;;
    let run_link :=
      "<a href=" ++ PyStr.dq ++ py_str run_url ++ PyStr.dq
      ++ " target=" ++ PyStr.dq ++ "_blank" ++ PyStr.dq
      ++ " class=" ++ PyStr.dq ++ "run-link" ++ PyStr.dq ++ ">View Run</a>" in
    commit_msg <~ dot_get r "commit_msg" (VStr EmptyString) ;;
    commit_date <~ dot_get r "commit_date" (VStr EmptyString) ;;
    let commit_info :=
      "<span class=" ++ PyStr.dq ++ "commit-msg" ++ PyStr.dq ++ ">"
      ++ py_str commit_msg ++ "</span><br><span class=" ++ PyStr.dq
      ++ "commit-date" ++ PyStr.dq ++ ">" ++ py_str commit_date ++ "</span>" in
    duration <~ dot_get r "duration" (VStr EmptyString) ;;
    branch <~ dot_get r "branch" (VStr EmptyString) ;;
    Ret (run_link, commit_info, duration, branch)
  else Ret (EmptyString, EmptyString, VStr EmptyString, VStr EmptyString).

(** The table row of one record: one turn of the [for r in data] loop. *)
Definition html_row (r : value) : outcome string :=
  status_class <~ subscript r "status_key" ;;
  cells <~ run_cells r ;;
  let '(run_link, commit_info, duration, branch) := cells in
  btn <~ copy_btn r ;;
  status_icon <~ subscript r "status_icon" ;;
  status_label <~ subscript r "status_label" ;;
  url <~ subscript r "url" ;;
  name <~ subscript r "name" ;;
  private <~ dot_get r "private" VNone ;;
  Ret (Template.row_template
         (py_str status_class) (py_str status_icon) (py_str status_label)
         (py_str url) (py_str name)
         (if truthy private then "  🔒" else EmptyString)
         (py_str branch) commit_info (py_str duration) run_link btn).

Fixpoint rows_loop (data : list value) (rows : string) : outcome string :=
  match data with
  | [] => Ret rows
  | r :: rest => row <~ html_row r ;; rows_loop rest (rows ++ row)
  end.

Definition generate_html (data : list value) (cnt : counts) (timestamp : value)
  : outcome string :=
  let total := Z.of_nat (List.length data) in
  let failing := counts_get cnt (VStr "failure") 0 in
  let passing := counts_get cnt (VStr "success") 0 in
  let running := counts_get cnt (VStr "running") 0 in
  let no_ci := counts_get cnt (VStr "no_ci") 0 in
  let other := other_count data cnt in
  let health :=
    if failing =? 0 then "ALL GREEN" else PyStr.of_Z failing ++ " FAILING" in
  let health_color := if failing =? 0 then "#4caf50" else "#f44336" in
  rows <~ rows_loop data EmptyString ;;
  Ret (Template.page_template
         health health_color (PyStr.of_Z total) (PyStr.of_Z passing)
         (PyStr.of_Z failing) (PyStr.of_Z running) (PyStr.of_Z no_ci)
         (other_span other) (py_str timestamp) rows).

(* ===================================================================== *)
(** ** Properties *)
(* ===================================================================== *)

(** *** The monad *)

Lemma bind_lift_ret {A B} (a : A) (k : A -> M B) : bind (lift (Ret a)) k = k a.
Proof. unfold bind, lift. now destruct (k a). Qed.

(** *** The classifier *)

(** C3.  A run whose status is in_progress, queued or waiting classifies as
    running whatever its conclusion (and whatever else it carries); the run
    with status in_progress and the stale conclusion failure is running,
    not failure. *)
Theorem get_status_info_running (d : dict) (s : string) :
  dict_get d "status" = Some (VStr s) ->
  In s ["in_progress"; "queued"; "waiting"] ->
  get_status_info (VDict d) = Ret ("running", VStr "Running", "🔄")
  /\ get_status_info
       (VDict [("status", VStr "in_progress"); ("conclusion", VStr "failure")])
     = Ret ("running", VStr "Running", "🔄").
Proof.
  intros Hs Hin; split; [|reflexivity].
  unfold get_status_info, dot_get, get_or; simpl.
  rewrite Hs.
  simpl in Hin.
  destruct Hin as [<- | [<- | [<- | []]]]; reflexivity.
Qed.

(** The label the script gives an unclassified run:
    [conclusion or status or "Unknown"], case by case. *)
Definition unknown_label (conclusion status : value) : value :=
  if truthy conclusion then conclusion
  else if truthy status then status
  else VStr "Unknown".

(** C4, as amended.  A run that is not running and whose conclusion is none
    of success, failure, cancelled gets the key unknown and the question
    mark; its label is the conclusion when that is non-empty, else the
    status when that is non-empty, else the literal Unknown.  The fields
    are read with the empty string as default. *)
Theorem get_status_info_unknown (d : dict) :
  let status := get_or d "status" (VStr EmptyString) in
  let conclusion := get_or d "conclusion" (VStr EmptyString) in
  in_strs status ["in_progress"; "queued"; "waiting"] = false ->
  in_strs conclusion ["success"; "failure"; "cancelled"] = false ->
  get_status_info (VDict d)
  = Ret ("unknown", unknown_label conclusion status, "❓")
  /\ (forall c, conclusion = VStr c -> c <> EmptyString ->
      unknown_label conclusion status = VStr c)
  /\ (forall s, truthy conclusion = false -> status = VStr s ->
      s <> EmptyString -> unknown_label conclusion status = VStr s)
  /\ (truthy conclusion = false -> truthy status = false ->
      unknown_label conclusion status = VStr "Unknown").
Proof.
  intros status conclusion Hrun Hconc.
  repeat split.
  - unfold get_status_info, dot_get, obind, is_none.
    fold status conclusion.
    rewrite Hrun.
    unfold in_strs in Hconc; simpl in Hconc.
    destruct (eq_str conclusion "success"); [discriminate|].
    destruct (eq_str conclusion "failure"); [discriminate|].
    destruct (eq_str conclusion "cancelled"); [discriminate|].
    reflexivity.
  - intros c Hc Hne. unfold unknown_label. rewrite Hc; simpl.
    apply String.eqb_neq in Hne. now rewrite Hne.
  - intros s Hc Hs Hne. unfold unknown_label. rewrite Hc, Hs; simpl.
    apply String.eqb_neq in Hne. now rewrite Hne.
  - intros Hc Hs. unfold unknown_label. now rewrite Hc, Hs.
Qed.

(** *** Durations *)


(** C5.  For a number of seconds that is not negative: below a minute the
    seconds; below an hour the whole minutes and the remaining seconds;
    from an hour on the whole hours and the remaining minutes.  45 seconds
    print as 45s, 125 as 2m 5s, 7384 as 2h 3m. *)
Theorem format_duration_spec (s : Z) :
  0 <= s ->
  (s < 60 -> format_duration s = PyStr.of_Z s ++ "s")
  /\ (60 <= s < 3600 ->
      format_duration s
      = PyStr.of_Z (s / 60) ++ "m " ++ PyStr.of_Z (s mod 60) ++ "s")
  /\ (3600 <= s ->
      format_duration s
      = PyStr.of_Z (s / 3600) ++ "h " ++ PyStr.of_Z (s mod 3600 / 60) ++ "m")
  /\ format_duration 45 = "45s"
  /\ format_duration 125 = "2m 5s"
  /\ format_duration 7384 = "2h 3m".
Proof.
  intros Hs. unfold format_duration.
  repeat split.
  - intros H. apply Z.ltb_lt in H. now rewrite H.
  - intros [H1 H2].
    assert (Hs60 : (s <? 60) = false) by (apply Z.ltb_ge; lia).
    assert (Hm : (s / 60 <? 60) = true).
    { apply Z.ltb_lt. apply Z.div_lt_upper_bound; lia. }
    now rewrite Hs60, Hm.
  - intros H.
    assert (Hs60 : (s <? 60) = false) by (apply Z.ltb_ge; lia).
    assert (Hm : (s / 60 <? 60) = false).
    { apply Z.ltb_ge. apply Z.div_le_lower_bound; lia. }
    rewrite Hs60, Hm.
    assert (E1 : s / 60 / 60 = s / 3600).
    { rewrite Z.div_div by lia. reflexivity. }
    assert (E2 : (s / 60) mod 60 = s mod 3600 / 60).
    { change 3600 with (60 * 60).
      rewrite Z.rem_mul_r by lia.
      rewrite Z.mul_comm, Z.div_add by lia.
      rewrite (Z.div_small (s mod 60)) by (apply Z.mod_pos_bound; lia).
      reflexivity. }
    now rewrite E1, E2.
Qed.

(** *** Counting *)

(** The record's status key is the string [k]. *)
Definition has_key (k : string) (r : value) : bool :=
  match subscript r "status_key" with
  | Ret v => eq_str v k
  | _ => false
  end.

(** The number of records whose status key is [k]. *)
Definition count_key (k : string) (data : list value) : Z :=
  Z.of_nat (List.length (filter (has_key k) data)).

Lemma key_eqb_str_r (v : value) (k : string) :
  key_eqb v (VStr k) = eq_str v k.
Proof. now destruct v as [| [] | | | |]. Qed.

Lemma key_eqb_str_l (v : value) (k : string) :
  key_eqb (VStr k) v = eq_str v k.
Proof.
  destruct v as [| [] | | t | |]; simpl; try reflexivity.
  apply String.eqb_sym.
Qed.

Lemma eq_str_true (v : value) (k : string) : eq_str v k = true <-> v = VStr k.
Proof.
  destruct v; simpl; split; try discriminate; intros H.
  - apply String.eqb_eq in H. now subst.
  - injection H as ->. apply String.eqb_refl.
Qed.

Lemma sum_values_set (c : counts) (k : value) :
  sum_values (counts_set c k (counts_get c k 0 + 1)) = sum_values c + 1.
Proof.
  induction c as [|[k0 n0] c IH]; simpl.
  - lia.
  - destruct (key_eqb k0 k); simpl.
    + lia.
    + rewrite IH. lia.
Qed.

Lemma counts_get_set (c : counts) (k : value) (n : Z) (k' : string) (d : Z) :
  counts_get (counts_set c k n) (VStr k') d
  = if eq_str k k' then n else counts_get c (VStr k') d.
Proof.
  induction c as [|[k0 n0] c IH]; simpl.
  - now rewrite key_eqb_str_r.
  - destruct (key_eqb k0 k) eqn:E0; simpl; rewrite !key_eqb_str_r.
    + destruct (eq_str k k') eqn:E1.
      * apply eq_str_true in E1; subst k.
        rewrite key_eqb_str_r in E0. now rewrite E0.
      * destruct (eq_str k0 k') eqn:E2; [|reflexivity].
        apply eq_str_true in E2; subst k0.
        rewrite key_eqb_str_l in E0. congruence.
    + rewrite IH. destruct (eq_str k k') eqn:E1; [|reflexivity].
      apply eq_str_true in E1; subst k.
      rewrite key_eqb_str_r in E0. now rewrite E0.
Qed.

Lemma count_loop_sum (data : list value) :
  forall c c', count_loop data c = Ret c' ->
  sum_values c' = sum_values c + Z.of_nat (List.length data).
Proof.
  induction data as [|r data IH]; intros c c' H.
  - injection H as <-. simpl. lia.
  - cbn [count_loop] in H.
    destruct (subscript r "status_key") as [k| | |]; try discriminate.
    cbn [obind] in H.
    destruct (hashable k); try discriminate.
    cbn [obind] in H.
    apply IH in H. rewrite H, sum_values_set.
    cbn [List.length]. lia.
Qed.

Lemma count_loop_get (data : list value) (k : string) :
  forall c c', count_loop data c = Ret c' ->
  counts_get c' (VStr k) 0 = counts_get c (VStr k) 0 + count_key k data.
Proof.
  unfold count_key.
  induction data as [|r data IH]; intros c c' H.
  - injection H as <-. simpl. lia.
  - cbn [count_loop] in H. cbn [filter]. unfold has_key at 1.
    destruct (subscript r "status_key") as [v| | |]; try discriminate.
    cbn [obind] in H.
    destruct (hashable v); try discriminate.
    cbn [obind] in H.
    apply IH in H. rewrite H, counts_get_set.
    destruct (eq_str v k) eqn:E.
    + apply eq_str_true in E; subst v.
      cbn [List.length]. lia.
    + lia.
Qed.

Lemma count_loop_total (data : list value) :
  Forall (fun r => exists k, subscript r "status_key" = Ret k
                             /\ hashable k = Ret tt) data ->
  forall c, exists c', count_loop data c = Ret c'.
Proof.
  induction 1 as [|r data (k & Hk & Hh) _ IH]; intros c.
  - now exists c.
  - cbn [count_loop]. rewrite Hk; cbn [obind]. rewrite Hh; cbn [obind].
    apply IH.
Qed.

Lemma has_key_cases (r : value) :
  (exists s, forall k, has_key k r = String.eqb s k)
  \/ (forall k, has_key k r = false).
Proof.
  unfold has_key.
  destruct (subscript r "status_key") as [v| | |]; auto.
  destruct v; simpl; auto.
  left. now exists s.
Qed.

Lemma filter_cons_length {A} (f : A -> bool) (x : A) (l : list A) :
  Z.of_nat (List.length (filter f (x :: l)))
  = (if f x then 1 else 0) + Z.of_nat (List.length (filter f l)).
Proof. cbn [filter]. destruct (f x); cbn [List.length]; lia. Qed.

(** Decide every test of a string against a literal in the goal, and drop
    the cases where it would equal two different literals. *)
Ltac decide_keys :=
  repeat match goal with
         | |- context [String.eqb ?s ?lit] =>
             let E := fresh "E" in
             destruct (String.eqb s lit) eqn:E
         end;
  repeat match goal with
         | E : String.eqb _ _ = true |- _ => apply String.eqb_eq in E
         | E : String.eqb _ _ = false |- _ => apply String.eqb_neq in E
         end;
  try congruence.

Lemma named_keys_le_total (data : list value) :
  count_key "failure" data + count_key "success" data
  + count_key "running" data + count_key "no_ci" data
  <= Z.of_nat (List.length data).
Proof.
  unfold count_key.
  induction data as [|r data IH]; [simpl; lia|].
  rewrite !filter_cons_length. cbn [List.length].
  destruct (has_key_cases r) as [[s Hs] | Hn].
  - rewrite !Hs. decide_keys; lia.
  - rewrite !Hn. lia.
Qed.

Lemma closed_keys_partition (data : list value) :
  Forall (fun r => exists k, subscript r "status_key" = Ret (VStr k)
                             /\ In k status_keys) data ->
  Z.of_nat (List.length data)
  = count_key "failure" data + count_key "success" data
    + count_key "running" data + count_key "no_ci" data
    + count_key "cancelled" data + count_key "unknown" data.
Proof.
  unfold count_key.
  induction 1 as [|r data (k & Hk & Hin) _ IH]; [reflexivity|].
  rewrite !filter_cons_length. cbn [List.length].
  assert (Hh : forall k', has_key k' r = String.eqb k k')
    by (intros k'; unfold has_key; now rewrite Hk).
  rewrite !Hh.
  simpl in Hin.
  destruct Hin as [<- | [<- | [<- | [<- | [<- | [<- | []]]]]]];
    decide_keys; lia.
Qed.

Lemma other_span_empty (other : Z) :
  other_span other = EmptyString <-> other <= 0.
Proof.
  unfold other_span.
  destruct (other >? 0) eqn:E.
  - apply Z.gtb_lt in E. split; [discriminate | lia].
  - split; [|reflexivity]. intros _.
    destruct (Z.gtb_spec other 0); [discriminate | lia].
Qed.

(** *** The copy-to-clipboard control *)







(** *** The network *)

(** The requests the script sends. *)
Definition runs_request (repo_name : value) : request :=
  mkRequest (runs_url repo_name) HEADERS (VDict [("per_page", VInt 1)]) 30.

Definition page_request (page : Z) : request :=
  mkRequest repos_url HEADERS
    (VDict [("per_page", VInt 100); ("page", VInt page); ("type", VStr "all")])
    30.

Lemma result_bind_lift {A B} (o : outcome A) (k : A -> M B) :
  result (bind (lift o) k)
  = match o with
    | Ret a => result (k a)
    | Raise e => Raise e
    | Exit c => Exit c
    | OutOfFuel => OutOfFuel
    end.
Proof. destruct o; try reflexivity. now rewrite bind_lift_ret. Qed.

Lemma api_get_response (url : string) (params : dict) (resp : response) :
  params <> [] ->
  http (mkRequest url HEADERS (VDict params) 30) = Response resp ->
  rate_limited resp = false ->
  api_get url (VDict params)
  = ([EvGet (mkRequest url HEADERS (VDict params) 30)], Ret resp).
Proof.
  intros Hp Hhttp Hrl. unfold api_get, requests_get.
  assert (E : py_or (VDict params) (VDict []) = VDict params)
    by (destruct params; [contradiction | reflexivity]).
  rewrite E, Hhttp. cbn [bind]. now rewrite Hrl.
Qed.

Lemma api_get_exits (url : string) (params : dict) (resp : response) :
  params <> [] ->
  http (mkRequest url HEADERS (VDict params) 30) = Response resp ->
  rate_limited resp = true ->
  result (api_get url (VDict params)) = Exit 1.
Proof.
  intros Hp Hhttp Hrl. unfold api_get, requests_get.
  assert (E : py_or (VDict params) (VDict []) = VDict params)
    by (destruct params; [contradiction | reflexivity]).
  rewrite E, Hhttp. cbn [bind]. now rewrite Hrl.
Qed.

(** What [get_latest_run] makes of the response it got. *)
Definition run_of_response (resp : response) : outcome value :=
  if negb (status_code resp =? 200) then Ret VNone
  else
    body <~ resp_json resp ;;
    runs <~ dot_get body "workflow_runs" VNone ;;
    if negb (truthy runs) then Ret VNone
    else
      runs' <~ subscript body "workflow_runs" ;;
      first_item runs'.

Lemma get_latest_run_result (name : value) (resp : response) :
  http (runs_request name) = Response resp ->
  rate_limited resp = false ->
  get_latest_run name = ([EvGet (runs_request name)], run_of_response resp).
Proof.
  intros Hhttp Hrl. unfold get_latest_run, runs_params.
  rewrite (api_get_response _ _ resp); [|discriminate|exact Hhttp|exact Hrl].
  unfold run_of_response, runs_request.
  cbn [bind].
  destruct (negb (status_code resp =? 200)); [reflexivity|].
  destruct (resp_json resp) as [body| | |]; try reflexivity.
  cbn [lift ret bind obind].
  destruct (dot_get body "workflow_runs" VNone) as [runs| | |]; try reflexivity.
  cbn [lift ret bind obind].
  destruct (negb (truthy runs)); [reflexivity|].
  cbn [lift ret bind obind].
  destruct (subscript body "workflow_runs") as [runs'| | |]; try reflexivity.
Qed.

Lemma result_bind {A B} (m : M A) (k : A -> M B) :
  result (bind m k)
  = match result m with
    | Ret a => result (k a)
    | Raise e => Raise e
    | Exit c => Exit c
    | OutOfFuel => OutOfFuel
    end.
Proof.
  destruct m as [t [a| | |]]; try reflexivity.
  unfold bind, result; simpl. now destruct (k a).
Qed.

(** The record [build_repo_data] starts from, before any field of a run. *)
Definition base_entry (d : dict) (name url : value)
  (info : string * value * string) : dict :=
  let '(status_key, status_label, status_icon) := info in
  [("name", name);
   ("url", url);
   ("private", get_or d "private" (VBool false));
   ("status_key", VStr status_key);
   ("status_label", status_label);
   ("status_icon", VStr status_icon)].

(** The entry of a repository, from the run that was fetched for it. *)
Definition entry_of_run (d : dict) (name url run : value) : outcome value :=
  info <~ get_status_info run ;;
  if truthy run then
    fields <~ run_fields run ;;
    Ret (VDict (dict_update (base_entry d name url info) fields))
  else Ret (VDict (base_entry d name url info)).

Lemma build_entry_result (d : dict) (name url : value) (resp : response) :
  dict_get d "name" = Some name ->
  dict_get d "html_url" = Some url ->
  http (runs_request name) = Response resp ->
  rate_limited resp = false ->
  result (build_entry (VDict d))
  = run <~ run_of_response resp ;; entry_of_run d name url run.
Proof.
  intros Hname Hurl Hhttp Hrl. unfold build_entry.
  cbn [subscript dot_get]. rewrite Hname, Hurl.
  rewrite bind_lift_ret, result_bind. cbn [print result snd].
  rewrite result_bind, (get_latest_run_result name resp Hhttp Hrl).
  cbn [result snd].
  destruct (run_of_response resp) as [run| | |]; try reflexivity.
  cbn [obind]. unfold entry_of_run.
  rewrite result_bind_lift.
  destruct (get_status_info run) as [[[k l] i]| | |]; try reflexivity.
  cbn [obind]. rewrite !bind_lift_ret. unfold base_entry.
  destruct (truthy run); [|reflexivity].
  rewrite result_bind_lift.
  now destruct (run_fields run).
Qed.

Lemma build_loop_cons (repo : value) (rest results : list value) :
  result (build_loop (repo :: rest) results)
  = match result (build_entry repo) with
    | Ret entry => result (build_loop rest (results ++ [entry])%list)
    | Raise e => Raise e
    | Exit c => Exit c
    | OutOfFuel => OutOfFuel
    end.
Proof. cbn [build_loop]. apply result_bind. Qed.

(** C8, as amended.  When the server answers the run request of a
    repository with a response that is not the rate-limit refusal, and the
    response is either not a 200 or a JSON object without a non-empty
    workflow_runs, [get_latest_run] returns None; None classifies as no_ci
    with the label Sin CI and the warning icon; the record of the
    repository is the plain record with that classification, and the loop
    goes on with the repositories that are left.  When the answer is the
    rate-limit refusal, the process exits with status 1. *)
Theorem get_latest_run_absent (name : value) (resp : response) :
  http (runs_request name) = Response resp ->
  (rate_limited resp = false ->
   (status_code resp <> 200
    \/ exists body, json_body resp = Some (VDict body)
                    /\ truthy (get_or body "workflow_runs" VNone) = false) ->
   result (get_latest_run name) = Ret VNone
   /\ get_status_info VNone = Ret ("no_ci", VStr "Sin CI", "⚠️")
   /\ forall d url rest results,
        dict_get d "name" = Some name ->
        dict_get d "html_url" = Some url ->
        let entry :=
          VDict [("name", name);
                 ("url", url);
                 ("private", get_or d "private" (VBool false));
                 ("status_key", VStr "no_ci");
                 ("status_label", VStr "Sin CI");
                 ("status_icon", VStr "⚠️")] in
        result (build_entry (VDict d)) = Ret entry
        /\ result (build_loop (VDict d :: rest) results)
           = result (build_loop rest (results ++ [entry])%list))
  /\ (rate_limited resp = true -> result (get_latest_run name) = Exit 1).
Proof.
  intros Hhttp. split.
  - intros Hrl Hfail.
    assert (Hrun : run_of_response resp = Ret VNone).
    { unfold run_of_response.
      destruct Hfail as [Hne | (body & Hbody & Hruns)].
      - apply Z.eqb_neq in Hne. now rewrite Hne.
      - destruct (negb (status_code resp =? 200)); [reflexivity|].
        unfold resp_json. rewrite Hbody. cbn [obind dot_get].
        now rewrite Hruns. }
    split; [|split].
    + rewrite (get_latest_run_result name resp Hhttp Hrl). exact Hrun.
    + reflexivity.
    + intros d url rest results Hname Hurl entry.
      assert (He : result (build_entry (VDict d)) = Ret entry).
      { rewrite (build_entry_result d name url resp Hname Hurl Hhttp Hrl), Hrun.
        reflexivity. }
      split; [exact He|].
      now rewrite build_loop_cons, He.
  - intros Hrl. unfold get_latest_run, runs_params.
    rewrite result_bind.
    now rewrite (api_get_exits _ _ resp); [|discriminate|exact Hhttp|exact Hrl].
Qed.

(** *** Pagination *)

Lemma trace_bind {A B} (m : M A) (k : A -> M B) :
  trace (bind m k)
  = (trace m ++ match result m with
                | Ret a => trace (k a)
                | _ => []
                end)%list.
Proof.
  destruct m as [t [a| | |]]; unfold bind, trace, result; simpl;
    try now rewrite app_nil_r.
  now destruct (k a).
Qed.

Lemma requests_of_app (t u : list event) :
  requests_of (t ++ u) = (requests_of t ++ requests_of u)%list.
Proof. apply flat_map_app. Qed.

(** The server answers the request for [page] with a 200 whose body is the
    non-empty JSON list [items]. *)
Definition serves (page : Z) (items : list value) : Prop :=
  exists resp,
    http (page_request page) = Response resp
    /\ status_code resp = 200
    /\ json_body resp = Some (VList items)
    /\ items <> [].

(** It serves [pages], one after the other, from [page] on. *)
Fixpoint serves_from (page : Z) (pages : list (list value)) : Prop :=
  match pages with
  | [] => True
  | items :: rest => serves page items /\ serves_from (page + 1) rest
  end.

(** The answer for [page] ends the listing: it is not the rate-limit
    refusal, and it is not a 200 or its body is an empty collection. *)
Definition ends_listing (page : Z) : Prop :=
  exists resp,
    http (page_request page) = Response resp
    /\ rate_limited resp = false
    /\ (status_code resp <> 200
        \/ exists v, json_body resp = Some v /\ truthy v = false).

(** [n] page numbers from [start]. *)
Fixpoint page_numbers (start : Z) (n : nat) : list Z :=
  match n with
  | O => []
  | S n' => start :: page_numbers (start + 1) n'
  end.

Lemma get_all_repos_loop_spec (pages : list (list value)) :
  forall (page : Z) (repos : list value) (fuel : nat),
  serves_from page pages ->
  ends_listing (page + Z.of_nat (List.length pages)) ->
  (List.length pages < fuel)%nat ->
  result (get_all_repos_loop fuel repos page)
  = Ret (repos ++ List.concat pages)%list
  /\ requests_of (trace (get_all_repos_loop fuel repos page))
     = map page_request (page_numbers page (S (List.length pages))).
Proof.
  induction pages as [|items pages IH]; intros page repos fuel Hserve Hend Hfuel;
    (destruct fuel as [|fuel]; [cbn [List.length] in Hfuel; lia|]).
  - cbn [List.length Z.of_nat] in Hend. rewrite Z.add_0_r in Hend.
    destruct Hend as (resp & Hhttp & Hrl & Hstop).
    cbn [get_all_repos_loop]. unfold repos_params.
    rewrite (api_get_response _ _ resp); [|discriminate|exact Hhttp|exact Hrl].
    rewrite result_bind, trace_bind.
    cbn [result trace fst snd List.concat page_numbers map List.length].
    rewrite app_nil_r.
    destruct Hstop as [Hne | (v & Hv & Hfalsy)].
    + apply Z.eqb_neq in Hne. rewrite Hne. cbn [negb].
      split; reflexivity.
    + destruct (negb (status_code resp =? 200)); [split; reflexivity|].
      unfold resp_json. rewrite Hv, bind_lift_ret, Hfalsy.
      split; reflexivity.
  - cbn [serves_from] in Hserve.
    destruct Hserve as [(resp & Hhttp & H200 & Hbody & Hne) Hrest].
    assert (Hrl : rate_limited resp = false)
      by (unfold rate_limited; now rewrite H200).
    cbn [List.length] in Hend, Hfuel.
    destruct (IH (page + 1) (repos ++ items)%list fuel Hrest) as [IHr IHt].
    { replace (page + 1 + Z.of_nat (List.length pages))
        with (page + Z.of_nat (S (List.length pages))) by lia.
      exact Hend. }
    { lia. }
    cbn [get_all_repos_loop]. unfold repos_params.
    rewrite (api_get_response _ _ resp); [|discriminate|exact Hhttp|exact Hrl].
    rewrite result_bind, trace_bind.
    cbn [result trace fst snd].
    rewrite H200. cbn [Z.eqb Pos.eqb negb].
    unfold resp_json. rewrite Hbody, bind_lift_ret.
    assert (Htruthy : truthy (VList items) = true)
      by (destruct items; [contradiction | reflexivity]).
    rewrite Htruthy. cbn [negb iter_items]. rewrite bind_lift_ret.
    fold (result (get_all_repos_loop fuel (repos ++ items) (page + 1))).
    fold (trace (get_all_repos_loop fuel (repos ++ items) (page + 1))).
    rewrite IHr. split.
    + cbn [List.concat]. now rewrite app_assoc.
    + rewrite requests_of_app, IHt. reflexivity.
Qed.

(** The answer for [page] is the rate-limit refusal. *)
Definition refuses (page : Z) : Prop :=
  exists resp,
    http (page_request page) = Response resp /\ rate_limited resp = true.

Lemma get_all_repos_loop_refused (pages : list (list value)) :
  forall (page : Z) (repos : list value) (fuel : nat),
  serves_from page pages ->
  refuses (page + Z.of_nat (List.length pages)) ->
  (List.length pages < fuel)%nat ->
  result (get_all_repos_loop fuel repos page) = Exit 1.
Proof.
  induction pages as [|items pages IH]; intros page repos fuel Hserve Hend Hfuel;
    (destruct fuel as [|fuel]; [cbn [List.length] in Hfuel; lia|]).
  - cbn [List.length Z.of_nat] in Hend. rewrite Z.add_0_r in Hend.
    destruct Hend as (resp & Hhttp & Hrl).
    cbn [get_all_repos_loop]. unfold repos_params. rewrite result_bind.
    now rewrite (api_get_exits _ _ resp); [|discriminate|exact Hhttp|exact Hrl].
  - cbn [serves_from] in Hserve.
    destruct Hserve as [(resp & Hhttp & H200 & Hbody & Hne) Hrest].
    assert (Hrl : rate_limited resp = false)
      by (unfold rate_limited; now rewrite H200).
    cbn [List.length] in Hend, Hfuel.
    cbn [get_all_repos_loop]. unfold repos_params.
    rewrite (api_get_response _ _ resp); [|discriminate|exact Hhttp|exact Hrl].
    rewrite result_bind. cbn [result snd].
    rewrite H200. cbn [Z.eqb Pos.eqb negb].
    unfold resp_json. rewrite Hbody, bind_lift_ret.
    assert (Htruthy : truthy (VList items) = true)
      by (destruct items; [contradiction | reflexivity]).
    rewrite Htruthy. cbn [negb iter_items]. rewrite bind_lift_ret.
    apply IH; [exact Hrest| |lia].
    replace (page + 1 + Z.of_nat (List.length pages))
      with (page + Z.of_nat (S (List.length pages))) by lia.
    exact Hend.
Qed.

(** C9, as amended.  [get_all_repos] asks for pages of 100 from page 1 on,
    one request per page.  When the server serves the non-empty [pages]
    and then answers with something that is not the rate-limit refusal and
    is either not a 200 or an empty collection, the loop stops at that
    answer: the requests sent are exactly those for the pages served and
    the one that ended the listing (it is not asked again), and the result
    is every repository of the pages served, in order.  When the answer
    after the pages served is the rate-limit refusal, the process exits
    with status 1. *)
Theorem get_all_repos_pages (pages : list (list value)) (fuel : nat) :
  serves_from 1 pages ->
  (List.length pages < fuel)%nat ->
  (ends_listing (1 + Z.of_nat (List.length pages)) ->
   result (get_all_repos fuel) = Ret (List.concat pages)
   /\ requests_of (trace (get_all_repos fuel))
      = map (fun page =>
               mkRequest repos_url HEADERS
                 (VDict [("per_page", VInt 100);
                         ("page", VInt page);
                         ("type", VStr "all")])
                 30)
            (page_numbers 1 (S (List.length pages))))
  /\ (refuses (1 + Z.of_nat (List.length pages)) ->
      result (get_all_repos fuel) = Exit 1).
Proof.
  intros Hserve Hfuel. split; intros Hend.
  - exact (get_all_repos_loop_spec pages 1 [] fuel Hserve Hend Hfuel).
  - exact (get_all_repos_loop_refused pages 1 [] fuel Hserve Hend Hfuel).
Qed.

(** *** Sorting *)

Lemma ltb_asym (s t : string) : String.ltb s t = true -> String.ltb t s = false.
Proof.
  unfold String.ltb. rewrite (String.compare_antisym t s).
  now destruct (String.compare s t).
Qed.

Lemma ltb_false_leb (s t : string) :
  String.ltb t s = false -> String.leb s t = true.
Proof.
  unfold String.ltb, String.leb. rewrite (String.compare_antisym t s).
  now destruct (String.compare s t).
Qed.

Lemma key_lt_asym (a b : Z * string) : key_lt a b = true -> key_lt b a = false.
Proof.
  unfold key_lt. destruct a as [ra na], b as [rb nb]; cbn [fst snd].
  intros H. apply orb_true_iff in H.
  destruct H as [H | H].
  - apply Z.ltb_lt in H.
    apply orb_false_iff; split.
    + apply Z.ltb_ge. lia.
    + apply andb_false_iff; left. apply Z.eqb_neq. lia.
  - apply andb_true_iff in H as [He Hl]. apply Z.eqb_eq in He. subst rb.
    rewrite Z.ltb_irrefl, Z.eqb_refl. cbn [orb andb]. now apply ltb_asym.
Qed.

(** Two keys in order: the ranks ascend, and names ascend within a rank. *)
Definition key_le (a b : Z * string) : Prop :=
  fst a <= fst b /\ (fst a = fst b -> String.leb (snd a) (snd b) = true).

Lemma key_lt_false (a b : Z * string) : key_lt b a = false -> key_le a b.
Proof.
  unfold key_lt, key_le. destruct a as [ra na], b as [rb nb]; cbn [fst snd].
  intros H. apply orb_false_iff in H as [H1 H2].
  apply Z.ltb_ge in H1. split; [exact H1|].
  intros ->. rewrite Z.eqb_refl in H2. cbn [andb] in H2.
  now apply ltb_false_leb.
Qed.

Section Keyed.
Context {A : Type}.

(** The order the sort leaves between neighbours. *)
Definition not_after (x y : (Z * string) * A) : Prop := key_lt (fst y) (fst x) = false.

Lemma insert_keyed_perm (x : (Z * string) * A) (l : list ((Z * string) * A)) :
  Permutation (insert_keyed x l) (x :: l).
Proof.
  induction l as [|y l IH]; cbn [insert_keyed]; [reflexivity|].
  destruct (key_lt (fst y) (fst x)); [|reflexivity].
  rewrite IH. apply perm_swap.
Qed.

Lemma sort_keyed_perm (l : list ((Z * string) * A)) : Permutation (sort_keyed l) l.
Proof.
  induction l as [|x l IH]; cbn [sort_keyed fold_right]; [reflexivity|].
  fold (sort_keyed l). rewrite insert_keyed_perm. now constructor.
Qed.

Lemma insert_keyed_hd (x y : (Z * string) * A) (l : list ((Z * string) * A)) :
  not_after y x -> HdRel not_after y l -> HdRel not_after y (insert_keyed x l).
Proof.
  intros Hyx Hl. destruct l as [|z l]; cbn [insert_keyed].
  - now constructor.
  - inversion Hl; subst.
    destruct (key_lt (fst z) (fst x)); now constructor.
Qed.

Lemma insert_keyed_sorted (x : (Z * string) * A) (l : list ((Z * string) * A)) :
  Sorted not_after l -> Sorted not_after (insert_keyed x l).
Proof.
  induction 1 as [|y l Hs IH Hhd]; cbn [insert_keyed].
  - repeat constructor.
  - destruct (key_lt (fst y) (fst x)) eqn:E.
    + constructor; [exact IH|].
      apply insert_keyed_hd; [|exact Hhd].
      now apply key_lt_asym.
    + constructor; [now constructor|].
      now constructor.
Qed.

Lemma sort_keyed_sorted (l : list ((Z * string) * A)) : Sorted not_after (sort_keyed l).
Proof.
  induction l as [|x l IH]; cbn [sort_keyed fold_right]; [constructor|].
  now apply insert_keyed_sorted.
Qed.

End Keyed.

Lemma map_outcome_ret {A B} (f : A -> outcome B) (l : list A) (ys : list B) :
  map_outcome f l = Ret ys -> Forall2 (fun x y => f x = Ret y) l ys.
Proof.
  revert ys. induction l as [|x l IH]; intros ys H; cbn [map_outcome] in H.
  - injection H as <-. constructor.
  - destruct (f x) as [y| | |] eqn:Ex; try discriminate. cbn [obind] in H.
    destruct (map_outcome f l) as [ys'| | |]; try discriminate.
    cbn [obind] in H. injection H as <-.
    constructor; auto.
Qed.

Lemma map_outcome_total {A B} (f : A -> outcome B) (l : list A) :
  Forall (fun x => exists y, f x = Ret y) l -> exists ys, map_outcome f l = Ret ys.
Proof.
  induction 1 as [|x l [y Hy] _ [ys IH]]; cbn [map_outcome].
  - now exists [].
  - rewrite Hy, IH. cbn [obind]. now eexists.
Qed.

Lemma Forall2_combine {A B} (P : A -> B -> Prop) (l : list A) (ys : list B) :
  Forall2 P l ys ->
  map snd (combine ys l) = l /\ Forall (fun p => P (snd p) (fst p)) (combine ys l).
Proof.
  induction 1 as [|x y l ys Hxy _ [IH1 IH2]]; cbn [combine map snd].
  - split; constructor.
  - rewrite IH1. split; [reflexivity|]. now constructor.
Qed.

(** Two records in the order of their sort keys. *)
Definition sorted_by_key (r1 r2 : value) : Prop :=
  exists a b, sort_key r1 = Ret a /\ sort_key r2 = Ret b /\ key_le a b.

Lemma Sorted_map_snd (l : list ((Z * string) * value)) :
  Sorted not_after l ->
  Forall (fun p => sort_key (snd p) = Ret (fst p)) l ->
  Sorted sorted_by_key (map snd l).
Proof.
  induction 1 as [|x l Hs IH Hhd]; intros Hall; cbn [map]; [constructor|].
  inversion Hall as [|? ? Hx Hl]; subst.
  constructor; [now apply IH|].
  destruct Hhd as [|y l Hxy]; cbn [map]; constructor.
  inversion Hl as [|? ? Hy _]; subst.
  exists (fst x), (fst y). repeat split; try assumption;
    now apply key_lt_false.
Qed.

Lemma sort_results_spec (results sorted : list value) :
  sort_results results = Ret sorted ->
  Permutation sorted results /\ Sorted sorted_by_key sorted.
Proof.
  unfold sort_results. intros H.
  destruct (map_outcome sort_key results) as [keys| | |] eqn:Ek;
    try discriminate.
  cbn [obind] in H. injection H as <-.
  apply map_outcome_ret in Ek.
  destruct (Forall2_combine _ _ _ Ek) as [Hsnd Hkeys].
  split.
  - rewrite <- Hsnd at 2. apply Permutation_map, sort_keyed_perm.
  - apply Sorted_map_snd; [apply sort_keyed_sorted|].
    rewrite Forall_forall in *. intros p Hp. apply Hkeys.
    eapply Permutation_in; [apply sort_keyed_perm | exact Hp].
Qed.

(** *** The report builder *)

(** Split a hypothesis that a chain of steps returned into its steps. *)
Ltac split_steps H :=
  repeat match type of H with
         | obind ?o _ = Ret _ =>
             let E := fresh "E" in
             destruct o eqn:E; cbn [obind] in H; try discriminate H
         | (if ?b then _ else _) = Ret _ =>
             let E := fresh "E" in
             destruct b eqn:E; try discriminate H
         end.

Lemma get_status_info_key (run : value) (k : string) (l : value) (i : string) :
  get_status_info run = Ret (k, l, i) -> In k status_keys.
Proof.
  unfold get_status_info. intros H. split_steps H;
    injection H as <- <- <-; simpl; auto 7.
Qed.

Lemma run_fields_shape (run : value) (fields : dict) :
  run_fields run = Ret fields ->
  exists run_url run_name branch commit_msg commit_date duration workflow,
    fields = [("run_url", run_url);
              ("run_name", run_name);
              ("branch", branch);
              ("commit_msg", commit_msg);
              ("commit_date", VStr commit_date);
              ("duration", VStr duration);
              ("workflow", workflow)].
Proof.
  unfold run_fields. intros H. split_steps H;
    injection H as <-; repeat eexists.
Qed.

Lemma build_entry_pure (repo : value) :
  result (build_entry repo)
  = name <~ subscript repo "name" ;;
    run <~ result (get_latest_run name) ;;
    info <~ get_status_info run ;;
    url <~ subscript repo "html_url" ;;
    private <~ dot_get repo "private" (VBool false) ;;
    let entry :=
      [("name", name);
       ("url", url);
       ("private", private);
       ("status_key", VStr (fst (fst info)));
       ("status_label", snd (fst info));
       ("status_icon", VStr (snd info))] in
    if truthy run then
      fields <~ run_fields run ;;
      Ret (VDict (dict_update entry fields))
    else Ret (VDict entry).
Proof.
  unfold build_entry.
  rewrite result_bind_lift.
  destruct (subscript repo "name") as [name| | |]; try reflexivity.
  cbn [obind]. rewrite result_bind. cbn [print result snd].
  rewrite result_bind.
  destruct (result (get_latest_run name)) as [run| | |]; try reflexivity.
  cbn [obind]. rewrite result_bind_lift.
  destruct (get_status_info run) as [[[k l] i]| | |]; try reflexivity.
  cbn [obind fst snd]. rewrite result_bind_lift.
  destruct (subscript repo "html_url") as [url| | |]; try reflexivity.
  cbn [obind]. rewrite result_bind_lift.
  destruct (dot_get repo "private" (VBool false)) as [private| | |];
    try reflexivity.
  cbn [obind].
  destruct (truthy run); [|reflexivity].
  rewrite result_bind_lift.
  now destruct (run_fields run).
Qed.

(** A record whose status key is one of the closed set. *)
Definition classified (r : value) : Prop :=
  exists k, subscript r "status_key" = Ret (VStr k) /\ In k status_keys.

Lemma build_entry_classified (repo entry : value) :
  result (build_entry repo) = Ret entry -> classified entry.
Proof.
  rewrite build_entry_pure. intros H.
  destruct (subscript repo "name") as [name| | |]; try discriminate.
  cbn [obind] in H.
  destruct (result (get_latest_run name)) as [run| | |]; try discriminate.
  cbn [obind] in H.
  destruct (get_status_info run) as [[[k l] i]| | |] eqn:Einfo;
    try discriminate.
  cbn [obind fst snd] in H.
  destruct (subscript repo "html_url") as [url| | |]; try discriminate.
  cbn [obind] in H.
  destruct (dot_get repo "private" (VBool false)) as [private| | |];
    try discriminate.
  cbn [obind] in H.
  exists k. split; [|eapply get_status_info_key; eassumption].
  destruct (truthy run).
  - destruct (run_fields run) as [fields| | |] eqn:Ef; try discriminate.
    cbn [obind] in H. injection H as <-.
    apply run_fields_shape in Ef.
    destruct Ef as (a & b & c & d & e & f & g & ->). reflexivity.
  - injection H as <-. reflexivity.
Qed.

Lemma build_loop_spec (repos : list value) :
  forall results out,
  result (build_loop repos results) = Ret out ->
  exists entries,
    out = (results ++ entries)%list
    /\ List.length entries = List.length repos
    /\ Forall classified entries.
Proof.
  induction repos as [|repo repos IH]; intros results out H.
  - injection H as <-. exists []. rewrite app_nil_r. repeat constructor.
  - rewrite build_loop_cons in H.
    destruct (result (build_entry repo)) as [entry| | |] eqn:Ee;
      try discriminate.
    apply IH in H. destruct H as (entries & -> & Hlen & Hall).
    exists (entry :: entries). rewrite <- app_assoc.
    split; [reflexivity|]. split; [cbn [List.length]; now rewrite Hlen|].
    constructor; [|exact Hall].
    eapply build_entry_classified; eassumption.
Qed.

(** *** Inputs the report builder accepts *)

(** [v[:80]] does not raise. *)
Definition sliceable (v : value) : bool :=
  match v with
  | VStr _ | VList _ => true
  | _ => false
  end.

(** The datetime of a timestamp field: the field is a string and
    [fromisoformat] reads it once its [Z] is written as an offset. *)
Definition parse_time (v : value) : option datetime :=
  match v with
  | VStr s => fromisoformat (PyStr.replace_chr "Z" "+00:00" s)
  | _ => None
  end.

(** A run object that has what [build_repo_data] reads without a default:
    two timestamps that parse to datetimes of one kind, a URL, and a
    commit message (the display title, or the message of the head commit)
    that can be cut to 80 characters. *)
Definition run_readable (d : dict) : bool :=
  match dict_get d "created_at", dict_get d "updated_at" with
  | Some c, Some u =>
      match parse_time c, parse_time u with
      | Some created, Some updated =>
          Bool.eqb (aware updated) (aware created)
          && match dict_get d "html_url" with
             | Some _ => true
             | None => false
             end
          && (let title := get_or d "display_title" VNone in
              if truthy title then sliceable title
              else match get_or d "head_commit" (VDict []) with
                   | VDict head_commit =>
                       sliceable (get_or head_commit "message" (VStr EmptyString))
                   | _ => false
                   end)
      | _, _ => false
      end
  | _, _ => false
  end.

(** The creation time of a run object. *)
Definition run_created (d : dict) : option datetime :=
  match dict_get d "created_at" with
  | Some c => parse_time c
  | None => None
  end.

(** A usable run: one that can be read, and whose creation time has a
    place in the time zone of the dashboard. *)
Definition run_usable (d : dict) : bool :=
  run_readable d
  && match run_created d with
     | Some created =>
         match astimezone_art created with
         | Ret _ => true
         | _ => false
         end
     | None => false
     end.

(** What the first item of [workflow_runs] may be: null, the empty
    object, or a usable run. *)
Definition run_ok (run : value) : bool :=
  match run with
  | VNone => true
  | VDict [] => true
  | VDict d => run_usable d
  | _ => false
  end.

(** An answer to a run request that lets the batch go on: not the
    rate-limit refusal, and either not a 200, or a JSON object whose
    [workflow_runs] is absent, empty, or a list that starts with a run. *)
Definition response_ok (resp : response) : bool :=
  negb (rate_limited resp)
  && (negb (status_code resp =? 200)
      || match json_body resp with
         | Some (VDict body) =>
             match get_or body "workflow_runs" VNone with
             | VList (run :: _) => run_ok run
             | runs => negb (truthy runs)
             end
         | _ => false
         end).

(** A repository object with a string name and a URL, whose run request
    gets such an answer. *)
Definition repo_ok (repo : value) : bool :=
  match repo with
  | VDict d =>
      match dict_get d "name", dict_get d "html_url" with
      | Some (VStr n), Some _ =>
          match http (runs_request (VStr n)) with
          | Response resp => response_ok resp
          | NoResponse => false
          end
      | _, _ => false
      end
  | _ => false
  end.

Lemma run_fields_readable (d : dict) (c u : value) (created updated : datetime) :
  dict_get d "created_at" = Some c ->
  dict_get d "updated_at" = Some u ->
  parse_time c = Some created ->
  parse_time u = Some updated ->
  run_readable d = true ->
  exists run_url run_name branch commit_msg workflow,
    run_fields (VDict d)
    = _ <~ astimezone_art created ;;
      Ret [("run_url", run_url);
           ("run_name", run_name);
           ("branch", branch);
           ("commit_msg", commit_msg);
           ("commit_date", VStr (strftime_art created));
           ("duration",
            VStr (format_duration
                    (int_total_seconds (micros updated - micros created))));
           ("workflow", workflow)].
Proof.
  intros Hc Hu Hpc Hpu Hok. unfold run_readable in Hok.
  rewrite Hc, Hu, Hpc, Hpu in Hok.
  apply andb_true_iff in Hok as [Hok Hmsg].
  apply andb_true_iff in Hok as [Haware Hurl].
  destruct (dict_get d "html_url") as [run_url|] eqn:Eurl; [|discriminate].
  destruct c as [| | |cs| |]; try discriminate.
  destruct u as [| | |us| |]; try discriminate.
  cbn [parse_time] in Hpc, Hpu.
  unfold run_fields. cbn [subscript dot_get].
  rewrite Hc, Hu, Eurl. cbn [obind dot_replace]. rewrite Hpc, Hpu.
  cbn [obind]. unfold dt_sub. rewrite Haware. cbn [obind].
  cbv zeta in Hmsg.
  destruct (truthy (get_or d "display_title" VNone)).
  - destruct (get_or d "display_title" VNone); try discriminate;
      cbn [slice_to obind]; repeat eexists.
  - destruct (get_or d "head_commit" (VDict [])); try discriminate.
    cbn [dot_get obind].
    match goal with
    | H : sliceable ?m = true |- _ => destruct m; try discriminate
    end; cbn [slice_to obind]; repeat eexists.
Qed.

Lemma run_fields_usable (d : dict) (c u : value) (created updated : datetime) :
  dict_get d "created_at" = Some c ->
  dict_get d "updated_at" = Some u ->
  parse_time c = Some created ->
  parse_time u = Some updated ->
  run_usable d = true ->
  exists run_url run_name branch commit_msg workflow,
    run_fields (VDict d)
    = Ret [("run_url", run_url);
           ("run_name", run_name);
           ("branch", branch);
           ("commit_msg", commit_msg);
           ("commit_date", VStr (strftime_art created));
           ("duration",
            VStr (format_duration
                    (int_total_seconds (micros updated - micros created))));
           ("workflow", workflow)].
Proof.
  intros Hc Hu Hpc Hpu Hok. unfold run_usable, run_created in Hok.
  rewrite Hc, Hpc in Hok.
  apply andb_true_iff in Hok as [Hread Hzone].
  destruct (run_fields_readable d c u created updated Hc Hu Hpc Hpu Hread)
    as (f1 & f2 & f3 & f4 & f5 & Hfields).
  exists f1, f2, f3, f4, f5. rewrite Hfields.
  now destruct (astimezone_art created) as [[]| | |].
Qed.

Lemma run_fields_total (d : dict) :
  run_usable d = true -> exists fields, run_fields (VDict d) = Ret fields.
Proof.
  intros Hok. pose proof Hok as Hok'. unfold run_usable in Hok'.
  apply andb_true_iff in Hok' as [Hok' _]. unfold run_readable in Hok'.
  destruct (dict_get d "created_at") as [c|] eqn:Ec; [|discriminate].
  destruct (dict_get d "updated_at") as [u|] eqn:Eu; [|discriminate].
  destruct (parse_time c) as [created|] eqn:Epc; [|discriminate].
  destruct (parse_time u) as [updated|] eqn:Epu; [|discriminate].
  destruct (run_fields_usable d c u created updated Ec Eu Epc Epu Hok)
    as (a & b & e & f & g & H).
  eexists; exact H.
Qed.

Lemma get_status_info_dict (d : dict) :
  exists k l i, get_status_info (VDict d) = Ret (k, l, i).
Proof.
  unfold get_status_info. cbn [is_none dot_get obind].
  repeat match goal with
         | |- context [if ?b then _ else _] => destruct b
         end; repeat eexists.
Qed.

(** A record the sort can place: string status key, string name. *)
Definition sortable (r : value) : Prop :=
  exists k n, subscript r "status_key" = Ret (VStr k)
              /\ subscript r "name" = Ret (VStr n).

Lemma sort_key_sortable (r : value) (k n : string) :
  subscript r "status_key" = Ret (VStr k) ->
  subscript r "name" = Ret (VStr n) ->
  sort_key r = Ret (rank k, n).
Proof. intros Hk Hn. unfold sort_key. now rewrite Hk, Hn. Qed.

Lemma entry_of_run_ok (d : dict) (n : string) (url run : value) :
  run_ok run = true ->
  exists e, entry_of_run d (VStr n) url run = Ret e /\ sortable e.
Proof.
  intros Hok. unfold entry_of_run.
  destruct run as [| | | | |rd]; try discriminate.
  - cbn. eexists; split; [reflexivity|]. now exists "no_ci", n.
  - destruct (get_status_info_dict rd) as (k & l & i & Hinfo).
    rewrite Hinfo. cbn [obind].
    destruct rd as [|b rd].
    + cbn [truthy]. eexists; split; [reflexivity|]. now exists k, n.
    + cbn [truthy]. cbn [run_ok] in Hok.
      destruct (run_fields_total _ Hok) as [fields Hf].
      rewrite Hf. cbn [obind].
      apply run_fields_shape in Hf.
      destruct Hf as (f1 & f2 & f3 & f4 & f5 & f6 & f7 & ->).
      eexists; split; [reflexivity|]. now exists k, n.
Qed.

Lemma run_of_response_ok (resp : response) :
  response_ok resp = true ->
  rate_limited resp = false
  /\ exists run, run_of_response resp = Ret run /\ run_ok run = true.
Proof.
  unfold response_ok. intros H.
  apply andb_true_iff in H as [Hrl H].
  apply negb_true_iff in Hrl. split; [exact Hrl|].
  unfold run_of_response.
  destruct (negb (status_code resp =? 200)); [now exists VNone|].
  cbn [orb] in H. unfold resp_json.
  destruct (json_body resp) as [[| | | | |body]|]; try discriminate.
  cbn [obind dot_get]. unfold get_or in *. cbn [subscript].
  destruct (dict_get body "workflow_runs") as [runs|]; [|now exists VNone].
  destruct runs as [| | | |[|run l]|]; cbn [truthy negb] in *;
    try (now exists VNone);
    try (destruct (negb _); [now exists VNone | discriminate]).
  cbn [obind first_item]. now exists run.
Qed.

Lemma build_entry_ok (repo : value) :
  repo_ok repo = true ->
  exists e, result (build_entry repo) = Ret e /\ sortable e.
Proof.
  unfold repo_ok. intros H.
  destruct repo as [| | | | |d]; try discriminate.
  destruct (dict_get d "name") as [[| | |n| |]|] eqn:En; try discriminate.
  destruct (dict_get d "html_url") as [url|] eqn:Eu; [|discriminate].
  destruct (http (runs_request (VStr n))) as [resp|] eqn:Eh; [|discriminate].
  apply run_of_response_ok in H. destruct H as (Hrl & run & Hrun & Hok).
  rewrite (build_entry_result d (VStr n) url resp En Eu Eh Hrl), Hrun.
  cbn [obind]. now apply entry_of_run_ok.
Qed.

Lemma build_loop_total (repos : list value) :
  Forall (fun repo => repo_ok repo = true) repos ->
  forall results, Forall sortable results ->
  exists out, result (build_loop repos results) = Ret out /\ Forall sortable out.
Proof.
  induction 1 as [|repo repos Hok _ IH]; intros results Hres.
  - now exists results.
  - rewrite build_loop_cons.
    destruct (build_entry_ok repo Hok) as (e & -> & He).
    apply IH. apply Forall_app. split; [exact Hres|]. now repeat constructor.
Qed.

Lemma result_build_repo_data (repos : list value) :
  result (build_repo_data repos)
  = results <~ result (build_loop repos []) ;; sort_results results.
Proof.
  unfold build_repo_data. rewrite result_bind.
  now destruct (result (build_loop repos [])).
Qed.

Lemma build_repo_data_total (repos : list value) :
  Forall (fun repo => repo_ok repo = true) repos ->
  exists results, result (build_repo_data repos) = Ret results.
Proof.
  intros Hok. rewrite result_build_repo_data.
  destruct (build_loop_total repos Hok [] (Forall_nil _)) as (out & -> & Hs).
  cbn [obind]. unfold sort_results.
  destruct (map_outcome_total sort_key out) as [keys ->].
  - eapply Forall_impl; [|exact Hs].
    intros r (k & n & Hk & Hn). exists (rank k, n).
    now apply sort_key_sortable.
  - cbn [obind]. now eexists.
Qed.

(** *** The report *)

Lemma build_repo_data_returned (repos results : list value) :
  result (build_repo_data repos) = Ret results ->
  List.length results = List.length repos
  /\ Forall classified results
  /\ Sorted sorted_by_key results.
Proof.
  intros H. rewrite result_build_repo_data in H.
  destruct (result (build_loop repos [])) as [out| | |] eqn:Eloop;
    try discriminate.
  cbn [obind] in H.
  apply build_loop_spec in Eloop. destruct Eloop as (entries & -> & Hlen & Hall).
  cbn [app] in H.
  apply sort_results_spec in H. destruct H as [Hperm Hsorted].
  split; [|split].
  - now rewrite (Permutation_length Hperm).
  - eapply Permutation_Forall; [symmetry; exact Hperm | exact Hall].
  - exact Hsorted.
Qed.

(** Two records in the order of the report: the rank of the first one's
    status is at most the rank of the second's, and within one rank the
    first one's name is at most the second's, byte by byte. *)
Definition status_then_name (r1 r2 : value) : Prop :=
  exists k1 n1 k2 n2,
    subscript r1 "status_key" = Ret (VStr k1)
    /\ subscript r1 "name" = Ret (VStr n1)
    /\ subscript r2 "status_key" = Ret (VStr k2)
    /\ subscript r2 "name" = Ret (VStr n2)
    /\ rank k1 <= rank k2
    /\ (rank k1 = rank k2 -> String.leb n1 n2 = true).

Lemma sort_key_inv (r : value) (k : string) (a : Z * string) :
  subscript r "status_key" = Ret (VStr k) ->
  sort_key r = Ret a ->
  subscript r "name" = Ret (VStr (snd a)) /\ fst a = rank k.
Proof.
  intros Hk. unfold sort_key. rewrite Hk. cbn [obind order_get].
  destruct (subscript r "name") as [[| | |n| |]| | |]; try discriminate.
  cbn [obind]. intros H. injection H as <-. now split.
Qed.

Lemma Sorted_classified (l : list value) :
  Sorted sorted_by_key l -> Forall classified l -> Sorted status_then_name l.
Proof.
  induction 1 as [|r l Hs IH Hhd]; intros Hall; [constructor|].
  inversion Hall as [|? ? Hr Hl]; subst.
  constructor; [now apply IH|].
  destruct Hhd as [|r' l (a & b & Ha & Hb & Hle1 & Hle2)]; constructor.
  inversion Hl as [|? ? Hr' _]; subst.
  destruct Hr as (k1 & Hk1 & _), Hr' as (k2 & Hk2 & _).
  destruct (sort_key_inv r k1 a Hk1 Ha) as [Hn1 Hr1].
  destruct (sort_key_inv r' k2 b Hk2 Hb) as [Hn2 Hr2].
  exists k1, (snd a), k2, (snd b). rewrite <- Hr1, <- Hr2. auto 7.
Qed.

(** C2.  The list [build_repo_data] returns is sorted: of two neighbours
    the earlier one's status rank is at most the later one's, and when the
    ranks are equal the earlier one's name is at most the later one's.  The
    ranks are failure 0, running 1, cancelled 2, no_ci 3, unknown 4,
    success 5. *)
Theorem build_repo_data_sorted (repos : list value) :
  (forall results,
      result (build_repo_data repos) = Ret results ->
      Sorted status_then_name results)
  /\ (Forall (fun repo => repo_ok repo = true) repos ->
      exists results, result (build_repo_data repos) = Ret results)
  /\ rank "failure" = 0 /\ rank "running" = 1 /\ rank "cancelled" = 2
  /\ rank "no_ci" = 3 /\ rank "unknown" = 4 /\ rank "success" = 5.
Proof.
  split; [|split; [apply build_repo_data_total | repeat split]].
  intros results H.
  destruct (build_repo_data_returned repos results H) as (_ & Hall & Hsorted).
  now apply Sorted_classified.
Qed.

(** *** The summary strip *)

(** C6.  The counts of a collection of records add up to the number of
    records.  The residual of the summary strip, the total minus the
    failing, passing, running and no-CI counts, is the number of records
    that are cancelled or unknown when every status key is in the closed
    set, as it is in every list [build_repo_data] returns.  The renderer
    puts the other entry in the strip exactly when the residual is not
    zero. *)
Theorem count_statuses_other (data : list value) :
  Forall (fun r => exists k, subscript r "status_key" = Ret k
                             /\ hashable k = Ret tt) data ->
  exists cnt,
    count_statuses data = Ret cnt
    /\ sum_values cnt = Z.of_nat (List.length data)
    /\ (Forall (fun r => exists k, subscript r "status_key" = Ret (VStr k)
                                   /\ In k status_keys) data ->
        other_count data cnt
        = count_key "cancelled" data + count_key "unknown" data)
    /\ (forall repos,
        result (build_repo_data repos) = Ret data ->
        other_count data cnt
        = count_key "cancelled" data + count_key "unknown" data)
    /\ (other_span (other_count data cnt) = EmptyString
        <-> other_count data cnt = 0)
    /\ forall timestamp,
        generate_html data cnt timestamp
        = rows <~ rows_loop data EmptyString ;;
          Ret (Template.page_template
                 (if counts_get cnt (VStr "failure") 0 =? 0 then "ALL GREEN"
                  else PyStr.of_Z (counts_get cnt (VStr "failure") 0)
                       ++ " FAILING")
                 (if counts_get cnt (VStr "failure") 0 =? 0 then "#4caf50"
                  else "#f44336")
                 (PyStr.of_Z (Z.of_nat (List.length data)))
                 (PyStr.of_Z (counts_get cnt (VStr "success") 0))
                 (PyStr.of_Z (counts_get cnt (VStr "failure") 0))
                 (PyStr.of_Z (counts_get cnt (VStr "running") 0))
                 (PyStr.of_Z (counts_get cnt (VStr "no_ci") 0))
                 (other_span (other_count data cnt))
                 (py_str timestamp) rows).
Proof.
  intros Hok.
  destruct (count_loop_total data Hok []) as [cnt Hcnt].
  exists cnt. split; [exact Hcnt|].
  assert (Hget : forall k, counts_get cnt (VStr k) 0 = count_key k data).
  { intros k. now rewrite (count_loop_get data k [] cnt Hcnt). }
  assert (Hother : other_count data cnt
                   = Z.of_nat (List.length data) - count_key "failure" data
                     - count_key "success" data - count_key "running" data
                     - count_key "no_ci" data).
  { unfold other_count. now rewrite !Hget. }
  assert (Hclosed : Forall classified data ->
                    other_count data cnt
                    = count_key "cancelled" data + count_key "unknown" data).
  { intros Hc. rewrite Hother, (closed_keys_partition data Hc). lia. }
  split; [|split; [|split; [|split]]].
  - now rewrite (count_loop_sum data [] cnt Hcnt).
  - exact Hclosed.
  - intros repos Hdata. apply Hclosed.
    now destruct (build_repo_data_returned repos data Hdata) as (_ & Hall & _).
  - rewrite other_span_empty, Hother.
    pose proof (named_keys_le_total data). lia.
  - reflexivity.
Qed.

(** *** Negative durations *)











End Dashboard.

(* ===================================================================== *)
(** ** A sample host, and the properties at work on it *)
(* ===================================================================== *)

Module Fixture.

(** No variable is set: the organization is the default one. *)
Definition environ (k : string) : option string := None.

(** No container is printed in the examples. *)
Definition py_repr (v : value) : string := EmptyString.

(** [datetime.fromisoformat] on the timestamps of the examples, as
    microseconds since 1970 in UTC. *)
Definition fromisoformat (s : string) : option datetime :=
  if String.eqb s "2024-05-01T12:00:00+00:00" then
    Some (mkDatetime 1714564800000000 true)
  else if String.eqb s "2024-05-01T12:02:05+00:00" then
    Some (mkDatetime 1714564925000000 true)
  else if String.eqb s "2024-05-01T11:59:55+00:00" then
    Some (mkDatetime 1714564795000000 true)
  else if String.eqb s "2024-05-01T12:00:00.500000+00:00" then
    Some (mkDatetime 1714564800500000 true)
  else if String.eqb s "0001-01-01T00:00:00+00:00" then
    Some (mkDatetime (-62135596800000000) true)
  else if String.eqb s "0001-01-01T00:00:05+00:00" then
    Some (mkDatetime (-62135596795000000) true)
  else None.

(** The commit date of the examples: their runs were all created in the
    minute of 12:00 UTC, which is 09:00 at minus three hours. *)
Definition strftime_art (d : datetime) : string :=
  if micros d / 60000000 =? 28576080 then "2024-05-01 09:00" else EmptyString.

(** The clock of the host places every naive datetime. *)
Definition local_refusal (d : datetime) : option exn := None.

Definition run (status conclusion : value) (created updated : string) : value :=
  VDict [("status", status);
         ("conclusion", conclusion);
         ("created_at", VStr created);
         ("updated_at", VStr updated);
         ("html_url", VStr "https://github.com/algojj/x/actions/runs/1");
         ("name", VStr "CI");
         ("display_title", VStr "Fix the build");
         ("head_branch", VStr "main")].

Definition ok_json (v : value) : reply :=
  Response (mkResponse 200 EmptyString (Some v) VNone).

Definition runs_of (l : list value) : reply :=
  ok_json (VDict [("total_count", VInt (Z.of_nat (List.length l)));
                  ("workflow_runs", VList l)]).

Definition not_found : reply :=
  Response (mkResponse 404 "Not Found" None VNone).

Definition repo (n : string) : value :=
  VDict [("name", VStr n);
         ("html_url", VStr ("https://github.com/algojj/" ++ n));
         ("private", VBool false)].

(** A server with four repositories on two pages: [a] failed, [b] passed,
    [c] is queued, and the run request of [d] is refused with a 404. *)
Definition http (r : request) : reply :=
  let u := req_url r in
  if String.eqb u "https://api.github.com/orgs/algojj/repos" then
    match req_params r with
    | VDict [("per_page", VInt 100); ("page", VInt 1); ("type", VStr "all")] =>
        ok_json (VList [repo "b"; repo "a"])
    | VDict [("per_page", VInt 100); ("page", VInt 2); ("type", VStr "all")] =>
        ok_json (VList [repo "d"; repo "c"])
    | _ => ok_json (VList [])
    end
  else if String.eqb u "https://api.github.com/repos/algojj/a/actions/runs" then
    runs_of [run (VStr "completed") (VStr "failure")
               "2024-05-01T12:00:00Z" "2024-05-01T12:02:05Z"]
  else if String.eqb u "https://api.github.com/repos/algojj/b/actions/runs" then
    runs_of [run (VStr "completed") (VStr "success")
               "2024-05-01T12:00:00Z" "2024-05-01T12:02:05Z"]
  else if String.eqb u "https://api.github.com/repos/algojj/c/actions/runs" then
    runs_of [run (VStr "queued") VNone
               "2024-05-01T12:00:00Z" "2024-05-01T12:00:00Z"]
  else not_found.

(** A server that refuses every request for the rate limit. *)
Definition refusal : response :=
  mkResponse 403 "API rate limit exceeded for user ID 1." None (VStr "0").

Definition http_limited (r : request) : reply := Response refusal.




(** A record of a failed run, and records of the other kinds. *)
Definition failed_record : dict :=
  [("name", VStr "a");
   ("url", VStr "https://github.com/algojj/a");
   ("private", VBool false);
   ("status_key", VStr "failure");
   ("status_label", VStr "Failing");
   ("status_icon", VStr "❌");
   ("run_url", VStr "https://github.com/algojj/a/actions/runs/1");
   ("run_name", VStr "CI");
   ("branch", VStr "main");
   ("commit_msg", VStr ("Fix <b> " ++ PyStr.dq ++ "quoted" ++ PyStr.dq));
   ("commit_date", VStr "2024-05-01 09:00");
   ("duration", VStr "2m 5s");
   ("workflow", VStr "CI")].

Definition record (status_key : string) : value :=
  VDict [("name", VStr "r"); ("status_key", VStr status_key)].

End Fixture.

(** On the sample server the report is in the order [a] (failure), [c]
    (running), [d] (no_ci), [b] (success). *)
Lemma build_repo_data_sorted_witness :
  let repos :=
    [Fixture.repo "b"; Fixture.repo "a"; Fixture.repo "d"; Fixture.repo "c"] in
  exists results,
    result (build_repo_data Fixture.environ Fixture.http Fixture.py_repr
              Fixture.fromisoformat Fixture.strftime_art Fixture.local_refusal repos)
    = Ret results
    /\ map (fun r => subscript r "name") results
       = [Ret (VStr "a"); Ret (VStr "c"); Ret (VStr "d"); Ret (VStr "b")]
    /\ Sorted status_then_name results.
Proof.
  intros repos.
  destruct (build_repo_data_sorted
              Fixture.environ Fixture.http Fixture.py_repr
              Fixture.fromisoformat Fixture.strftime_art Fixture.local_refusal repos)
    as [Hsorted _].
  eexists. split; [vm_compute; reflexivity|].
  split; [reflexivity|].
  apply Hsorted. vm_compute. reflexivity.
Defined.

Lemma get_status_info_running_witness :
  get_status_info
    (VDict [("status", VStr "queued"); ("conclusion", VStr "failure")])
  = Ret ("running", VStr "Running", "🔄").
Proof.
  apply (get_status_info_running
           [("status", VStr "queued"); ("conclusion", VStr "failure")]
           "queued").
  - reflexivity.
  - simpl. auto.
Defined.

(** A finished run with a conclusion the script does not know keeps it as
    its label; one without a conclusion gets its status. *)
Lemma get_status_info_unknown_witness :
  get_status_info
    (VDict [("status", VStr "completed"); ("conclusion", VStr "timed_out")])
  = Ret ("unknown", VStr "timed_out", "❓")
  /\ get_status_info
       (VDict [("status", VStr "completed"); ("conclusion", VNone)])
     = Ret ("unknown", VStr "completed", "❓").
Proof.
  split.
  - destruct (get_status_info_unknown
                [("status", VStr "completed"); ("conclusion", VStr "timed_out")])
      as (H & Hc & _); [reflexivity | reflexivity |].
    rewrite H. f_equal.
  - destruct (get_status_info_unknown
                [("status", VStr "completed"); ("conclusion", VNone)])
      as (H & _ & Hs & _); [reflexivity | reflexivity |].
    rewrite H. f_equal.
Defined.

(** C4 as it is stated fails for a run whose conclusion and status are both
    empty: it is not running, its conclusion is none of the three, and its
    label is not its (empty) status string but the literal Unknown. *)
Lemma unknown_label_of_empty_run :
  let status := VStr EmptyString in
  let conclusion := VStr EmptyString in
  let run := VDict [("status", status); ("conclusion", conclusion)] in
  in_strs status ["in_progress"; "queued"; "waiting"] = false
  /\ in_strs conclusion ["success"; "failure"; "cancelled"] = false
  /\ get_status_info run = Ret ("unknown", VStr "Unknown", "❓")
  /\ get_status_info run <> Ret ("unknown", status, "❓").
Proof.
  cbv zeta. repeat split; try reflexivity. discriminate.
Qed.

Lemma format_duration_spec_witness :
  format_duration 59 = "59s"
  /\ format_duration 3599 = "59m 59s"
  /\ format_duration 86399 = "23h 59m".
Proof.
  destruct (format_duration_spec 59) as (H1 & _); [lia|].
  destruct (format_duration_spec 3599) as (_ & H2 & _); [lia|].
  destruct (format_duration_spec 86399) as (_ & _ & H3 & _); [lia|].
  rewrite H1, H2, H3 by lia. repeat split.
Defined.

(** Five records, one cancelled and one unknown: the counts add up to
    five and the residual is two. *)
Lemma count_statuses_other_witness :
  let data :=
    [Fixture.record "failure"; Fixture.record "cancelled";
     Fixture.record "success"; Fixture.record "unknown";
     Fixture.record "no_ci"] in
  exists cnt,
    count_statuses data = Ret cnt
    /\ sum_values cnt = 5
    /\ other_count data cnt = 2
    /\ other_span (other_count data cnt) <> EmptyString.
Proof.
  intros data.
  destruct (count_statuses_other
              Fixture.environ Fixture.http Fixture.py_repr
              Fixture.fromisoformat Fixture.strftime_art Fixture.local_refusal data)
    as (cnt & Hcnt & Hsum & Hother & _ & Hspan & _).
  { repeat constructor; eexists; split; reflexivity. }
  exists cnt. split; [exact Hcnt|]. split; [exact Hsum|].
  assert (H2 : other_count data cnt = 2).
  { rewrite Hother; [reflexivity|].
    repeat constructor; eexists; (split; [reflexivity | simpl; auto 7]). }
  split; [exact H2|].
  rewrite Hspan, H2. discriminate.
Defined.

(** The run request of [d] is answered with a 404: no run, a no_ci record,
    and the loop goes on. *)
Lemma get_latest_run_absent_witness :
  result (get_latest_run Fixture.environ Fixture.http Fixture.py_repr (VStr "d"))
  = Ret VNone.
Proof.
  destruct (get_latest_run_absent
              Fixture.environ Fixture.http Fixture.py_repr
              Fixture.fromisoformat Fixture.strftime_art Fixture.local_refusal (VStr "d")
              (mkResponse 404 "Not Found" None VNone) eq_refl)
    as [Habsent _].
  destruct Habsent as (H & _).
  - reflexivity.
  - left. discriminate.
  - exact H.
Defined.

(** C8 as it is stated fails for the rate-limit refusal: the response is
    not a success, and [get_latest_run] does not return None, the process
    exits with status 1. *)
Lemma get_latest_run_rate_limited :
  Fixture.http_limited
    (runs_request Fixture.environ Fixture.py_repr (VStr "a"))
  = Response Fixture.refusal
  /\ status_code Fixture.refusal <> 200
  /\ result (get_latest_run Fixture.environ Fixture.http_limited
               Fixture.py_repr (VStr "a"))
     = Exit 1
  /\ result (get_latest_run Fixture.environ Fixture.http_limited
               Fixture.py_repr (VStr "a"))
     <> Ret VNone
  /\ result (build_repo_data Fixture.environ Fixture.http_limited
               Fixture.py_repr Fixture.fromisoformat Fixture.strftime_art Fixture.local_refusal
               [Fixture.repo "a"; Fixture.repo "b"])
     = Exit 1.
Proof.
  repeat split; try reflexivity; discriminate.
Qed.

(** The sample server serves two pages of two repositories and then an
    empty page: three requests, four repositories in the order served. *)
Lemma get_all_repos_pages_witness :
  result (get_all_repos Fixture.environ Fixture.http Fixture.py_repr 5)
  = Ret [Fixture.repo "b"; Fixture.repo "a"; Fixture.repo "d"; Fixture.repo "c"]
  /\ map (fun r => (dict_get match req_params r with VDict d => d | _ => [] end
                             "per_page",
                    dict_get match req_params r with VDict d => d | _ => [] end
                             "page"))
         (requests_of
            (trace (get_all_repos Fixture.environ Fixture.http
                      Fixture.py_repr 5)))
     = [(Some (VInt 100), Some (VInt 1));
        (Some (VInt 100), Some (VInt 2));
        (Some (VInt 100), Some (VInt 3))].
Proof.
  destruct (get_all_repos_pages
              Fixture.environ Fixture.http Fixture.py_repr
              [[Fixture.repo "b"; Fixture.repo "a"];
               [Fixture.repo "d"; Fixture.repo "c"]] 5)
    as [[Hres Hreq] _].
  - split; [|split; [|exact I]];
      eexists; (split; [reflexivity|]); repeat split; discriminate.
  - cbn. lia.
  - eexists. split; [reflexivity|]. split; [reflexivity|].
    right. eexists. split; reflexivity.
  - rewrite Hres, Hreq. split; reflexivity.
Defined.

(** C9 as it is stated fails when the first page is refused for the rate
    limit: the page request got a status that is not a success, and
    [get_all_repos] does not return the repositories gathered so far
    (none), the process exits with status 1. *)
Lemma get_all_repos_rate_limited :
  Fixture.http_limited (page_request Fixture.environ Fixture.py_repr 1)
  = Response Fixture.refusal
  /\ status_code Fixture.refusal <> 200
  /\ result (get_all_repos Fixture.environ Fixture.http_limited
               Fixture.py_repr 5)
     = Exit 1
  /\ result (get_all_repos Fixture.environ Fixture.http_limited
               Fixture.py_repr 5)
     <> Ret [].
Proof.
  repeat split; try reflexivity; discriminate.
Qed.



(* ===================================================================== *)
(** ** More of what the script does *)
(* ===================================================================== *)

(** The functions of the script once more, on any host: how they fail,
    what they keep, and how they fit together. *)

(** Open the definition of a function of the script in the goal. *)
Ltac open_api_get := unfold api_get, requests_get.
Ltac open_get_latest_run := unfold get_latest_run, runs_params.
Ltac open_get_all_repos := unfold get_all_repos.
Ltac step_get_all_repos_loop := cbn [get_all_repos_loop]; unfold repos_params.
Ltac open_build_repo_data := unfold build_repo_data.
Ltac open_run_fields := unfold run_fields.
Ltac open_run_fields_in H := unfold run_fields in H.
Ltac open_requests := unfold runs_request, page_request.
Ltac open_requests_in H := unfold runs_request, page_request in H.
Ltac open_generate_html := unfold generate_html.
Ltac open_generate_html_in H := unfold generate_html in H.
Ltac open_html_row := unfold html_row.
Ltac open_html_row_in H := unfold html_row in H.
Ltac step_rows_loop := cbn [rows_loop].
Ltac step_build_loop := cbn [build_loop].
Ltac open_build_entry := unfold build_entry.

(** Take a hypothesis that a chain of steps returned apart, step by step. *)
Ltac returned H :=
  repeat match type of H with
         | obind ?o _ = Ret _ =>
             let E := fresh "E" in
             destruct o eqn:E; cbn [obind] in H; try discriminate H
         | (if ?b then _ else _) = Ret _ =>
             let E := fresh "E" in
             destruct b eqn:E; try discriminate H
         end.

Ltac open_urls := unfold repos_url, runs_url, API.
Ltac open_token := unfold GH_TOKEN, py_or.
Ltac open_headers := unfold HEADERS.
Ltac open_get_latest_run_all := unfold get_latest_run, runs_params.

Section Coverage.

#[local] Set Default Proof Using "Type".

Variable environ : string -> option string.
Variable http : request -> reply.
Variable py_repr : value -> string.
Variable fromisoformat : string -> option datetime.
Variable strftime_art : datetime -> string.
Variable local_refusal : datetime -> option exn.

#[local] Abbreviation py_str := (py_str py_repr).
#[local] Abbreviation HEADERS := (HEADERS environ py_repr).
#[local] Abbreviation api_get := (api_get environ http py_repr).
#[local] Abbreviation get_all_repos_loop :=
  (get_all_repos_loop environ http py_repr).
#[local] Abbreviation get_all_repos := (get_all_repos environ http py_repr).
#[local] Abbreviation get_latest_run := (get_latest_run environ http py_repr).
#[local] Abbreviation run_fields := (run_fields fromisoformat strftime_art local_refusal).
#[local] Abbreviation build_entry :=
  (build_entry environ http py_repr fromisoformat strftime_art local_refusal).
#[local] Abbreviation build_loop :=
  (build_loop environ http py_repr fromisoformat strftime_art local_refusal).
#[local] Abbreviation build_repo_data :=
  (build_repo_data environ http py_repr fromisoformat strftime_art local_refusal).
#[local] Abbreviation generate_html := (generate_html py_repr).
#[local] Abbreviation html_row := (html_row py_repr).
#[local] Abbreviation rows_loop := (rows_loop py_repr).
#[local] Abbreviation runs_request := (runs_request environ py_repr).
#[local] Abbreviation page_request := (page_request environ py_repr).
#[local] Abbreviation serves_from := (serves_from environ http py_repr).
#[local] Abbreviation repo_ok :=
  (repo_ok environ http py_repr fromisoformat local_refusal).

(** *** One request at a time *)

Lemma api_get_cases (url : string) (params : value) :
  let req := mkRequest url HEADERS (py_or params (VDict [])) 30 in
  api_get url params
  = match http req with
    | Response resp =>
        if rate_limited resp then
          ([EvGet req;
            EvPrint ("Rate limited. Headers: "
                     ++ py_str (ratelimit_remaining resp))],
           Exit 1)
        else ([EvGet req], Ret resp)
    | NoResponse => ([EvGet req], Raise RequestException)
    end.
Proof.
  intros req. open_api_get. fold req.
  destruct (http req) as [resp|]; [|reflexivity].
  cbn [bind]. now destruct (rate_limited resp).
Qed.

(** X1.  [api_get] sends one request, with the headers of the script and a
    timeout of 30.  It ends the process, with status 1, exactly when the
    answer is a 403 whose body has the words rate limit in any mix of
    upper and lower case; any other answer, a 403 included, is returned as
    it came; and when [requests.get] raises, so does [api_get]. *)
Theorem api_get_outcomes (url : string) (params : value) :
  let req := mkRequest url HEADERS (py_or params (VDict [])) 30 in
  requests_of (trace (api_get url params)) = [req]
  /\ (result (api_get url params) = Exit 1
      <-> exists resp,
            http req = Response resp
            /\ status_code resp = 403
            /\ PyStr.contains "rate limit" (PyStr.lower (text resp)) = true)
  /\ (forall resp,
        http req = Response resp ->
        status_code resp <> 403
        \/ PyStr.contains "rate limit" (PyStr.lower (text resp)) = false ->
        result (api_get url params) = Ret resp)
  /\ (http req = NoResponse ->
      result (api_get url params) = Raise RequestException).
Proof.
  intros req. rewrite (api_get_cases url params). fold req.
  assert (Hrl : forall resp,
             rate_limited resp = true
             <-> status_code resp = 403
                 /\ PyStr.contains "rate limit" (PyStr.lower (text resp)) = true).
  { intros resp. unfold rate_limited.
    now rewrite andb_true_iff, Z.eqb_eq. }
  split; [|split; [|split]].
  - destruct (http req) as [resp|]; [|reflexivity].
    now destruct (rate_limited resp).
  - split.
    + destruct (http req) as [resp|]; [|discriminate].
      destruct (rate_limited resp) eqn:E; [|discriminate].
      intros _. exists resp. split; [reflexivity|]. now apply Hrl.
    + intros (resp & -> & H403 & Htext).
      assert (E : rate_limited resp = true) by now apply Hrl.
      now rewrite E.
  - intros resp -> Hother.
    destruct (rate_limited resp) eqn:E; [|reflexivity].
    apply Hrl in E. destruct E as [H403 Htext].
    destruct Hother as [H | H]; [contradiction | congruence].
  - now intros ->.
Qed.

Lemma get_latest_run_cases (name : value) :
  get_latest_run name
  = match http (runs_request name) with
    | Response resp =>
        if rate_limited resp then
          ([EvGet (runs_request name);
            EvPrint ("Rate limited. Headers: "
                     ++ py_str (ratelimit_remaining resp))],
           Exit 1)
        else ([EvGet (runs_request name)], run_of_response resp)
    | NoResponse => ([EvGet (runs_request name)], Raise RequestException)
    end.
Proof.
  destruct (http (runs_request name)) as [resp|] eqn:Ehttp.
  - destruct (rate_limited resp) eqn:Erl.
    + open_get_latest_run. rewrite api_get_cases. cbv zeta.
      change (py_or (VDict [("per_page", VInt 1)]) (VDict []))
        with (VDict [("per_page", VInt 1)]).
      open_requests. open_requests_in Ehttp.
      now rewrite Ehttp, Erl.
    + now apply get_latest_run_result.
  - open_get_latest_run. rewrite api_get_cases. cbv zeta.
    change (py_or (VDict [("per_page", VInt 1)]) (VDict []))
      with (VDict [("per_page", VInt 1)]).
    open_requests. open_requests_in Ehttp.
    now rewrite Ehttp.
Qed.

(** X2.  When the run request is answered with a 200 whose JSON object has
    a non-empty list of runs, [get_latest_run] returns the first run of the
    list, whatever follows it, after that one request. *)
Theorem get_latest_run_first (name : value) (resp : response) (body : dict)
  (run : value) (older : list value) :
  http (runs_request name) = Response resp ->
  status_code resp = 200 ->
  json_body resp = Some (VDict body) ->
  dict_get body "workflow_runs" = Some (VList (run :: older)) ->
  get_latest_run name = ([EvGet (runs_request name)], Ret run).
Proof.
  intros Hhttp H200 Hbody Hruns.
  rewrite get_latest_run_cases, Hhttp.
  unfold rate_limited, run_of_response, resp_json, get_or.
  rewrite H200, Hbody. cbn [Z.eqb Pos.eqb andb negb obind dot_get subscript].
  unfold get_or. now rewrite Hruns.
Qed.

(** X3.  [get_latest_run] turns an answer into None only when the answer
    is not a 200 or has no runs.  When [requests.get] raises, the
    exception leaves [get_latest_run]; a 200 whose body is not JSON raises
    ValueError, and one whose JSON is not an object raises
    AttributeError. *)
Theorem get_latest_run_raises (name : value) :
  (http (runs_request name) = NoResponse ->
   result (get_latest_run name) = Raise RequestException)
  /\ (forall resp,
        http (runs_request name) = Response resp ->
        status_code resp = 200 ->
        (json_body resp = None ->
         result (get_latest_run name) = Raise ValueError)
        /\ (forall v,
              json_body resp = Some v ->
              (forall d, v <> VDict d) ->
              result (get_latest_run name) = Raise AttributeError)).
Proof.
  split.
  - intros Hhttp. now rewrite get_latest_run_cases, Hhttp.
  - intros resp Hhttp H200.
    rewrite get_latest_run_cases, Hhttp.
    unfold rate_limited, run_of_response, resp_json.
    rewrite H200. cbn [Z.eqb Pos.eqb andb negb result snd].
    split.
    + now intros ->.
    + intros v -> Hv. cbn [obind].
      destruct v; try reflexivity. now contradiction (Hv d).
Qed.

Lemma build_loop_served (pre : list value) :
  Forall (fun repo => repo_ok repo = true) pre ->
  forall rest results,
  exists entries,
    List.length entries = List.length pre
    /\ result (build_loop (pre ++ rest) results)
       = result (build_loop rest (results ++ entries)).
Proof.
  induction 1 as [|repo pre Hok _ IH]; intros rest results.
  - exists []. now rewrite app_nil_r.
  - cbn [app]. rewrite build_loop_cons.
    destruct (build_entry_ok environ http py_repr fromisoformat strftime_art local_refusal
                repo Hok) as (e & -> & _).
    destruct (IH rest (results ++ [e])%list) as (entries & Hlen & ->).
    exists (e :: entries). split; [cbn [List.length]; now rewrite Hlen|].
    now rewrite <- app_assoc.
Qed.

(** X4.  [build_repo_data] has no handler around the fetch: when the run
    request of one repository raises or ends the process, no report is
    returned, however many repositories were handled before it; the
    exception, or the exit status, is that of the fetch. *)
Theorem build_repo_data_aborts (pre post : list value) (d : dict) (name : value) :
  Forall (fun repo => repo_ok repo = true) pre ->
  dict_get d "name" = Some name ->
  (forall e,
     result (get_latest_run name) = Raise e ->
     result (build_repo_data (pre ++ VDict d :: post)) = Raise e)
  /\ (forall code,
        result (get_latest_run name) = Exit code ->
        result (build_repo_data (pre ++ VDict d :: post)) = Exit code).
Proof.
  intros Hpre Hname.
  assert (Hentry : result (build_entry (VDict d))
                   = match result (get_latest_run name) with
                     | Ret run => result (build_entry (VDict d))
                     | Raise e => Raise e
                     | Exit c => Exit c
                     | OutOfFuel => OutOfFuel
                     end).
  { destruct (result (get_latest_run name)) eqn:E; try reflexivity;
      rewrite build_entry_pure; cbn [subscript]; rewrite Hname; cbn [obind];
      now rewrite E. }
  destruct (build_loop_served pre Hpre (VDict d :: post) []) as (entries & _ & Hloop).
  split; intros x Hx; rewrite result_build_repo_data, Hloop, build_loop_cons,
    Hentry, Hx; reflexivity.
Qed.

(** C1, as amended.  Whenever [build_repo_data] returns, it returns one
    record for each repository it was given, and the status key of every
    record is one of failure, running, cancelled, no_ci, unknown, success.
    It does return for repositories whose run requests are answered
    acceptably, which includes the answers that are failures (anything but
    a 200, the rate-limit refusal apart) and the answers without a run.
    It returns nothing when a run request is not answered at all, or is
    refused for the rate limit: the exception of [requests.get] leaves
    [build_repo_data], or the process ends with status 1, whatever the
    repositories before that one gave. *)
Theorem build_repo_data_one_record_each (repos : list value) :
  (forall results,
      result (build_repo_data repos) = Ret results ->
      List.length results = List.length repos
      /\ Forall (fun r =>
                   exists k,
                     subscript r "status_key" = Ret (VStr k)
                     /\ In k ["failure"; "running"; "cancelled";
                              "no_ci"; "unknown"; "success"])
                results)
  /\ (Forall (fun repo => repo_ok repo = true) repos ->
      exists results, result (build_repo_data repos) = Ret results)
  /\ (forall pre d name post,
        repos = (pre ++ VDict d :: post)%list ->
        Forall (fun repo => repo_ok repo = true) pre ->
        dict_get d "name" = Some name ->
        (http (runs_request name) = NoResponse ->
         result (build_repo_data repos) = Raise RequestException)
        /\ (forall resp,
              http (runs_request name) = Response resp ->
              rate_limited resp = true ->
              result (build_repo_data repos) = Exit 1)).
Proof.
  split; [|split].
  - intros results H.
    destruct (build_repo_data_returned environ http py_repr fromisoformat
                strftime_art local_refusal repos results H)
      as (Hlen & Hall & _).
    now split.
  - apply build_repo_data_total.
  - intros pre d name post -> Hpre Hname.
    destruct (build_loop_served pre Hpre (VDict d :: post) [])
      as (entries & _ & Hloop).
    assert (Hentry : result (build_entry (VDict d))
                     = run <~ result (get_latest_run name) ;;
                       result (build_entry (VDict d))).
    { destruct (result (get_latest_run name)) eqn:E; try reflexivity;
        rewrite build_entry_pure; cbn [subscript]; rewrite Hname;
        cbn [obind]; now rewrite E. }
    rewrite result_build_repo_data, Hloop, build_loop_cons, Hentry.
    rewrite get_latest_run_cases.
    split.
    + intros ->. reflexivity.
    + intros resp -> ->. reflexivity.
Qed.

(** *** Listing *)

Lemma get_all_repos_loop_step (fuel : nat) (repos : list value) (page : Z)
  (items more : list value) (resp : response) :
  http (page_request page) = Response resp ->
  status_code resp = 200 ->
  json_body resp = Some (VList (items ++ more)) ->
  items <> [] ->
  result (get_all_repos_loop (S fuel) repos page)
  = result (get_all_repos_loop fuel (repos ++ items ++ more) (page + 1)).
Proof.
  intros Hhttp H200 Hbody Hne.
  assert (Hrl : rate_limited resp = false)
    by (unfold rate_limited; now rewrite H200).
  step_get_all_repos_loop.
  rewrite (api_get_response environ http py_repr _ _ resp);
    [|discriminate|exact Hhttp|exact Hrl].
  rewrite result_bind. cbn [result snd].
  rewrite H200. cbn [Z.eqb Pos.eqb negb].
  unfold resp_json. rewrite Hbody, bind_lift_ret.
  assert (Htruthy : truthy (VList (items ++ more)) = true)
    by (destruct items; [contradiction | reflexivity]).
  rewrite Htruthy. cbn [negb iter_items]. now rewrite bind_lift_ret.
Qed.

Lemma get_all_repos_loop_served (pages : list (list value)) :
  forall (page : Z) (repos : list value) (fuel : nat),
  serves_from page pages ->
  result (get_all_repos_loop (List.length pages + fuel) repos page)
  = result (get_all_repos_loop fuel (repos ++ List.concat pages)
              (page + Z.of_nat (List.length pages))).
Proof.
  induction pages as [|items pages IH]; intros page repos fuel Hserve.
  - cbn [List.length List.concat Z.of_nat Nat.add].
    now rewrite app_nil_r, Z.add_0_r.
  - destruct Hserve as [(resp & Hhttp & H200 & Hbody & Hne) Hrest].
    cbn [List.length List.concat Nat.add].
    rewrite <- (app_nil_r items) in Hbody.
    rewrite (get_all_repos_loop_step _ repos page items [] resp Hhttp H200 Hbody Hne).
    rewrite app_nil_r, (IH (page + 1) (repos ++ items)%list fuel Hrest).
    replace (page + 1 + Z.of_nat (List.length pages))
      with (page + Z.of_nat (S (List.length pages))) by lia.
    now rewrite <- app_assoc.
Qed.

(** X5.  [get_all_repos] keeps what it gathered only when the listing ends
    with an answer.  When, after any number of pages served, the next
    request raises in [requests.get], or is answered with a 200 whose body
    is not JSON, the exception leaves [get_all_repos] and the repositories
    of the pages served are not returned. *)
Theorem get_all_repos_raises (pages : list (list value)) (fuel : nat) :
  serves_from 1 pages ->
  (List.length pages < fuel)%nat ->
  let next := page_request (1 + Z.of_nat (List.length pages)) in
  (http next = NoResponse ->
   result (get_all_repos fuel) = Raise RequestException)
  /\ (forall resp,
        http next = Response resp ->
        status_code resp = 200 ->
        json_body resp = None ->
        result (get_all_repos fuel) = Raise ValueError).
Proof.
  intros Hserve Hfuel next.
  replace fuel with (List.length pages + S (fuel - S (List.length pages)))%nat
    by lia.
  open_get_all_repos.
  rewrite (get_all_repos_loop_served pages 1 [] _ Hserve).
  step_get_all_repos_loop. rewrite result_bind, api_get_cases. cbv zeta.
  change (py_or (VDict ?d) (VDict [])) with (VDict d).
  fold (page_request (1 + Z.of_nat (List.length pages))). fold next.
  split.
  - now intros ->.
  - intros resp -> H200 Hbody.
    unfold rate_limited. rewrite H200.
    cbn [Z.eqb Pos.eqb andb negb result snd].
    rewrite H200. cbn [Z.eqb Pos.eqb negb].
    unfold resp_json. now rewrite Hbody.
Qed.

(** X6.  The loop of [get_all_repos] has no bound of its own: on a server
    that answers every page number with a non-empty page it never ends,
    which the model shows as running out of any number of steps. *)
Theorem get_all_repos_unbounded (fuel : nat) :
  (forall page, 1 <= page ->
     exists items, serves environ http py_repr page items) ->
  result (get_all_repos fuel) = OutOfFuel.
Proof.
  intros Hall. open_get_all_repos.
  assert (H : forall (page : Z) (repos : list value),
             1 <= page ->
             result (get_all_repos_loop fuel repos page) = OutOfFuel).
  { induction fuel as [|fuel IH]; intros page repos Hpage; [reflexivity|].
    destruct (Hall page Hpage) as (items & resp & Hhttp & H200 & Hbody & Hne).
    rewrite <- (app_nil_r items) in Hbody.
    rewrite (get_all_repos_loop_step _ repos page items [] resp
               Hhttp H200 Hbody Hne).
    apply IH. lia. }
  apply H. lia.
Qed.

(** *** Classification *)

(** The icon of each status key, and the label of each key but unknown. *)
Definition key_icons : list (string * string) :=
  [("no_ci", "⚠️"); ("running", "🔄"); ("success", "✅");
   ("failure", "❌"); ("cancelled", "⏹️"); ("unknown", "❓")].

Definition key_labels : list (string * string) :=
  [("no_ci", "Sin CI"); ("running", "Running"); ("success", "Passing");
   ("failure", "Failing"); ("cancelled", "Cancelled")].

Lemma py_or_truthy (a b : value) : truthy b = true -> truthy (py_or a b) = true.
Proof. intros Hb. unfold py_or. now destruct (truthy a) eqn:E. Qed.

(** X7.  Whatever [get_status_info] returns, the label is never empty (nor
    None, nor any other false value), the icon is the one of the status
    key, and for every key but unknown the label is the fixed one of the
    key. *)
Theorem get_status_info_shown (run : value) (k : string) (l : value)
  (i : string) :
  get_status_info run = Ret (k, l, i) ->
  truthy l = true
  /\ In (k, i) key_icons
  /\ (k = "unknown" \/ exists s, l = VStr s /\ In (k, s) key_labels).
Proof.
  unfold get_status_info. intros H. returned H;
    injection H as <- <- <-.
  all: split; [try reflexivity | split; [simpl; auto 7|]].
  all: try (right; eexists; split; [reflexivity | simpl; auto 7]).
  - now apply py_or_truthy, py_or_truthy.
  - now left.
Qed.

(** X8.  Which key [get_status_info] gives, read back from the run.  None
    is no_ci and nothing else is.  For a JSON object the status decides
    first: running exactly when it is in_progress, queued or waiting;
    otherwise success, failure or cancelled exactly when the conclusion is
    that very string, and unknown exactly when it is none of the three.
    Any other value (a string, a number, a list) raises AttributeError. *)
Theorem get_status_info_decides (run : value) :
  match run with
  | VNone => get_status_info run = Ret ("no_ci", VStr "Sin CI", "⚠️")
  | VDict d =>
      let status := get_or d "status" (VStr EmptyString) in
      let conclusion := get_or d "conclusion" (VStr EmptyString) in
      let running := in_strs status ["in_progress"; "queued"; "waiting"] in
      exists k l i,
        get_status_info run = Ret (k, l, i)
        /\ k <> "no_ci"
        /\ (k = "running" <-> running = true)
        /\ (k = "success"
            <-> running = false /\ conclusion = VStr "success")
        /\ (k = "failure"
            <-> running = false /\ conclusion = VStr "failure")
        /\ (k = "cancelled"
            <-> running = false /\ conclusion = VStr "cancelled")
        /\ (k = "unknown"
            <-> running = false
                /\ in_strs conclusion ["success"; "failure"; "cancelled"]
                   = false)
  | _ => get_status_info run = Raise AttributeError
  end.
Proof.
  destruct run as [| | | | |d]; try reflexivity.
  intros status conclusion running.
  unfold get_status_info. cbn [is_none dot_get obind].
  fold status conclusion. fold running.
  change (in_strs conclusion ["success"; "failure"; "cancelled"])
    with (eq_str conclusion "success"
          || (eq_str conclusion "failure"
              || (eq_str conclusion "cancelled" || false)))%bool.
  destruct running.
  { do 3 eexists. split; [reflexivity|].
    repeat split; try discriminate; intros []; discriminate. }
  destruct (eq_str conclusion "success") eqn:E1.
  { apply eq_str_true in E1. rewrite E1.
    do 3 eexists. split; [reflexivity|].
    repeat split; try discriminate; intros []; discriminate. }
  destruct (eq_str conclusion "failure") eqn:E2.
  { apply eq_str_true in E2. rewrite E2.
    do 3 eexists. split; [reflexivity|].
    repeat split; try discriminate; intros []; discriminate. }
  destruct (eq_str conclusion "cancelled") eqn:E3.
  { apply eq_str_true in E3. rewrite E3.
    do 3 eexists. split; [reflexivity|].
    repeat split; try discriminate; intros []; discriminate. }
  do 3 eexists. split; [reflexivity|].
  repeat split; try discriminate; try (intros [_ H]; rewrite H in *; discriminate).
Qed.

(** *** Records *)

(** The keys of a record, in order. *)
Definition field_names (r : value) : list string :=
  match r with
  | VDict d => map fst d
  | _ => []
  end.

Definition base_names : list string :=
  ["name"; "url"; "private"; "status_key"; "status_label"; "status_icon"].

Definition run_names : list string :=
  ["run_url"; "run_name"; "branch"; "commit_msg"; "commit_date"; "duration";
   "workflow"].

Lemma get_status_info_no_ci (run : value) (l : value) (i : string) :
  get_status_info run = Ret ("no_ci", l, i) -> run = VNone.
Proof.
  destruct run; try discriminate; [reflexivity|].
  unfold get_status_info. cbn [is_none dot_get obind].
  repeat match goal with
         | |- context [if ?b then _ else _] => destruct b
         end; discriminate.
Qed.

Lemma build_entry_layout (repo entry : value) :
  result (build_entry repo) = Ret entry ->
  subscript entry "name" = subscript repo "name"
  /\ subscript entry "url" = subscript repo "html_url"
  /\ (field_names entry = base_names
      \/ field_names entry = (base_names ++ run_names)%list)
  /\ (subscript entry "status_key" = Ret (VStr "no_ci") ->
      field_names entry = base_names).
Proof.
  rewrite build_entry_pure. intros H.
  destruct (subscript repo "name") as [name| | |]; try discriminate.
  cbn [obind] in H.
  destruct (result (get_latest_run name)) as [run| | |]; try discriminate.
  cbn [obind] in H.
  destruct (get_status_info run) as [[[k l] i]| | |] eqn:Einfo;
    try discriminate.
  cbn [obind fst snd] in H.
  destruct (subscript repo "html_url") as [url| | |]; try discriminate.
  cbn [obind] in H.
  destruct (dot_get repo "private" (VBool false)) as [private| | |];
    try discriminate.
  cbn [obind] in H.
  destruct (truthy run) eqn:Etruthy.
  - destruct (run_fields run) as [fields| | |] eqn:Ef; try discriminate.
    cbn [obind] in H. injection H as <-.
    apply run_fields_shape in Ef.
    destruct Ef as (f1 & f2 & f3 & f4 & f5 & f6 & f7 & ->).
    repeat split; [now right|].
    intros Hk. injection Hk as ->.
    apply get_status_info_no_ci in Einfo. subst run. discriminate.
  - injection H as <-. repeat split; now left.
Qed.

Lemma build_loop_entries (repos : list value) :
  forall results out,
  result (build_loop repos results) = Ret out ->
  exists entries,
    out = (results ++ entries)%list
    /\ Forall2 (fun repo entry => result (build_entry repo) = Ret entry)
         repos entries.
Proof.
  induction repos as [|repo repos IH]; intros results out H.
  - injection H as <-. exists []. rewrite app_nil_r. split; constructor.
  - rewrite build_loop_cons in H.
    destruct (result (build_entry repo)) as [entry| | |] eqn:Ee;
      try discriminate.
    apply IH in H. destruct H as (entries & -> & Hall).
    exists (entry :: entries). rewrite <- app_assoc.
    split; [reflexivity|]. now constructor.
Qed.

Lemma build_repo_data_entries (repos results : list value) :
  result (build_repo_data repos) = Ret results ->
  exists entries,
    Permutation results entries
    /\ Forall2 (fun repo entry => result (build_entry repo) = Ret entry)
         repos entries.
Proof.
  intros H. rewrite result_build_repo_data in H.
  destruct (result (build_loop repos [])) as [out| | |] eqn:Eloop;
    try discriminate.
  cbn [obind] in H.
  apply build_loop_entries in Eloop. destruct Eloop as (entries & -> & Hall).
  apply sort_results_spec in H. destruct H as [Hperm _].
  now exists entries.
Qed.

(** X9.  The report is about the repositories it was given and no other:
    the names and URLs of its records are, up to the order, the names and
    URLs of the repositories.  Every record has the six fields name, url,
    private, status_key, status_label, status_icon, in this order, and
    either nothing more or the seven fields of a run after them; a no_ci
    record has nothing more. *)
Theorem build_repo_data_records (repos results : list value) :
  result (build_repo_data repos) = Ret results ->
  Permutation
    (map (fun r => (subscript r "name", subscript r "url")) results)
    (map (fun repo => (subscript repo "name", subscript repo "html_url"))
       repos)
  /\ Forall (fun r =>
               (field_names r = base_names
                \/ field_names r = (base_names ++ run_names)%list)
               /\ (subscript r "status_key" = Ret (VStr "no_ci") ->
                   field_names r = base_names))
       results.
Proof.
  intros H.
  destruct (build_repo_data_entries repos results H) as (entries & Hperm & Hall).
  split.
  - rewrite (Permutation_map _ Hperm).
    clear Hperm H. induction Hall as [|repo entry repos entries He _ IH].
    + constructor.
    + cbn [map].
      destruct (build_entry_layout repo entry He) as (-> & -> & _).
      now constructor.
  - eapply Permutation_Forall; [symmetry; exact Hperm|].
    clear Hperm H. induction Hall as [|repo entry repos entries He _ IH];
      constructor; [|exact IH].
    now destruct (build_entry_layout repo entry He) as (_ & _ & H1 & H2).
Qed.

(** *** The trace of a report *)

Lemma trace_bind_lift {A B} (o : outcome A) (k : A -> M B) :
  trace (bind (lift o) k)
  = match o with
    | Ret a => trace (k a)
    | _ => []
    end.
Proof. destruct o; try reflexivity. now rewrite bind_lift_ret. Qed.

(** What one turn of the loop sends and prints for a repository name. *)
Definition checking (name : value) : list event :=
  [EvPrint ("  Checking " ++ py_str name ++ "...");
   EvGet (runs_request name)].

Lemma build_entry_trace (repo entry : value) :
  result (build_entry repo) = Ret entry ->
  exists name,
    subscript repo "name" = Ret name
    /\ trace (build_entry repo) = checking name.
Proof.
  intros H. pose proof H as H'. rewrite build_entry_pure in H'.
  destruct (subscript repo "name") as [name| | |] eqn:En; try discriminate.
  cbn [obind] in H'.
  destruct (result (get_latest_run name)) as [run| | |] eqn:Erun;
    try discriminate.
  cbn [obind] in H'. exists name. split; [reflexivity|].
  assert (Ht : trace (get_latest_run name) = [EvGet (runs_request name)]).
  { rewrite get_latest_run_cases in Erun |- *.
    destruct (http (runs_request name)) as [resp|]; [|discriminate].
    now destruct (rate_limited resp). }
  open_build_entry. rewrite En, bind_lift_ret.
  rewrite trace_bind. cbn [print trace result fst snd].
  rewrite trace_bind, Ht, Erun.
  rewrite trace_bind_lift.
  destruct (get_status_info run) as [[[k l] i]| | |]; try discriminate.
  cbn [obind fst snd] in H'.
  rewrite trace_bind_lift.
  destruct (subscript repo "html_url") as [url| | |]; try discriminate.
  cbn [obind] in H'.
  rewrite trace_bind_lift.
  destruct (dot_get repo "private" (VBool false)) as [private| | |];
    try discriminate.
  cbn [obind] in H'.
  destruct (truthy run).
  - rewrite trace_bind_lift.
    destruct (run_fields run); try discriminate. reflexivity.
  - reflexivity.
Qed.

Lemma build_loop_trace (repos : list value) :
  forall results out,
  result (build_loop repos results) = Ret out ->
  exists names,
    map (fun repo => subscript repo "name") repos = map Ret names
    /\ trace (build_loop repos results) = flat_map checking names.
Proof.
  induction repos as [|repo repos IH]; intros results out H.
  - now exists [].
  - pose proof H as H'. rewrite build_loop_cons in H'.
    destruct (result (build_entry repo)) as [entry| | |] eqn:Ee;
      try discriminate.
    destruct (build_entry_trace repo entry Ee) as (name & Hname & Ht).
    destruct (IH _ _ H') as (names & Hnames & Hts).
    exists (name :: names). cbn [map flat_map].
    rewrite Hname, Hnames. split; [reflexivity|].
    step_build_loop. rewrite trace_bind, Ee, Ht, Hts. reflexivity.
Qed.

(** X10.  A report that is returned cost one request for each repository,
    in the order of the listing, each one announced on the console just
    before it is sent, and nothing else was sent or printed. *)
Theorem build_repo_data_trace (repos results : list value) :
  result (build_repo_data repos) = Ret results ->
  exists names,
    map (fun repo => subscript repo "name") repos = map Ret names
    /\ trace (build_repo_data repos)
       = flat_map
           (fun name =>
              [EvPrint ("  Checking " ++ py_str name ++ "...");
               EvGet (mkRequest (runs_url environ py_repr name) HEADERS
                        (VDict [("per_page", VInt 1)]) 30)])
           names.
Proof.
  intros H. pose proof H as H'. rewrite result_build_repo_data in H'.
  destruct (result (build_loop repos [])) as [out| | |] eqn:Eloop;
    try discriminate.
  destruct (build_loop_trace repos [] out Eloop) as (names & Hnames & Ht).
  exists names. split; [exact Hnames|].
  open_build_repo_data. rewrite trace_bind, Eloop, Ht.
  cbn [lift trace fst]. now rewrite app_nil_r.
Qed.

(** *** The commit message *)

(** [len(s)]: the number of code points. *)
Fixpoint n_chars (s : string) : nat :=
  match s with
  | EmptyString => 0
  | String c s' => (if PyStr.is_cont c then 0 else 1) + n_chars s'
  end.

Lemma prefix_chars_count (s : string) :
  forall n, n_chars (PyStr.prefix_chars n s) = Nat.min n (n_chars s).
Proof.
  induction s as [|c s IH]; intros n; cbn [PyStr.prefix_chars n_chars].
  - now rewrite Nat.min_0_r.
  - destruct (PyStr.is_cont c) eqn:E.
    + cbn [n_chars]. rewrite E. cbn [Nat.add]. apply IH.
    + destruct n as [|n]; [reflexivity|].
      cbn [n_chars]. rewrite E, IH. cbn [Nat.add]. lia.
Qed.

Lemma prefix_chars_prefix (s : string) :
  forall n, String.prefix (PyStr.prefix_chars n s) s = true.
Proof.
  induction s as [|c s IH]; intros n; cbn [PyStr.prefix_chars]; [reflexivity|].
  destruct (PyStr.is_cont c).
  - cbn [String.prefix]. destruct (ascii_dec c c); [apply IH | congruence].
  - destruct n as [|n]; [reflexivity|].
    cbn [String.prefix]. destruct (ascii_dec c c); [apply IH | congruence].
Qed.

Lemma prefix_chars_all (s : string) :
  forall n, (n_chars s <= n)%nat -> PyStr.prefix_chars n s = s.
Proof.
  induction s as [|c s IH]; intros n; cbn [PyStr.prefix_chars n_chars];
    [reflexivity|].
  destruct (PyStr.is_cont c); cbn [Nat.add]; intros H.
  - now rewrite IH.
  - destruct n as [|n]; [lia|]. rewrite IH by lia. reflexivity.
Qed.

(** The message a run offers: its display title, or failing that the
    message of its head commit. *)
Definition commit_source (run : value) : outcome value :=
  title <~ dot_get run "display_title" VNone ;;
  if truthy title then Ret title
  else
    head_commit <~ dot_get run "head_commit" (VDict []) ;;
    dot_get head_commit "message" (VStr EmptyString).

Lemma run_fields_commit_msg (run : value) (fields : dict) :
  run_fields run = Ret fields ->
  exists msg m,
    commit_source run = Ret msg
    /\ slice_to 80 msg = Ret m
    /\ dict_get fields "commit_msg" = Some m.
Proof.
  intros H. open_run_fields_in H. unfold commit_source.
  returned H; injection H as <-.
  all: repeat match goal with
         | E : dot_get _ "display_title" VNone = Ret _ |- _ =>
             rewrite E; clear E
         | E : truthy _ = _ |- _ => rewrite E; clear E
         | E : dot_get _ "head_commit" _ = Ret _ |- _ => rewrite E; clear E
         end; cbn [obind].
  all: do 2 eexists; repeat split; eassumption.
Qed.

(** X11.  The commit message of a record is at most 80 characters long,
    whatever the run carried.  When the run has a non-empty display title,
    the message is the first 80 characters of the title, the whole title
    when it is no longer than that, and nothing is put after the cut; when
    the title is absent or empty, the message of the head commit is cut in
    the same way. *)
Theorem commit_msg_cut (run : value) (fields : dict) :
  run_fields run = Ret fields ->
  exists m,
    dict_get fields "commit_msg" = Some m
    /\ match m with
       | VStr s => (n_chars s <= 80)%nat
       | VList l => (List.length l <= 80)%nat
       | _ => False
       end
    /\ (forall d t,
          run = VDict d ->
          get_or d "display_title" VNone = VStr t ->
          t <> EmptyString ->
          m = VStr (PyStr.prefix_chars 80 t)
          /\ String.prefix (PyStr.prefix_chars 80 t) t = true
          /\ ((n_chars t <= 80)%nat -> m = VStr t))
    /\ (forall d head_commit c,
          run = VDict d ->
          truthy (get_or d "display_title" VNone) = false ->
          get_or d "head_commit" (VDict []) = VDict head_commit ->
          get_or head_commit "message" (VStr EmptyString) = VStr c ->
          m = VStr (PyStr.prefix_chars 80 c)).
Proof.
  intros H.
  destruct (run_fields_commit_msg run fields H) as (msg & m & Hsrc & Hcut & Hm).
  exists m. split; [exact Hm|]. split; [|split].
  - destruct msg; try discriminate; cbn [slice_to] in Hcut.
    + assert (E : m = VStr (PyStr.prefix_chars 80 s)) by congruence.
      rewrite E, prefix_chars_count. lia.
    + assert (E : m = VList (firstn 80 l)) by congruence.
      rewrite E. apply firstn_le_length.
  - intros d t -> Ht Hne. unfold commit_source in Hsrc.
    cbn [dot_get obind] in Hsrc. rewrite Ht in Hsrc.
    cbn [truthy] in Hsrc. apply String.eqb_neq in Hne. rewrite Hne in Hsrc.
    cbn [negb] in Hsrc.
    assert (Emsg : msg = VStr t) by congruence. subst msg.
    assert (E : m = VStr (PyStr.prefix_chars 80 t))
      by (cbn [slice_to] in Hcut; congruence).
    split; [exact E|]. split; [apply prefix_chars_prefix|].
    intros Hlen. now rewrite E, prefix_chars_all.
  - intros d head_commit c -> Ht Hhc Hc. unfold commit_source in Hsrc.
    cbn [dot_get obind] in Hsrc. rewrite Ht, Hhc in Hsrc.
    cbn [dot_get obind] in Hsrc. rewrite Hc in Hsrc.
    assert (Emsg : msg = VStr c) by congruence. subst msg.
    cbn [slice_to] in Hcut. congruence.
Qed.

(** *** Sorting again *)

Lemma insert_keyed_first {A} (x : (Z * string) * A)
  (l : list ((Z * string) * A)) :
  HdRel not_after x l -> insert_keyed x l = x :: l.
Proof.
  intros H. destruct l as [|y l]; [reflexivity|].
  inversion H as [|? ? Hxy]; subst. cbn [insert_keyed].
  unfold not_after in Hxy. now rewrite Hxy.
Qed.

Lemma sort_keyed_fixed {A} (l : list ((Z * string) * A)) :
  Sorted not_after l -> sort_keyed l = l.
Proof.
  induction 1 as [|x l Hs IH Hhd]; [reflexivity|].
  unfold sort_keyed in *. cbn [fold_right]. rewrite IH.
  now apply insert_keyed_first.
Qed.

Lemma map_outcome_keys (l : list ((Z * string) * value)) :
  Forall (fun p => sort_key (snd p) = Ret (fst p)) l ->
  map_outcome sort_key (map snd l) = Ret (map fst l).
Proof.
  induction 1 as [|p l Hp _ IH]; [reflexivity|].
  cbn [map map_outcome]. now rewrite Hp, IH.
Qed.

Lemma combine_fst_snd {A B} (l : list (A * B)) :
  combine (map fst l) (map snd l) = l.
Proof.
  induction l as [|[a b] l IH]; [reflexivity|].
  cbn [map combine fst snd]. now rewrite IH.
Qed.

(** X12.  Sorting a report that is already sorted changes nothing: what
    [results.sort] returned is a fixed point of the sort. *)
Theorem sort_results_idempotent (results sorted : list value) :
  sort_results results = Ret sorted ->
  sort_results sorted = Ret sorted.
Proof.
  unfold sort_results. intros H.
  destruct (map_outcome sort_key results) as [keys| | |] eqn:Ek;
    try discriminate.
  cbn [obind] in H. injection H as <-.
  apply map_outcome_ret in Ek.
  destruct (Forall2_combine _ _ _ Ek) as [_ Hkeys].
  set (L := sort_keyed (combine keys results)).
  assert (HL : Forall (fun p => sort_key (snd p) = Ret (fst p)) L).
  { rewrite Forall_forall in *. intros p Hp. apply Hkeys.
    eapply Permutation_in; [apply sort_keyed_perm | exact Hp]. }
  rewrite (map_outcome_keys L HL). cbn [obind].
  rewrite combine_fst_snd, sort_keyed_fixed; [reflexivity|].
  apply sort_keyed_sorted.
Qed.

(** *** Counting again *)

(** No two keys of the counts are equal. *)
Definition distinct_keys (c : counts) : Prop :=
  ForallOrdPairs (fun a b => key_eqb (fst a) (fst b) = false) c.

Lemma counts_set_keys (P : value -> Prop) (c : counts) (k : value) (n : Z) :
  Forall (fun kn => P (fst kn)) c ->
  P k ->
  Forall (fun kn => P (fst kn)) (counts_set c k n).
Proof.
  intros Hc Hk. induction Hc as [|[k0 n0] c H0 Hc IH]; cbn [counts_set].
  - now repeat constructor.
  - destruct (key_eqb k0 k); constructor; auto.
Qed.

Lemma counts_set_distinct (c : counts) (k : value) (n : Z) :
  distinct_keys c -> distinct_keys (counts_set c k n).
Proof.
  induction 1 as [|[k0 n0] c H0 Hc IH]; cbn [counts_set].
  - repeat constructor.
  - destruct (key_eqb k0 k) eqn:E.
    + now constructor.
    + constructor; [|exact IH].
      now apply (counts_set_keys (fun k' => key_eqb k0 k' = false)).
Qed.

Lemma counts_set_positive (c : counts) (k : value) :
  Forall (fun kn => 1 <= snd kn) c ->
  Forall (fun kn => 1 <= snd kn) (counts_set c k (counts_get c k 0 + 1)).
Proof.
  induction 1 as [|[k0 n0] c H0 Hc IH]; cbn [counts_set counts_get].
  - repeat constructor. cbn. lia.
  - destruct (key_eqb k0 k); constructor; auto.
    cbn [snd] in *. lia.
Qed.

Lemma count_loop_keeps (data : list value) :
  forall c c',
  count_loop data c = Ret c' ->
  Forall (fun kn => 1 <= snd kn) c ->
  distinct_keys c ->
  Forall (fun kn => 1 <= snd kn) c' /\ distinct_keys c'.
Proof.
  induction data as [|r data IH]; intros c c' H Hpos Hdist.
  - injection H as <-. now split.
  - cbn [count_loop] in H.
    destruct (subscript r "status_key") as [k| | |]; try discriminate.
    cbn [obind] in H.
    destruct (hashable k); try discriminate.
    cbn [obind] in H.
    apply IH in H; [exact H | now apply counts_set_positive
                   | now apply counts_set_distinct].
Qed.

(** X13.  The counts [count_statuses] returns are exact: the entry of a
    status key holds the number of records with that key, and a key that
    no record has is looked up as 0.  No entry is below 1 and no key
    occurs twice. *)
Theorem count_statuses_exact (data : list value) (cnt : counts) :
  count_statuses data = Ret cnt ->
  (forall k,
     counts_get cnt (VStr k) 0
     = Z.of_nat (List.length
                   (filter (fun r =>
                              match subscript r "status_key" with
                              | Ret v => eq_str v k
                              | _ => false
                              end)
                      data)))
  /\ Forall (fun kn => 1 <= snd kn) cnt
  /\ distinct_keys cnt.
Proof.
  unfold count_statuses. intros H. split.
  - intros k. now rewrite (count_loop_get data k [] cnt H).
  - apply (count_loop_keeps data [] cnt H); constructor.
Qed.

Lemma count_loop_counted (pre : list value) :
  Forall (fun r => exists k, subscript r "status_key" = Ret k
                             /\ hashable k = Ret tt) pre ->
  forall rest c, exists c',
    count_loop (pre ++ rest) c = count_loop rest c'.
Proof.
  induction 1 as [|r pre (k & Hk & Hh) _ IH]; intros rest c.
  - now exists c.
  - cbn [app count_loop]. rewrite Hk; cbn [obind]. rewrite Hh; cbn [obind].
    apply IH.
Qed.

(** X14.  [count_statuses] returns nothing when a record cannot be
    counted: after any number of records that can, a JSON object without a
    status_key raises KeyError, a record that is no JSON object raises
    TypeError, and so does a status key that is a list or an object. *)
Theorem count_statuses_raises (pre post : list value) (r : value) :
  Forall (fun r => exists k, subscript r "status_key" = Ret k
                             /\ hashable k = Ret tt) pre ->
  (forall d,
     r = VDict d -> dict_get d "status_key" = None ->
     count_statuses (pre ++ r :: post) = Raise KeyError)
  /\ ((forall d, r <> VDict d) ->
      count_statuses (pre ++ r :: post) = Raise TypeError)
  /\ (forall k,
        subscript r "status_key" = Ret k ->
        (exists l, k = VList l) \/ (exists d, k = VDict d) ->
        count_statuses (pre ++ r :: post) = Raise TypeError).
Proof.
  intros Hpre. unfold count_statuses.
  destruct (count_loop_counted pre Hpre (r :: post) []) as [c ->].
  cbn [count_loop]. split; [|split].
  - intros d -> Hd. cbn [subscript]. now rewrite Hd.
  - intros Hr. destruct r; try reflexivity. now contradiction (Hr d).
  - intros k -> [[l ->] | [d ->]]; reflexivity.
Qed.

(** *** Rendering *)

(** The keys a row is made of. *)
Definition row_keys : list string :=
  ["status_key"; "status_icon"; "status_label"; "url"; "name"].

(** A record the renderer can make a row of: a JSON object with the keys
    of a row. *)
Definition renderable (r : value) : bool :=
  match r with
  | VDict d =>
      forallb (fun k => match dict_get d k with
                        | Some _ => true
                        | None => false
                        end)
        row_keys
  | _ => false
  end.

(** The rows of a table, one after the other. *)
Definition join (rows : list string) : string :=
  fold_right String.append EmptyString rows.

Lemma append_assoc (a b c : string) : (a ++ b) ++ c = a ++ (b ++ c).
Proof. induction a as [|x a IH]; cbn; [reflexivity | now rewrite IH]. Qed.

Lemma append_nil_r (a : string) : a ++ EmptyString = a.
Proof. induction a as [|x a IH]; cbn; [reflexivity | now rewrite IH]. Qed.

Lemma run_cells_dict (d : dict) :
  exists cells, run_cells py_repr (VDict d) = Ret cells.
Proof.
  unfold run_cells. cbn [dot_get obind subscript].
  unfold get_or at 1.
  destruct (dict_get d "run_url") as [u|]; [|now eexists].
  destruct (truthy u); now eexists.
Qed.

Lemma copy_btn_dict (d : dict) (k name : value) :
  dict_get d "status_key" = Some k ->
  dict_get d "name" = Some name ->
  exists btn, copy_btn py_repr (VDict d) = Ret btn.
Proof.
  intros Hk Hname. unfold copy_btn, copy_text.
  cbn [subscript dot_get obind]. rewrite Hk, Hname. cbn [obind].
  destruct (in_strs k ["failure"; "cancelled"]); [|now eexists].
  destruct (truthy (get_or d "run_url" VNone)); now eexists.
Qed.

Lemma html_row_returns (r : value) :
  renderable r = true <-> exists row, html_row r = Ret row.
Proof.
  split.
  - destruct r as [| | | | |d]; try discriminate.
    unfold renderable, row_keys. cbn [forallb]. intros H.
    destruct (dict_get d "status_key") as [k|] eqn:Ek; [|discriminate].
    destruct (dict_get d "status_icon") as [i|] eqn:Ei; [|discriminate].
    destruct (dict_get d "status_label") as [l|] eqn:El; [|discriminate].
    destruct (dict_get d "url") as [u|] eqn:Eu; [|discriminate].
    destruct (dict_get d "name") as [n|] eqn:En; [|discriminate].
    destruct (run_cells_dict d) as [[[[rl ci] du] br] Hcells].
    destruct (copy_btn_dict d k n Ek En) as [btn Hbtn].
    open_html_row. rewrite Hcells, Hbtn.
    cbn [subscript dot_get obind]. rewrite Ek, Ei, El, Eu, En.
    cbn [obind]. now eexists.
  - intros [row H]. open_html_row_in H.
    destruct r as [| | | | |d]; try discriminate.
    cbn [subscript] in H. unfold renderable, row_keys. cbn [forallb].
    destruct (dict_get d "status_key"); [|discriminate].
    cbn [obind] in H.
    destruct (run_cells py_repr (VDict d)) as [[[[rl ci] du] br]| | |];
      try discriminate.
    cbn [obind] in H.
    destruct (copy_btn py_repr (VDict d)); try discriminate.
    cbn [obind] in H.
    destruct (dict_get d "status_icon"); [|discriminate].
    destruct (dict_get d "status_label"); [|discriminate].
    destruct (dict_get d "url"); [|discriminate].
    destruct (dict_get d "name"); [|discriminate].
    reflexivity.
Qed.

Lemma html_row_dict_raises (d : dict) :
  renderable (VDict d) = false -> html_row (VDict d) = Raise KeyError.
Proof.
  intros Hno.
  assert (Hnot : forall row, html_row (VDict d) <> Ret row).
  { intros row H.
    assert (E : renderable (VDict d) = true)
      by (apply html_row_returns; now exists row).
    congruence. }
  revert Hnot. open_html_row. unfold copy_btn, copy_text.
  cbn [subscript dot_get obind].
  destruct (run_cells_dict d) as [[[[rl ci] du] br] ->].
  destruct (dict_get d "status_key") as [k|]; [|reflexivity].
  cbn [obind].
  destruct (dict_get d "name") as [n|];
    destruct (in_strs k ["failure"; "cancelled"]);
    destruct (truthy (get_or d "run_url" VNone));
    cbn [obind];
    destruct (dict_get d "status_icon"); try reflexivity;
    destruct (dict_get d "status_label"); try reflexivity;
    destruct (dict_get d "url"); try reflexivity;
    cbn [obind]; intros Hnot; now contradiction (Hnot _ eq_refl).
Qed.

Lemma rows_loop_all (data : list value) (rows : list string) :
  Forall2 (fun r row => html_row r = Ret row) data rows ->
  forall acc, rows_loop data acc = Ret (acc ++ join rows).
Proof.
  induction 1 as [|r row data rows Hrow _ IH]; intros acc.
  - cbn. now rewrite append_nil_r.
  - step_rows_loop. rewrite Hrow. cbn [obind].
    rewrite IH. cbn [join fold_right]. now rewrite append_assoc.
Qed.

Lemma rows_loop_raises (pre : list value) :
  Forall (fun r => renderable r = true) pre ->
  forall r post acc e,
  html_row r = Raise e ->
  rows_loop (pre ++ r :: post) acc = Raise e.
Proof.
  induction 1 as [|p pre Hp _ IH]; intros r post acc e Hr.
  - cbn [app]. step_rows_loop. now rewrite Hr.
  - cbn [app]. step_rows_loop.
    apply html_row_returns in Hp. destruct Hp as [row ->]. cbn [obind].
    now apply IH.
Qed.

Lemma renderable_rows (data : list value) :
  Forall (fun r => renderable r = true) data ->
  exists rows, Forall2 (fun r row => html_row r = Ret row) data rows.
Proof.
  induction 1 as [|r data Hr _ [rows IH]].
  - exists []. constructor.
  - apply html_row_returns in Hr. destruct Hr as [row Hrow].
    exists (row :: rows). now constructor.
Qed.

(** X15.  [generate_html] returns a page exactly for records that are
    JSON objects with the keys status_key, status_icon, status_label, url
    and name: the table then has the row of each record, in the order of
    the records and with nothing between them.  The first record that is
    not such an object ends the rendering: KeyError for an object that
    lacks a key, TypeError for a value that is no object. *)
Theorem generate_html_rows (data : list value) (cnt : counts)
  (timestamp : value) :
  (Forall (fun r => renderable r = true) data ->
   exists rows health color total passing failing running no_ci other,
     Forall2 (fun r row => html_row r = Ret row) data rows
     /\ generate_html data cnt timestamp
        = Ret (Template.page_template health color total passing failing
                 running no_ci other (py_str timestamp) (join rows)))
  /\ (forall pre r post,
        data = (pre ++ r :: post)%list ->
        Forall (fun r => renderable r = true) pre ->
        renderable r = false ->
        generate_html data cnt timestamp
        = Raise match r with
                | VDict _ => KeyError
                | _ => TypeError
                end).
Proof.
  split.
  - intros Hall. destruct (renderable_rows data Hall) as [rows Hrows].
    pose proof (rows_loop_all data rows Hrows EmptyString) as Hloop.
    cbn [String.append] in Hloop.
    exists rows. do 8 eexists. split; [exact Hrows|].
    open_generate_html. cbv zeta. rewrite Hloop. reflexivity.
  - intros pre r post -> Hpre Hr.
    assert (Hrow : html_row r = Raise match r with
                                      | VDict _ => KeyError
                                      | _ => TypeError
                                      end).
    { destruct r; try reflexivity. now apply html_row_dict_raises. }
    open_generate_html. cbv zeta.
    now rewrite (rows_loop_raises pre Hpre r post EmptyString _ Hrow).
Qed.

(** *** The copy control in the page *)























Lemma dict_get_in (d : dict) (k : string) :
  In k (map fst d) -> exists v, dict_get d k = Some v.
Proof.
  induction d as [|[k0 v0] d IH]; [intros []|].
  cbn [map fst In dict_get]. intros H.
  destruct (String.eqb k0 k) eqn:E; [now eexists|].
  destruct H as [-> | H]; [now rewrite String.eqb_refl in E | auto].
Qed.

Lemma base_fields_renderable (r : value) :
  field_names r = base_names
  \/ field_names r = (base_names ++ run_names)%list ->
  renderable r = true.
Proof.
  intros H.
  destruct r as [| | | | |d];
    try (destruct H as [H | H]; discriminate H).
  cbn [field_names] in H. unfold renderable, row_keys. cbn [forallb].
  assert (Hin : forall k, In k base_names -> exists v, dict_get d k = Some v).
  { intros k Hk. apply dict_get_in.
    destruct H as [-> | ->]; [exact Hk | apply in_or_app; now left]. }
  destruct (Hin "status_key") as [? ->]; [simpl; auto 7|].
  destruct (Hin "status_icon") as [? ->]; [simpl; auto 7|].
  destruct (Hin "status_label") as [? ->]; [simpl; auto 7|].
  destruct (Hin "url") as [? ->]; [simpl; auto 7|].
  destruct (Hin "name") as [? ->]; [simpl; auto 7|].
  reflexivity.
Qed.

Lemma build_repo_data_renderable (repos data : list value) :
  result (build_repo_data repos) = Ret data ->
  Forall (fun r => renderable r = true) data.
Proof.
  intros H.
  destruct (build_repo_data_entries repos data H) as (entries & Hperm & Hall).
  eapply Permutation_Forall; [symmetry; exact Hperm|].
  clear Hperm H. induction Hall as [|repo entry repos entries He _ IH];
    constructor; [|exact IH].
  apply base_fields_renderable.
  now destruct (build_entry_layout repo entry He) as (_ & _ & H1 & _).
Qed.

(** X16.  The page shows the true numbers.  With the counts of the
    records themselves, the summary strip gives the number of records and
    the numbers of records whose key is success, failure, running and
    no_ci, and the banner reads ALL GREEN in green exactly when no record
    has the key failure; otherwise it gives the number of failures, in
    red. *)
Theorem generate_html_figures (data : list value) (cnt : counts)
  (timestamp : value) (page : string) :
  count_statuses data = Ret cnt ->
  generate_html data cnt timestamp = Ret page ->
  let n := fun k => count_key k data in
  let total := Z.of_nat (List.length data) in
  (exists rows,
     page = Template.page_template
              (if n "failure" =? 0 then "ALL GREEN"
               else PyStr.of_Z (n "failure") ++ " FAILING")
              (if n "failure" =? 0 then "#4caf50" else "#f44336")
              (PyStr.of_Z total)
              (PyStr.of_Z (n "success"))
              (PyStr.of_Z (n "failure"))
              (PyStr.of_Z (n "running"))
              (PyStr.of_Z (n "no_ci"))
              (other_span
                 (total - n "failure" - n "success" - n "running" - n "no_ci"))
              (py_str timestamp) rows)
  /\ (n "failure" = 0
      <-> Forall (fun r => subscript r "status_key" <> Ret (VStr "failure"))
            data).
Proof.
  intros Hcnt Hpage n total.
  assert (Hget : forall k, counts_get cnt (VStr k) 0 = n k).
  { intros k. unfold count_statuses in Hcnt.
    now rewrite (count_loop_get data k [] cnt Hcnt). }
  split.
  - open_generate_html_in Hpage. cbv zeta in Hpage.
    unfold other_count in Hpage. rewrite !Hget in Hpage.
    destruct (rows_loop data EmptyString) as [rows| | |]; try discriminate.
    cbn [obind] in Hpage. injection Hpage as <-. now exists rows.
  - unfold n, count_key. clear.
    induction data as [|r data IH]; [split; constructor|].
    cbn [filter]. unfold has_key at 1.
    destruct (subscript r "status_key") as [v| | |] eqn:Ev.
    + destruct (eq_str v "failure") eqn:E.
      * apply eq_str_true in E. subst v. cbn [List.length]. split; [lia|].
        intros H. inversion H; subst. congruence.
      * rewrite IH. split; intros H.
        -- constructor; [|exact H]. intros Hv.
           assert (Ev' : v = VStr "failure") by congruence.
           subst v. discriminate E.
        -- now inversion H.
    + rewrite IH. split; intros H; [|now inversion H].
      constructor; [congruence | exact H].
    + rewrite IH. split; intros H; [|now inversion H].
      constructor; [congruence | exact H].
    + rewrite IH. split; intros H; [|now inversion H].
      constructor; [congruence | exact H].
Qed.

(** X17.  The three steps fit: every report [build_repo_data] returns can
    be counted and rendered.  [count_statuses] returns its counts, they
    add up to the number of repositories, and [generate_html] returns a
    page for them, whatever the timestamp. *)
Theorem report_counts_and_renders (repos data : list value) :
  result (build_repo_data repos) = Ret data ->
  exists cnt,
    count_statuses data = Ret cnt
    /\ sum_values cnt = Z.of_nat (List.length repos)
    /\ forall timestamp,
         exists page, generate_html data cnt timestamp = Ret page.
Proof.
  intros H.
  destruct (build_repo_data_returned environ http py_repr fromisoformat
              strftime_art local_refusal repos data H) as (Hlen & Hclass & _).
  destruct (count_loop_total data) with (c := @nil (value * Z)) as [cnt Hcnt].
  { eapply Forall_impl; [|exact Hclass].
    intros r (k & Hk & _). exists (VStr k). now split. }
  exists cnt. split; [exact Hcnt|]. split.
  - rewrite (count_loop_sum data [] cnt Hcnt), Hlen. cbn. lia.
  - intros timestamp.
    destruct (renderable_rows data (build_repo_data_renderable repos data H))
      as [rows Hrows].
    open_generate_html. cbv zeta.
    rewrite (rows_loop_all data rows Hrows EmptyString). cbn [obind].
    now eexists.
Qed.

(** *** Durations of an hour or more *)

(** X18.  From one hour on [format_duration] shows hours and minutes and
    drops the seconds: two durations of an hour or more within the same
    minute are shown alike, and each is shown as its whole minutes are. *)
Theorem format_duration_drops_seconds (s t : Z) :
  3600 <= s ->
  3600 <= t ->
  s / 60 = t / 60 ->
  format_duration s = format_duration t
  /\ format_duration s = format_duration (60 * (s / 60)).
Proof.
  assert (H : forall x, 3600 <= x ->
            format_duration x
            = PyStr.of_Z (x / 60 / 60) ++ "h "
              ++ PyStr.of_Z ((x / 60) mod 60) ++ "m").
  { intros x Hx. unfold format_duration.
    assert (E1 : (x <? 60) = false) by (apply Z.ltb_ge; lia).
    assert (E2 : (x / 60 <? 60) = false).
    { apply Z.ltb_ge. apply Z.div_le_lower_bound; lia. }
    now rewrite E1, E2. }
  intros Hs Ht Hst.
  assert (Hm : 60 <= s / 60) by (apply Z.div_le_lower_bound; lia).
  rewrite (H s Hs), (H t Ht), (H (60 * (s / 60))) by lia.
  rewrite Hst. split; [reflexivity|].
  rewrite <- Hst.
  replace (60 * (s / 60) / 60) with (s / 60)
    by (rewrite Z.mul_comm, Z.div_mul; lia).
  reflexivity.
Qed.

(** *** The whole script *)

(** What [main] does to the world beyond requests and printed lines: it
    makes a directory and writes two files. *)
Inductive effect : Type :=
| Did (e : event)                (* a request was sent or a line printed *)
| Makedirs (path : string)       (* os.makedirs(path, exist_ok=True) *)
| Open (path : string)           (* open(path, "w"): created or emptied *)
| Write (path text : string).    (* text written to the open file *)

Definition IO (A : Type) : Type := (list effect * outcome A)%type.

Definition io_bind {A B} (m : IO A) (k : A -> IO B) : IO B :=
  match m with
  | (t, Ret a) => let (t', r) := k a in ((t ++ t')%list, r)
  | (t, Raise e) => (t, Raise e)
  | (t, Exit c) => (t, Exit c)
  | (t, OutOfFuel) => (t, OutOfFuel)
  end.

(** A call of one of the functions above, a pure step, and one effect. *)
Definition call {A} (m : M A) : IO A := (map Did (trace m), result m).
Definition pure {A} (o : outcome A) : IO A := ([], o).
Definition emit (e : effect) : IO unit := ([e], Ret tt).
Definition say (line : string) : IO unit := emit (Did (EvPrint line)).

#[local] Notation "x <-- m ;;; k" := (io_bind m (fun x => k))
  (at level 61, m at next level, right associativity).
#[local] Notation "m ;;; k" := (io_bind m (fun _ => k))
  (at level 61, right associativity).

(** [{k: v for k, v in r.items()}]: a copy of a dict; nothing else has
    [items]. *)
Definition copy_record (r : value) : outcome value :=
  match r with
  | VDict d => Ret (VDict d)
  | _ => Raise AttributeError
  end.

(** [sorted(counts.items())].  The items are pairs and the keys of a dict
    are never equal, so the keys decide; Python orders two strings and two
    numbers, and raises [TypeError] for any other two keys it is asked to
    order, which it is as soon as there are two items.  [sorted] is
    stable, as the insertion sort here. *)
Definition key_number (k : value) : option Z :=
  match k with
  | VInt n => Some n
  | VBool b => Some (if b then 1 else 0)
  | _ => None
  end.

Definition ordered_with (a b : value) : bool :=
  match a, b with
  | VStr _, VStr _ => true
  | (VInt _ | VBool _), (VInt _ | VBool _) => true
  | _, _ => false
  end.

Definition value_ltb (a b : value) : bool :=
  match a, b with
  | VStr s, VStr t => String.ltb s t
  | _, _ => match key_number a, key_number b with
            | Some x, Some y => x <? y
            | _, _ => false
            end
  end.

Definition item_lt (a b : value * Z) : bool :=
  if key_eqb (fst a) (fst b) then snd a <? snd b
  else value_ltb (fst a) (fst b).

Fixpoint insert_item (x : value * Z) (l : list (value * Z)) : list (value * Z) :=
  match l with
  | [] => [x]
  | y :: l' => if item_lt x y then x :: l else y :: insert_item x l'
  end.

Definition sorted_items (c : counts) : outcome (list (value * Z)) :=
  match c with
  | [] => Ret []
  | (k, _) :: rest =>
      if forallb (fun kn => ordered_with k (fst kn)) rest
      then Ret (fold_left (fun acc x => insert_item x acc) c [])
      else Raise TypeError
  end.

(** The clock and the serializer are the host's: [now_art] is what
    [datetime.now(AR_TZ).strftime("%Y-%m-%d %H:%M:%S")] gives when [main]
    reaches it, and [json_dump timestamp total counts repos] is the text
    [json.dump] writes, with [indent=2], for the object with these four
    members. *)
Variable now_art : string.
Variable json_dump : string -> Z -> counts -> list value -> string.

#[local] Abbreviation GH_TOKEN := (GH_TOKEN environ).
#[local] Abbreviation ORG_NAME := (ORG_NAME environ).

Definition dashboard_dir : string := "/tmp/dashboard".
Definition index_html : string := "/tmp/dashboard/index.html".
Definition status_json : string := "/tmp/dashboard/status.json".

Definition summary_line (kn : value * Z) : string :=
  "  " ++ py_str (fst kn) ++ ": " ++ PyStr.of_Z (snd kn).

(** The last loop of [main]. *)
Fixpoint say_all (lines : list string) : IO unit :=
  match lines with
  | [] => pure (Ret tt)
  | line :: rest => say line ;;; say_all rest
  end.

(** [main], step by step.  The three calls of the file system are taken to
    succeed; [fuel] is the bound on the pages of the listing. *)
Definition main (fuel : nat) : IO unit :=
  (if negb (truthy GH_TOKEN) then
     say "ERROR: GH_TOKEN or GITHUB_TOKEN not set" ;;;
     pure (Exit 1)
   else pure (Ret tt)) ;;;
  say ("Fetching repos for org '" ++ ORG_NAME ++ "'...") ;;;
  repos <-- call (get_all_repos fuel) ;;;
  say ("Found " ++ PyStr.of_Z (Z.of_nat (List.length repos)) ++ " repos") ;;;
  say "Checking CI status for each repo..." ;;;
  data <-- call (build_repo_data repos) ;;;
  cnt <-- pure (count_statuses data) ;;;
  let timestamp := now_art in
  html <-- pure (generate_html data cnt (VStr timestamp)) ;;;
  emit (Makedirs dashboard_dir) ;;;
  emit (Open index_html) ;;;
  emit (Write index_html html) ;;;
  emit (Open status_json) ;;;
  copies <-- pure (map_outcome copy_record data) ;;;
  emit (Write status_json
          (json_dump timestamp (Z.of_nat (List.length data)) cnt copies)) ;;;
  say (String (ascii_of_nat 10) "Dashboard generated: "
       ++ PyStr.of_Z (Z.of_nat (List.length data)) ++ " repos") ;;;
  items <-- pure (sorted_items cnt) ;;;
  say_all (map summary_line items).

(** What [main] wrote to disk, and the requests it sent. *)
Definition file_effects (t : list effect) : list effect :=
  filter (fun e => match e with Did _ => false | _ => true end) t.

Definition requests_sent (t : list effect) : list request :=
  flat_map (fun e => match e with Did (EvGet r) => [r] | _ => [] end) t.

Lemma file_effects_app (t u : list effect) :
  file_effects (t ++ u) = (file_effects t ++ file_effects u)%list.
Proof. apply filter_app. Qed.

Lemma file_effects_did (t : list event) : file_effects (map Did t) = [].
Proof. induction t as [|e t IH]; [reflexivity | exact IH]. Qed.

Lemma say_all_lines (lines : list string) :
  say_all lines = (map (fun line => Did (EvPrint line)) lines, Ret tt).
Proof.
  induction lines as [|line lines IH]; [reflexivity|].
  cbn [say_all map]. rewrite IH. reflexivity.
Qed.

Lemma copy_records (data : list value) :
  Forall (fun r => renderable r = true) data ->
  map_outcome copy_record data = Ret data.
Proof.
  induction 1 as [|r data Hr _ IH]; [reflexivity|].
  cbn [map_outcome]. rewrite IH.
  destruct r; try discriminate Hr. reflexivity.
Qed.

Definition string_key (kn : value * Z) : Prop := exists k, fst kn = VStr k.

Lemma count_loop_string_keys (data : list value) :
  Forall classified data ->
  forall c c',
  count_loop data c = Ret c' ->
  Forall string_key c ->
  Forall string_key c'.
Proof.
  induction 1 as [|r data (k & Hk & _) _ IH]; intros c c' H Hc.
  - now injection H as <-.
  - cbn [count_loop] in H. rewrite Hk in H. cbn [obind hashable] in H.
    apply IH in H; [exact H|].
    apply (counts_set_keys (fun k' => exists s, k' = VStr s));
      [exact Hc | now exists k].
Qed.

Lemma sorted_items_string_keys (c : counts) :
  Forall string_key c ->
  sorted_items c = Ret (fold_left (fun acc x => insert_item x acc) c []).
Proof.
  intros Hc. destruct c as [|[k n] rest]; [reflexivity|].
  unfold sorted_items.
  inversion Hc as [|? ? [s Hs] Hrest]; subst. cbn [fst] in Hs. subst k.
  replace (forallb (fun kn => ordered_with (VStr s) (fst kn)) rest) with true;
    [reflexivity|].
  symmetry. apply forallb_forall. intros [k' n'] Hin.
  rewrite Forall_forall in Hrest. destruct (Hrest _ Hin) as [s' Hs'].
  cbn [fst] in *. now subst k'.
Qed.

(** The steps after the report: they all return. *)
Lemma report_published (repos data : list value) :
  result (build_repo_data repos) = Ret data ->
  exists cnt html,
    count_statuses data = Ret cnt
    /\ generate_html data cnt (VStr now_art) = Ret html
    /\ map_outcome copy_record data = Ret data
    /\ sorted_items cnt
       = Ret (fold_left (fun acc x => insert_item x acc) cnt []).
Proof.
  intros H.
  destruct (build_repo_data_returned environ http py_repr fromisoformat
              strftime_art local_refusal repos data H) as (Hlen & Hclass & _).
  pose proof (build_repo_data_renderable repos data H) as Hrend.
  destruct (count_loop_total data) with (c := @nil (value * Z)) as [cnt Hcnt].
  { eapply Forall_impl; [|exact Hclass].
    intros r (k & Hk & _). exists (VStr k). now split. }
  destruct (renderable_rows data Hrend) as [rows Hrows].
  exists cnt. eexists. split; [exact Hcnt|]. split; [|split].
  - open_generate_html. cbv zeta.
    rewrite (rows_loop_all data rows Hrows EmptyString). cbn [obind].
    reflexivity.
  - now apply copy_records.
  - apply sorted_items_string_keys.
    apply (count_loop_string_keys data Hclass [] cnt Hcnt). constructor.
Qed.

Definition fetching : string := "Fetching repos for org '" ++ ORG_NAME ++ "'...".

Definition found (repos : list value) : string :=
  "Found " ++ PyStr.of_Z (Z.of_nat (List.length repos)) ++ " repos".

Definition generated (data : list value) : string :=
  String (ascii_of_nat 10) "Dashboard generated: "
  ++ PyStr.of_Z (Z.of_nat (List.length data)) ++ " repos".

(** [main] by the stage it gets to. *)
Lemma main_stages (fuel : nat) :
  main fuel
  = if negb (truthy GH_TOKEN) then
      ([Did (EvPrint "ERROR: GH_TOKEN or GITHUB_TOKEN not set")], Exit 1)
    else
      let listing := Did (EvPrint fetching)
                     :: map Did (trace (get_all_repos fuel)) in
      match result (get_all_repos fuel) with
      | Ret repos =>
          let building :=
            (listing ++ Did (EvPrint (found repos))
                     :: Did (EvPrint "Checking CI status for each repo...")
                     :: map Did (trace (build_repo_data repos)))%list in
          match result (build_repo_data repos) with
          | Ret data =>
              match count_statuses data with
              | Ret cnt =>
                  match generate_html data cnt (VStr now_art) with
                  | Ret html =>
                      let opened :=
                        (building ++ [Makedirs dashboard_dir;
                                      Open index_html;
                                      Write index_html html;
                                      Open status_json])%list in
                      match map_outcome copy_record data with
                      | Ret copies =>
                          let written :=
                            (opened
                             ++ [Write status_json
                                   (json_dump now_art
                                      (Z.of_nat (List.length data)) cnt copies);
                                 Did (EvPrint (generated data))])%list in
                          match sorted_items cnt with
                          | Ret items =>
                              ((written
                                ++ map (fun kn => Did (EvPrint (summary_line kn)))
                                     items)%list,
                               Ret tt)
                          | Raise e => (written, Raise e)
                          | Exit c => (written, Exit c)
                          | OutOfFuel => (written, OutOfFuel)
                          end
                      | Raise e => (opened, Raise e)
                      | Exit c => (opened, Exit c)
                      | OutOfFuel => (opened, OutOfFuel)
                      end
                  | Raise e => (building, Raise e)
                  | Exit c => (building, Exit c)
                  | OutOfFuel => (building, OutOfFuel)
                  end
              | Raise e => (building, Raise e)
              | Exit c => (building, Exit c)
              | OutOfFuel => (building, OutOfFuel)
              end
          | Raise e => (building, Raise e)
          | Exit c => (building, Exit c)
          | OutOfFuel => (building, OutOfFuel)
          end
      | Raise e => (listing, Raise e)
      | Exit c => (listing, Exit c)
      | OutOfFuel => (listing, OutOfFuel)
      end.
Proof.
  unfold main, fetching, found, generated.
  destruct (truthy GH_TOKEN); cbn [negb]; [|reflexivity].
  destruct (get_all_repos fuel) as [t1 [repos| | |]];
    cbn [io_bind call pure say emit trace result fst snd app];
    try reflexivity.
  destruct (build_repo_data repos) as [t2 [data| | |]];
    cbn [io_bind call pure say emit trace result fst snd app];
    try (now rewrite ?app_nil_r, <- ?app_assoc).
  destruct (count_statuses data) as [cnt| | |];
    cbn [io_bind call pure say emit trace result fst snd app];
    try (now rewrite ?app_nil_r, <- ?app_assoc).
  destruct (generate_html data cnt (VStr now_art)) as [html| | |];
    cbn [io_bind call pure say emit trace result fst snd app];
    try (now rewrite ?app_nil_r, <- ?app_assoc).
  destruct (map_outcome copy_record data) as [copies| | |];
    cbn [io_bind call pure say emit trace result fst snd app];
    try (now rewrite ?app_nil_r, <- ?app_assoc).
  destruct (sorted_items cnt) as [items| | |];
    cbn [io_bind call pure say emit trace result fst snd app];
    try (now rewrite ?app_nil_r, <- ?app_assoc).
  rewrite say_all_lines, map_map.
  cbn [app]. now rewrite ?app_nil_r, <- ?app_assoc.
Qed.

(** X19.  Without a token [main] does nothing but complain: it prints one
    line and ends the process with status 1, before any request is sent
    and before anything is written.  This is what it does exactly when
    neither GH_TOKEN nor GITHUB_TOKEN holds a non-empty string; an empty
    GH_TOKEN gives way to GITHUB_TOKEN. *)
Theorem main_needs_token (fuel : nat) :
  let missing v := environ v = None \/ environ v = Some EmptyString in
  main fuel
  = ([Did (EvPrint "ERROR: GH_TOKEN or GITHUB_TOKEN not set")], Exit 1)
  <-> missing "GH_TOKEN" /\ missing "GITHUB_TOKEN".
Proof.
  intros missing.
  assert (Hm : forall v, truthy (environ_get environ v) = false <-> missing v).
  { intros v. unfold environ_get, missing.
    destruct (environ v) as [[|c s]|]; cbn [truthy String.eqb negb]; split;
      intros H; auto; try discriminate H;
      destruct H as [H | H]; discriminate H. }
  assert (Ht : truthy GH_TOKEN = false
               <-> missing "GH_TOKEN" /\ missing "GITHUB_TOKEN").
  { open_token. rewrite <- !Hm.
    destruct (truthy (environ_get environ "GH_TOKEN")) eqn:E.
    - rewrite E. split; [discriminate | intros [H _]; discriminate H].
    - split; [now split | now intros [_ H]]. }
  rewrite <- Ht, main_stages.
  destruct (truthy GH_TOKEN); cbn [negb]; [|now split].
  split; [|discriminate].
  cbv zeta. unfold fetching.
  destruct (result (get_all_repos fuel)) as [repos| | |];
    try (intros H; discriminate H).
  destruct (result (build_repo_data repos)) as [data| | |];
    try (intros H; discriminate H).
  destruct (count_statuses data) as [cnt| | |];
    try (intros H; discriminate H).
  destruct (generate_html data cnt (VStr now_art)) as [html| | |];
    try (intros H; discriminate H).
  destruct (map_outcome copy_record data) as [copies| | |];
    try (intros H; discriminate H).
  destruct (sorted_items cnt) as [items| | |];
    intros H; discriminate H.
Qed.

(** X20.  With a token, a listing that ended and a report that was built,
    [main] runs to its end.  In this order it lists, builds, makes the
    directory, writes the page [generate_html] returns for the counts of
    the report, writes the status file for the same timestamp, the number
    of repositories, the same counts and the records of the report, and
    prints the summary; nothing is counted or rendered that the report
    does not hold, and no step after the report can fail. *)
Theorem main_completes (fuel : nat) (repos data : list value) :
  truthy GH_TOKEN = true ->
  result (get_all_repos fuel) = Ret repos ->
  result (build_repo_data repos) = Ret data ->
  exists cnt html items,
    count_statuses data = Ret cnt
    /\ generate_html data cnt (VStr now_art) = Ret html
    /\ sorted_items cnt = Ret items
    /\ main fuel
       = ((Did (EvPrint fetching)
           :: map Did (trace (get_all_repos fuel))
           ++ Did (EvPrint (found repos))
           :: Did (EvPrint "Checking CI status for each repo...")
           :: map Did (trace (build_repo_data repos))
           ++ [Makedirs "/tmp/dashboard";
               Open "/tmp/dashboard/index.html";
               Write "/tmp/dashboard/index.html" html;
               Open "/tmp/dashboard/status.json";
               Write "/tmp/dashboard/status.json"
                 (json_dump now_art (Z.of_nat (List.length repos)) cnt data);
               Did (EvPrint (generated data))]
           ++ map (fun kn => Did (EvPrint (summary_line kn))) items)%list,
          Ret tt).
Proof.
  intros Htok Hrepos Hdata.
  destruct (report_published repos data Hdata)
    as (cnt & html & Hcnt & Hhtml & Hcopy & Hitems).
  destruct (build_repo_data_returned environ http py_repr fromisoformat
              strftime_art local_refusal repos data Hdata) as (Hlen & _).
  exists cnt, html. eexists.
  split; [exact Hcnt|]. split; [exact Hhtml|]. split; [exact Hitems|].
  rewrite main_stages, Htok. cbn [negb]. cbv zeta.
  rewrite Hrepos, Hdata, Hcnt, Hhtml, Hcopy, Hitems, Hlen.
  f_equal. cbn [app].
  repeat (rewrite <- app_assoc; cbn [app]). reflexivity.
Qed.

(** X21.  [main] writes all or nothing.  When it returns it has made the
    directory and written the two files, the page first, each opened once
    and written once; when it ends in any other way, by an exception, by
    the exit for the rate limit or for the missing token, no directory was
    made and no file was opened. *)
Theorem main_all_or_nothing (fuel : nat) :
  match snd (main fuel) with
  | Ret _ =>
      exists html status,
        file_effects (fst (main fuel))
        = [Makedirs "/tmp/dashboard";
           Open "/tmp/dashboard/index.html";
           Write "/tmp/dashboard/index.html" html;
           Open "/tmp/dashboard/status.json";
           Write "/tmp/dashboard/status.json" status]
  | _ => file_effects (fst (main fuel)) = []
  end.
Proof.
  assert (Hdid : forall e t, file_effects (Did e :: t) = file_effects t)
    by reflexivity.
  rewrite main_stages.
  destruct (truthy GH_TOKEN); cbn [negb]; [|reflexivity].
  cbv zeta.
  destruct (result (get_all_repos fuel)) as [repos| | |] eqn:Hrepos;
    cbn [fst snd];
    try (now rewrite Hdid, file_effects_did).
  destruct (result (build_repo_data repos)) as [data| | |] eqn:Hdata;
    cbn [fst snd];
    try (repeat (rewrite file_effects_app || rewrite Hdid
                 || rewrite file_effects_did);
         reflexivity).
  destruct (report_published repos data Hdata)
    as (cnt & html & Hcnt & Hhtml & Hcopy & Hitems).
  rewrite Hcnt, Hhtml, Hcopy, Hitems. cbn [fst snd].
  exists html. eexists.
  rewrite <- (map_map (fun kn => EvPrint (summary_line kn)) Did).
  repeat (rewrite file_effects_app || rewrite Hdid
          || rewrite file_effects_did).
  reflexivity.
Qed.

(** *** Where the token goes *)

(** A request to the API host, with the headers of the script and its
    timeout. *)
Definition to_github (r : request) : Prop :=
  String.prefix "https://api.github.com/" (req_url r) = true
  /\ req_headers r = HEADERS
  /\ req_timeout r = 30.

Definition to_github_only (e : event) : Prop :=
  match e with
  | EvGet r => to_github r
  | EvPrint _ => True
  end.

Lemma bind_to_github {A B} (m : M A) (k : A -> M B) :
  Forall to_github_only (trace m) ->
  (forall a, Forall to_github_only (trace (k a))) ->
  Forall to_github_only (trace (bind m k)).
Proof.
  intros Hm Hk. rewrite trace_bind. apply Forall_app. split; [exact Hm|].
  destruct (result m); [apply Hk | constructor ..].
Qed.

Lemma lift_to_github {A} (o : outcome A) :
  Forall to_github_only (trace (lift o)).
Proof. constructor. Qed.

Lemma api_get_to_github (url : string) (params : value) :
  String.prefix "https://api.github.com/" url = true ->
  Forall to_github_only (trace (api_get url params)).
Proof.
  intros Hurl. rewrite api_get_cases. cbv zeta.
  assert (Hr : to_github (mkRequest url HEADERS (py_or params (VDict [])) 30))
    by now repeat split.
  destruct (http _) as [resp|]; [destruct (rate_limited resp)|];
    (constructor; [exact Hr | repeat constructor]).
Qed.

Lemma get_all_repos_loop_to_github (fuel : nat) :
  forall repos page,
  Forall to_github_only (trace (get_all_repos_loop fuel repos page)).
Proof.
  induction fuel as [|fuel IH]; intros repos page; [constructor|].
  step_get_all_repos_loop.
  apply bind_to_github; [apply api_get_to_github; reflexivity|].
  intros resp. destruct (negb (status_code resp =? 200)).
  - repeat constructor.
  - apply bind_to_github; [apply lift_to_github|].
    intros data. destruct (negb (truthy data)); [constructor|].
    apply bind_to_github; [apply lift_to_github|].
    intros items. apply IH.
Qed.

Lemma get_latest_run_to_github (name : value) :
  Forall to_github_only (trace (get_latest_run name)).
Proof.
  open_get_latest_run.
  apply bind_to_github; [apply api_get_to_github; reflexivity|].
  intros resp. destruct (negb (status_code resp =? 200)); [constructor|].
  apply bind_to_github; [apply lift_to_github|]. intros body.
  apply bind_to_github; [apply lift_to_github|]. intros runs.
  destruct (negb (truthy runs)); [constructor|].
  apply bind_to_github; [apply lift_to_github|]. intros body'.
  apply bind_to_github; [apply lift_to_github|]. intros runs'.
  apply lift_to_github.
Qed.

Lemma build_entry_to_github (repo : value) :
  Forall to_github_only (trace (build_entry repo)).
Proof.
  open_build_entry.
  apply bind_to_github; [apply lift_to_github|]. intros name.
  apply bind_to_github; [repeat constructor|]. intros _.
  apply bind_to_github; [apply get_latest_run_to_github|]. intros run.
  apply bind_to_github; [apply lift_to_github|]. intros [[k l] i].
  apply bind_to_github; [apply lift_to_github|]. intros url.
  apply bind_to_github; [apply lift_to_github|]. intros private.
  destruct (truthy run); [|constructor].
  apply bind_to_github; [apply lift_to_github|]. intros fields.
  constructor.
Qed.

Lemma build_repo_data_to_github (repos : list value) :
  Forall to_github_only (trace (build_repo_data repos)).
Proof.
  open_build_repo_data.
  apply bind_to_github; [|intros results; apply lift_to_github].
  generalize (@nil value).
  induction repos as [|repo repos IH]; intros results; [constructor|].
  step_build_loop.
  apply bind_to_github; [apply build_entry_to_github|].
  intros entry. apply IH.
Qed.

Lemma requests_sent_did (t : list event) :
  Forall to_github_only t -> Forall to_github (requests_sent (map Did t)).
Proof.
  induction 1 as [|[r|line] t He _ IH]; [constructor | | exact IH].
  now constructor.
Qed.

Lemma requests_sent_app (t u : list effect) :
  requests_sent (t ++ u) = (requests_sent t ++ requests_sent u)%list.
Proof. apply flat_map_app. Qed.

(** X22.  However [main] ends, every request it has sent went to a URL
    under https://api.github.com/, carried the two headers of the script,
    the token among them, and had a timeout of 30 seconds: the token is
    sent nowhere else, whatever the organization name and the repository
    names are. *)
Theorem main_requests_to_github (fuel : nat) :
  Forall
    (fun r =>
       String.prefix "https://api.github.com/" (req_url r) = true
       /\ req_headers r
          = [("Authorization", VStr ("token " ++ py_str GH_TOKEN));
             ("Accept", VStr "application/vnd.github+json")]
       /\ req_timeout r = 30)
    (requests_sent (fst (main fuel))).
Proof.
  assert (Hp : forall line t,
            requests_sent (Did (EvPrint line) :: t) = requests_sent t)
    by reflexivity.
  assert (Hm : forall p t, requests_sent (Makedirs p :: t) = requests_sent t)
    by reflexivity.
  assert (Ho : forall p t, requests_sent (Open p :: t) = requests_sent t)
    by reflexivity.
  assert (Hw : forall p x t, requests_sent (Write p x :: t) = requests_sent t)
    by reflexivity.
  assert (Hlines : forall items : list (value * Z),
            requests_sent
              (map (fun kn => Did (EvPrint (summary_line kn))) items) = []).
  { induction items as [|kn items IH]; [reflexivity | exact IH]. }
  assert (Hnil : requests_sent [] = []) by reflexivity.
  pose proof (requests_sent_did _ (get_all_repos_loop_to_github fuel [] 1))
    as Hlist.
  change (Forall to_github (requests_sent (fst (main fuel)))).
  rewrite main_stages.
  destruct (truthy GH_TOKEN); cbn [negb]; [|constructor].
  cbv zeta.
  destruct (result (get_all_repos fuel)) as [repos| | |];
    cbn [fst]; try (rewrite Hp; exact Hlist).
  pose proof (requests_sent_did _ (build_repo_data_to_github repos)) as Hbuild.
  destruct (result (build_repo_data repos)) as [data| | |];
    [destruct (count_statuses data) as [cnt| | |];
     [destruct (generate_html data cnt (VStr now_art)) as [html| | |];
      [destruct (map_outcome copy_record data) as [copies| | |];
       [destruct (sorted_items cnt) as [items| | |]|..]|..]|..]|..];
    cbn [fst];
    repeat (rewrite requests_sent_app || rewrite Hp || rewrite Hm
            || rewrite Ho || rewrite Hw || rewrite Hlines || rewrite Hnil
            || rewrite app_nil_r);
    apply Forall_app; split; assumption.
Qed.

(** *** The summary on the console *)

(** The text of a string key. *)
Definition key_text (k : value) : string :=
  match k with
  | VStr s => s
  | _ => EmptyString
  end.

(** Two items in alphabetical order of their keys, which differ. *)
Definition before (a b : value * Z) : Prop :=
  exists ka kb,
    fst a = VStr ka /\ fst b = VStr kb /\ String.ltb ka kb = true.

Lemma ltb_total (s t : string) :
  s <> t -> String.ltb s t = false -> String.ltb t s = true.
Proof.
  unfold String.ltb. intros Hne H.
  rewrite (String.compare_antisym t s).
  destruct (String.compare s t) eqn:E; try discriminate; [|reflexivity].
  now apply String.compare_eq_iff in E.
Qed.

Lemma insert_item_perm (x : value * Z) (l : list (value * Z)) :
  Permutation (insert_item x l) (x :: l).
Proof.
  induction l as [|y l IH]; cbn [insert_item]; [reflexivity|].
  destruct (item_lt x y); [reflexivity|].
  rewrite IH. apply perm_swap.
Qed.

Lemma insert_item_head (x y : value * Z) (l : list (value * Z)) :
  before y x -> HdRel before y l -> HdRel before y (insert_item x l).
Proof.
  intros Hyx Hl. destruct l as [|z l]; cbn [insert_item].
  - now constructor.
  - inversion Hl; subst. destruct (item_lt x z); now constructor.
Qed.

Lemma insert_item_sorted (x : value * Z) (l : list (value * Z)) :
  string_key x ->
  Forall string_key l ->
  ~ In (fst x) (map fst l) ->
  Sorted before l ->
  Sorted before (insert_item x l).
Proof.
  intros [kx Hx] Hl Hnew Hs.
  induction Hs as [|y l Hs IH Hhd]; cbn [insert_item].
  - repeat constructor.
  - inversion Hl as [|? ? [ky Hy] Hl']; subst.
    assert (Hne : kx <> ky).
    { intros ->. apply Hnew. left. congruence. }
    assert (Hlt : item_lt x y = String.ltb kx ky).
    { unfold item_lt. rewrite Hx, Hy. cbn [key_eqb value_ltb].
      apply String.eqb_neq in Hne. now rewrite Hne. }
    rewrite Hlt. destruct (String.ltb kx ky) eqn:E.
    + constructor; [now constructor|].
      constructor. now exists kx, ky.
    + constructor.
      * apply IH; [exact Hl'|]. intros Hin. apply Hnew. now right.
      * apply insert_item_head; [|exact Hhd].
        exists ky, kx. repeat split; try assumption.
        now apply ltb_total.
Qed.

Lemma sorted_items_spec (c : counts) :
  forall acc,
  Forall string_key (c ++ acc) ->
  NoDup (map fst (c ++ acc)) ->
  Sorted before acc ->
  let items := fold_left (fun acc x => insert_item x acc) c acc in
  Permutation items (c ++ acc) /\ Sorted before items.
Proof.
  induction c as [|x c IH]; intros acc Hk Hd Hs; cbn [fold_left app].
  - now split.
  - assert (Hp : Permutation (c ++ insert_item x acc) (x :: c ++ acc)).
    { rewrite insert_item_perm. symmetry. apply Permutation_middle. }
    cbn [app map] in Hd, Hk.
    destruct (IH (insert_item x acc)) as [Hperm Hsorted].
    + eapply Permutation_Forall; [symmetry; exact Hp | exact Hk].
    + eapply Permutation_NoDup;
        [apply Permutation_map; symmetry; exact Hp | exact Hd].
    + inversion Hk; subst. inversion Hd; subst.
      apply insert_item_sorted; try assumption.
      * now apply Forall_app in H2.
      * intros Hin. apply H3. rewrite map_app. apply in_or_app. now right.
    + split; [|exact Hsorted]. now rewrite Hperm, Hp.
Qed.

Lemma distinct_string_keys (c : counts) :
  Forall string_key c -> distinct_keys c -> NoDup (map fst c).
Proof.
  intros Hk Hd. induction Hd as [|[k n] c Hall _ IH]; [constructor|].
  inversion Hk as [|? ? [s Hs] Hk']; subst. cbn [fst] in Hs. subst k.
  cbn [map fst]. constructor; [|now apply IH].
  intros Hin. apply in_map_iff in Hin. destruct Hin as ([k' n'] & He & Hin).
  rewrite Forall_forall in Hall. specialize (Hall _ Hin).
  cbn [fst] in *. subst k'. cbn [key_eqb] in Hall.
  now rewrite String.eqb_refl in Hall.
Qed.

Lemma counts_get_in (c : counts) (k : string) (n : Z) :
  NoDup (map fst c) -> In (VStr k, n) c -> counts_get c (VStr k) 0 = n.
Proof.
  induction c as [|[k0 n0] c IH]; [intros _ []|].
  cbn [map fst counts_get In]. intros Hd [H | H].
  - injection H as -> ->. cbn [key_eqb]. now rewrite String.eqb_refl.
  - inversion Hd; subst.
    rewrite key_eqb_str_r. destruct (eq_str k0 k) eqn:E.
    + apply eq_str_true in E. subst k0.
      exfalso. apply H2. apply in_map_iff. now exists (VStr k, n).
    + now apply IH.
Qed.

Lemma counts_get_found (c : counts) (k : string) :
  counts_get c (VStr k) 0 <> 0 -> In (VStr k, counts_get c (VStr k) 0) c.
Proof.
  induction c as [|[k0 n0] c IH]; cbn [counts_get]; [congruence|].
  rewrite key_eqb_str_r. destruct (eq_str k0 k) eqn:E.
  - apply eq_str_true in E. subst k0. now left.
  - intros H. right. now apply IH.
Qed.

(** X23.  The summary [main] prints last is the tally of the report: after
    the line with the number of repositories comes one line for each
    status key that some record has, with the number of records that have
    it, and no line for a key that none has; the lines are in alphabetical
    order of the keys. *)
Theorem main_summary (fuel : nat) (repos data : list value) :
  truthy GH_TOKEN = true ->
  result (get_all_repos fuel) = Ret repos ->
  result (build_repo_data repos) = Ret data ->
  exists (earlier : list effect) (tally : list (string * Z)),
    fst (main fuel)
    = (earlier
       ++ Did (EvPrint (generated data))
       :: map (fun kn => Did (EvPrint ("  " ++ fst kn ++ ": "
                                       ++ PyStr.of_Z (snd kn))))
            tally)%list
    /\ Sorted (fun a b => String.ltb (fst a) (fst b) = true) tally
    /\ forall k n,
         In (k, n) tally <-> n = count_key k data /\ 1 <= n.
Proof.
  intros Htok Hrepos Hdata.
  destruct (report_published repos data Hdata)
    as (cnt & html & Hcnt & Hhtml & Hcopy & Hitems).
  destruct (build_repo_data_returned environ http py_repr fromisoformat
              strftime_art local_refusal repos data Hdata) as (_ & Hclass & _).
  pose proof (count_loop_string_keys data Hclass [] cnt Hcnt
                (Forall_nil _)) as Hkeys.
  destruct (count_loop_keeps data [] cnt Hcnt) as [Hpos Hdist];
    [constructor | constructor |].
  pose proof (distinct_string_keys cnt Hkeys Hdist) as Hnodup.
  destruct (sorted_items_spec cnt []) as [Hperm Hsorted];
    [now rewrite app_nil_r | now rewrite app_nil_r | constructor |].
  rewrite app_nil_r in Hperm.
  set (items := fold_left (fun acc x => insert_item x acc) cnt []) in *.
  assert (Hikeys : Forall string_key items)
    by (eapply Permutation_Forall; [symmetry; exact Hperm | exact Hkeys]).
  set (tally := map (fun kn : value * Z => (key_text (fst kn), snd kn)) items).
  assert (Hin : forall k n, In (k, n) tally <-> In (VStr k, n) cnt).
  { intros k n. unfold tally. rewrite in_map_iff. split.
    - intros ([k' n'] & Heq & Hi). cbn [fst snd] in Heq.
      rewrite Forall_forall in Hikeys. destruct (Hikeys _ Hi) as [s Hs].
      cbn [fst] in Hs. subst k'. cbn [key_text] in Heq.
      injection Heq as <- <-.
      eapply Permutation_in; [exact Hperm | exact Hi].
    - intros Hi. exists (VStr k, n). split; [reflexivity|].
      eapply Permutation_in; [symmetry; exact Hperm | exact Hi]. }
  match goal with
  | |- exists earlier _, _ = (earlier ++ ?g :: _)%list /\ _ =>
      assert (Hmain : exists earlier,
                fst (main fuel)
                = (earlier
                   ++ g :: map (fun kn => Did (EvPrint (summary_line kn)))
                             items)%list)
  end.
  { rewrite main_stages, Htok. cbn [negb]. cbv zeta.
    rewrite Hrepos, Hdata, Hcnt, Hhtml, Hcopy, Hitems. cbn [fst].
    fold items.
    match goal with
    | |- exists earlier, ((?x ++ [?w; _]) ++ _)%list = _ =>
        exists (x ++ [w])%list
    end.
    now rewrite <- !app_assoc. }
  destruct Hmain as [earlier Hmain].
  exists earlier, tally. split; [|split].
  - rewrite Hmain. f_equal. f_equal. unfold tally. rewrite map_map.
    apply map_ext_in. intros [k n] Hi.
    rewrite Forall_forall in Hikeys. destruct (Hikeys _ Hi) as [s Hs].
    cbn [fst] in Hs. subst k. reflexivity.
  - unfold tally. clear - Hsorted.
    induction Hsorted as [|a l _ IH Hhd]; cbn [map]; constructor;
      [exact IH|].
    destruct Hhd as [|b l (ka & kb & Ha & Hb & Hlt)]; cbn [map];
      constructor.
    cbn [fst]. now rewrite Ha, Hb.
  - intros k n. rewrite Hin. split.
    + intros Hi.
      pose proof (counts_get_in cnt k n Hnodup Hi) as Hget.
      rewrite (count_loop_get data k [] cnt Hcnt) in Hget.
      cbn [counts_get] in Hget. split; [lia|].
      rewrite Forall_forall in Hpos. exact (Hpos _ Hi).
    + intros [-> Hn].
      pose proof (count_loop_get data k [] cnt Hcnt) as Hget.
      cbn [counts_get] in Hget.
      replace (count_key k data) with (counts_get cnt (VStr k) 0) in * by lia.
      apply counts_get_found. lia.
Qed.

End Coverage.

(* ===================================================================== *)
(** ** More examples *)
(* ===================================================================== *)

Module Sample.

(** A token is set, in the second of the two variables. *)
Definition environ (k : string) : option string :=
  if String.eqb k "GITHUB_TOKEN" then Some "t0k3n" else None.

(** The sample server, except that the run request of [a] and the second
    page of the listing find no connection. *)
Definition http_flaky (r : request) : reply :=
  if String.eqb (req_url r)
       "https://api.github.com/repos/algojj/a/actions/runs"
  then NoResponse
  else
    match req_params r with
    | VDict [("per_page", VInt 100); ("page", VInt 2); ("type", VStr "all")] =>
        NoResponse
    | _ => Fixture.http r
    end.

(** A server whose listing never ends: every page holds one repository. *)
Definition http_endless (r : request) : reply :=
  Fixture.ok_json (VList [Fixture.repo "a"]).

Definition repos : list value :=
  [Fixture.repo "b"; Fixture.repo "a"; Fixture.repo "d"; Fixture.repo "c"].

(** The report of the sample server. *)
Definition report : list value :=
  Eval vm_compute in
    match result (build_repo_data Fixture.environ Fixture.http Fixture.py_repr
                    Fixture.fromisoformat Fixture.strftime_art Fixture.local_refusal repos) with
    | Ret data => data
    | _ => []
    end.

Definition now_art : string := "2024-05-01 09:30:00".

(** An abridged serializer: the examples do not look into the status file
    beyond its first two members. *)
Definition json_dump (timestamp : string) (total : Z) (cnt : counts)
  (records : list value) : string :=
  "{" ++ PyStr.dq ++ "timestamp" ++ PyStr.dq ++ ": "
  ++ PyStr.dq ++ timestamp ++ PyStr.dq ++ ", "
  ++ PyStr.dq ++ "total" ++ PyStr.dq ++ ": " ++ PyStr.of_Z total ++ "}".

End Sample.

(** The refusal for the rate limit ends the process. *)
Lemma api_get_outcomes_witness :
  result (api_get Fixture.environ Fixture.http_limited Fixture.py_repr
            "https://api.github.com/orgs/algojj/repos" VNone)
  = Exit 1.
Proof.
  destruct (api_get_outcomes Fixture.environ Fixture.http_limited
              Fixture.py_repr "https://api.github.com/orgs/algojj/repos" VNone)
    as (_ & Hexit & _).
  apply Hexit. exists Fixture.refusal.
  split; [reflexivity|]. split; reflexivity.
Defined.

(** The latest run of [a] on the sample server. *)
Lemma get_latest_run_first_witness :
  get_latest_run Fixture.environ Fixture.http Fixture.py_repr (VStr "a")
  = ([EvGet (runs_request Fixture.environ Fixture.py_repr (VStr "a"))],
     Ret (Fixture.run (VStr "completed") (VStr "failure")
            "2024-05-01T12:00:00Z" "2024-05-01T12:02:05Z")).
Proof.
  apply (get_latest_run_first Fixture.environ Fixture.http Fixture.py_repr
           (VStr "a")
           (mkResponse 200 EmptyString
              (Some (VDict [("total_count", VInt 1);
                            ("workflow_runs",
                             VList [Fixture.run (VStr "completed")
                                      (VStr "failure")
                                      "2024-05-01T12:00:00Z"
                                      "2024-05-01T12:02:05Z"])]))
              VNone)
           [("total_count", VInt 1);
            ("workflow_runs",
             VList [Fixture.run (VStr "completed") (VStr "failure")
                      "2024-05-01T12:00:00Z" "2024-05-01T12:02:05Z"])]
           _ []);
    reflexivity.
Defined.

(** No connection for the run request of [a]. *)
Lemma get_latest_run_raises_witness :
  result (get_latest_run Fixture.environ Sample.http_flaky Fixture.py_repr
            (VStr "a"))
  = Raise RequestException.
Proof.
  destruct (get_latest_run_raises Fixture.environ Sample.http_flaky
              Fixture.py_repr (VStr "a")) as [Hdown _].
  apply Hdown. reflexivity.
Defined.

(** The report is lost when the second of three run requests raises. *)
Lemma build_repo_data_aborts_witness :
  result (build_repo_data Fixture.environ Sample.http_flaky Fixture.py_repr
            Fixture.fromisoformat Fixture.strftime_art Fixture.local_refusal
            [Fixture.repo "b"; Fixture.repo "a"; Fixture.repo "c"])
  = Raise RequestException.
Proof.
  destruct (build_repo_data_aborts Fixture.environ Sample.http_flaky
              Fixture.py_repr Fixture.fromisoformat Fixture.strftime_art Fixture.local_refusal
              [Fixture.repo "b"] [Fixture.repo "c"]
              [("name", VStr "a");
               ("html_url", VStr "https://github.com/algojj/a");
               ("private", VBool false)]
              (VStr "a")) as [Hraise _].
  - repeat constructor.
  - reflexivity.
  - apply Hraise. reflexivity.
Defined.

(** The first page is served and the second finds no connection. *)
Lemma get_all_repos_raises_witness :
  result (get_all_repos Fixture.environ Sample.http_flaky Fixture.py_repr 5)
  = Raise RequestException.
Proof.
  destruct (get_all_repos_raises Fixture.environ Sample.http_flaky
              Fixture.py_repr [[Fixture.repo "b"; Fixture.repo "a"]] 5)
    as [Hdown _].
  - split; [|exact I].
    eexists. split; [reflexivity|]. repeat split; discriminate.
  - cbn. lia.
  - apply Hdown. reflexivity.
Defined.

(** A hundred pages are not enough for the endless listing. *)
Lemma get_all_repos_unbounded_witness :
  result (get_all_repos Fixture.environ Sample.http_endless Fixture.py_repr 100)
  = OutOfFuel.
Proof.
  apply (get_all_repos_unbounded Fixture.environ Sample.http_endless
           Fixture.py_repr 100).
  intros page _. exists [Fixture.repo "a"].
  eexists. split; [reflexivity|]. repeat split; discriminate.
Defined.

(** A queued run. *)
Lemma get_status_info_shown_witness :
  truthy (VStr "Running") = true
  /\ In ("running", "🔄") key_icons
  /\ ("running" = "unknown"
      \/ exists s, VStr "Running" = VStr s /\ In ("running", s) key_labels).
Proof.
  apply (get_status_info_shown (VDict [("status", VStr "queued")])
           "running" (VStr "Running") "🔄").
  reflexivity.
Defined.

(** A run that is a list has no [get]. *)
Lemma get_status_info_decides_witness :
  get_status_info (VList [VInt 1]) = Raise AttributeError.
Proof. exact (get_status_info_decides (VList [VInt 1])). Defined.

(** The report of the sample server names the four repositories. *)
Lemma build_repo_data_records_witness :
  Permutation
    (map (fun r => (subscript r "name", subscript r "url")) Sample.report)
    (map (fun repo => (subscript repo "name", subscript repo "html_url"))
       Sample.repos)
  /\ Forall
       (fun r =>
          (field_names r = base_names
           \/ field_names r = (base_names ++ run_names)%list)
          /\ (subscript r "status_key" = Ret (VStr "no_ci") ->
              field_names r = base_names))
       Sample.report.
Proof.
  apply (build_repo_data_records Fixture.environ Fixture.http Fixture.py_repr
           Fixture.fromisoformat Fixture.strftime_art Fixture.local_refusal
           Sample.repos Sample.report).
  vm_compute. reflexivity.
Defined.

(** Four announcements and four requests, in the order of the listing. *)
Lemma build_repo_data_trace_witness :
  exists names,
    map (fun repo => subscript repo "name") Sample.repos = map Ret names
    /\ trace (build_repo_data Fixture.environ Fixture.http Fixture.py_repr
                Fixture.fromisoformat Fixture.strftime_art Fixture.local_refusal Sample.repos)
       = flat_map
           (fun name =>
              [EvPrint ("  Checking " ++ py_str Fixture.py_repr name ++ "...");
               EvGet (mkRequest (runs_url Fixture.environ Fixture.py_repr name)
                        (HEADERS Fixture.environ Fixture.py_repr)
                        (VDict [("per_page", VInt 1)]) 30)])
           names.
Proof.
  apply (build_repo_data_trace Fixture.environ Fixture.http Fixture.py_repr
           Fixture.fromisoformat Fixture.strftime_art Fixture.local_refusal
           Sample.repos Sample.report).
  vm_compute. reflexivity.
Defined.

(** The title of the sample run is short and is kept whole. *)
Lemma commit_msg_cut_witness :
  exists fields,
    run_fields Fixture.fromisoformat Fixture.strftime_art Fixture.local_refusal
      (Fixture.run (VStr "completed") (VStr "success")
         "2024-05-01T12:00:00Z" "2024-05-01T12:02:05Z")
    = Ret fields
    /\ dict_get fields "commit_msg" = Some (VStr "Fix the build").
Proof.
  eexists. split; [vm_compute; reflexivity|].
  destruct (commit_msg_cut Fixture.fromisoformat Fixture.strftime_art Fixture.local_refusal
              (Fixture.run (VStr "completed") (VStr "success")
                 "2024-05-01T12:00:00Z" "2024-05-01T12:02:05Z")
              _ eq_refl) as (m & Hm & _ & Htitle & _).
  destruct (Htitle _ "Fix the build" eq_refl eq_refl) as (_ & _ & Hwhole);
    [discriminate|].
  assert (Em : m = VStr "Fix the build") by (apply Hwhole; vm_compute; lia).
  rewrite Em in Hm. exact Hm.
Defined.

(** The report of the sample server, sorted from its reverse, is left as it
    is when it is sorted again. *)
Lemma sort_results_idempotent_witness :
  sort_results Sample.report = Ret Sample.report.
Proof.
  apply (sort_results_idempotent (rev Sample.report) Sample.report).
  vm_compute. reflexivity.
Defined.

(** Two failures and one success. *)
Lemma count_statuses_exact_witness :
  counts_get [(VStr "failure", 2); (VStr "success", 1)] (VStr "failure") 0 = 2
  /\ counts_get [(VStr "failure", 2); (VStr "success", 1)] (VStr "queued") 0
     = 0.
Proof.
  destruct (count_statuses_exact
              [Fixture.record "failure"; Fixture.record "success";
               Fixture.record "failure"]
              [(VStr "failure", 2); (VStr "success", 1)] eq_refl)
    as (Hexact & _).
  split; [exact (Hexact "failure") | exact (Hexact "queued")].
Defined.

(** A record without a status key, after one that has it. *)
Lemma count_statuses_raises_witness :
  count_statuses
    [Fixture.record "success"; VDict [("name", VStr "x")];
     Fixture.record "failure"]
  = Raise KeyError.
Proof.
  destruct (count_statuses_raises
              [Fixture.record "success"] [Fixture.record "failure"]
              (VDict [("name", VStr "x")])) as (Hkey & _).
  - repeat constructor. exists (VStr "success"). split; reflexivity.
  - exact (Hkey [("name", VStr "x")] eq_refl eq_refl).
Defined.

(** A record that is a string stops the page. *)
Lemma generate_html_rows_witness :
  generate_html Fixture.py_repr
    [VDict Fixture.failed_record; VStr "x"; VDict Fixture.failed_record]
    [] (VStr "now")
  = Raise TypeError.
Proof.
  destruct (generate_html_rows Fixture.py_repr
              [VDict Fixture.failed_record; VStr "x";
               VDict Fixture.failed_record]
              [] (VStr "now")) as [_ Hraise].
  apply (Hraise [VDict Fixture.failed_record] (VStr "x")
           [VDict Fixture.failed_record]).
  - reflexivity.
  - repeat constructor.
  - reflexivity.
Defined.

(** The page of the sample report: four repositories, one of them failing,
    one passing, one running and one without CI. *)
Lemma generate_html_figures_witness :
  exists page rows,
    generate_html Fixture.py_repr Sample.report
      [(VStr "failure", 1); (VStr "running", 1); (VStr "no_ci", 1);
       (VStr "success", 1)]
      (VStr Sample.now_art)
    = Ret page
    /\ page
       = Template.page_template "1 FAILING" "#f44336" "4" "1" "1" "1" "1"
           (other_span 0) Sample.now_art rows.
Proof.
  destruct (renderable_rows Fixture.py_repr Sample.report) as [rows Hrows].
  { repeat constructor. }
  assert (Hpage : exists page,
            generate_html Fixture.py_repr Sample.report
              [(VStr "failure", 1); (VStr "running", 1); (VStr "no_ci", 1);
               (VStr "success", 1)]
              (VStr Sample.now_art)
            = Ret page).
  { unfold generate_html.
    rewrite (rows_loop_all Fixture.py_repr Sample.report rows Hrows
               EmptyString).
    cbn [obind]. now eexists. }
  destruct Hpage as [page Hpage].
  destruct (generate_html_figures Fixture.py_repr Sample.report
              [(VStr "failure", 1); (VStr "running", 1); (VStr "no_ci", 1);
               (VStr "success", 1)]
              (VStr Sample.now_art) page eq_refl Hpage)
    as [[rows' Hrows'] _].
  exists page, rows'. split; [exact Hpage | exact Hrows'].
Defined.

(** The report of the sample server is counted and rendered. *)
Lemma report_counts_and_renders_witness :
  exists cnt page,
    count_statuses Sample.report = Ret cnt
    /\ sum_values cnt = 4
    /\ generate_html Fixture.py_repr Sample.report cnt (VStr Sample.now_art)
       = Ret page.
Proof.
  destruct (report_counts_and_renders Fixture.environ Fixture.http
              Fixture.py_repr Fixture.fromisoformat Fixture.strftime_art Fixture.local_refusal
              Sample.repos Sample.report)
    as (cnt & Hcnt & Hsum & Hpage).
  - vm_compute. reflexivity.
  - destruct (Hpage (VStr Sample.now_art)) as [page Hp].
    exists cnt, page. split; [exact Hcnt|]. split; [exact Hsum | exact Hp].
Defined.

(** One hour, two minutes and some seconds. *)
Lemma format_duration_drops_seconds_witness :
  format_duration 3725 = format_duration 3779
  /\ format_duration 3725 = format_duration 3720.
Proof.
  apply (format_duration_drops_seconds 3725 3779); [lia | lia | reflexivity].
Defined.

(** No variable is set. *)
Lemma main_needs_token_witness :
  main Fixture.environ Fixture.http Fixture.py_repr Fixture.fromisoformat
    Fixture.strftime_art Fixture.local_refusal Sample.now_art Sample.json_dump 5
  = ([Did (EvPrint "ERROR: GH_TOKEN or GITHUB_TOKEN not set")], Exit 1).
Proof.
  apply (main_needs_token Fixture.environ Fixture.http Fixture.py_repr
           Fixture.fromisoformat Fixture.strftime_art Fixture.local_refusal Sample.now_art
           Sample.json_dump 5).
  split; left; reflexivity.
Defined.

(** With a token and the sample server [main] returns. *)
Lemma main_completes_witness :
  snd (main Sample.environ Fixture.http Fixture.py_repr Fixture.fromisoformat
         Fixture.strftime_art Fixture.local_refusal Sample.now_art Sample.json_dump 5)
  = Ret tt.
Proof.
  destruct (main_completes Sample.environ Fixture.http Fixture.py_repr
              Fixture.fromisoformat Fixture.strftime_art Fixture.local_refusal Sample.now_art
              Sample.json_dump 5 Sample.repos Sample.report)
    as (cnt & html & items & _ & _ & _ & Hmain).
  - reflexivity.
  - vm_compute. reflexivity.
  - vm_compute. reflexivity.
  - rewrite Hmain. reflexivity.
Defined.

(** Against the rate limit nothing is written. *)
Lemma main_all_or_nothing_witness :
  snd (main Sample.environ Fixture.http_limited Fixture.py_repr
         Fixture.fromisoformat Fixture.strftime_art Fixture.local_refusal Sample.now_art
         Sample.json_dump 5)
  = Exit 1
  /\ file_effects
       (fst (main Sample.environ Fixture.http_limited Fixture.py_repr
               Fixture.fromisoformat Fixture.strftime_art Fixture.local_refusal Sample.now_art
               Sample.json_dump 5))
     = [].
Proof.
  split; [vm_compute; reflexivity|].
  exact (main_all_or_nothing Sample.environ Fixture.http_limited
           Fixture.py_repr Fixture.fromisoformat Fixture.strftime_art Fixture.local_refusal
           Sample.now_art Sample.json_dump 5).
Defined.

(** The seven requests of the sample run. *)
Lemma main_requests_to_github_witness :
  List.length
    (requests_sent
       (fst (main Sample.environ Fixture.http Fixture.py_repr
               Fixture.fromisoformat Fixture.strftime_art Fixture.local_refusal Sample.now_art
               Sample.json_dump 5)))
  = 7%nat
  /\ Forall
       (fun r =>
          String.prefix "https://api.github.com/" (req_url r) = true
          /\ req_headers r
             = [("Authorization", VStr "token t0k3n");
                ("Accept", VStr "application/vnd.github+json")]
          /\ req_timeout r = 30)
       (requests_sent
          (fst (main Sample.environ Fixture.http Fixture.py_repr
                  Fixture.fromisoformat Fixture.strftime_art Fixture.local_refusal Sample.now_art
                  Sample.json_dump 5))).
Proof.
  split; [vm_compute; reflexivity|].
  exact (main_requests_to_github Sample.environ Fixture.http Fixture.py_repr
           Fixture.fromisoformat Fixture.strftime_art Fixture.local_refusal Sample.now_art
           Sample.json_dump 5).
Defined.

(** The summary of the sample run has a line for the failure. *)
Lemma main_summary_witness :
  exists earlier tally,
    fst (main Sample.environ Fixture.http Fixture.py_repr
           Fixture.fromisoformat Fixture.strftime_art Fixture.local_refusal Sample.now_art
           Sample.json_dump 5)
    = (earlier
       ++ Did (EvPrint (generated Sample.report))
       :: map (fun kn => Did (EvPrint ("  " ++ fst kn ++ ": "
                                       ++ PyStr.of_Z (snd kn))))
            tally)%list
    /\ In ("failure", 1) tally
    /\ ~ In ("cancelled", 0) tally.
Proof.
  destruct (main_summary Sample.environ Fixture.http Fixture.py_repr
              Fixture.fromisoformat Fixture.strftime_art Fixture.local_refusal Sample.now_art
              Sample.json_dump 5 Sample.repos Sample.report)
    as (earlier & tally & Hmain & _ & Hin).
  - reflexivity.
  - vm_compute. reflexivity.
  - vm_compute. reflexivity.
  - exists earlier, tally. split; [exact Hmain|]. split.
    + apply Hin. split; [reflexivity | lia].
    + intros H. apply Hin in H. destruct H as [_ H]. lia.
Defined.

(** On the sample server the report has one record for each of the four
    repositories, the refused one included. *)
Lemma build_repo_data_one_record_each_witness :
  exists results,
    result (build_repo_data Fixture.environ Fixture.http Fixture.py_repr
              Fixture.fromisoformat Fixture.strftime_art
              Fixture.local_refusal Sample.repos)
    = Ret results
    /\ List.length results = 4%nat
    /\ Forall (fun r =>
                 exists k,
                   subscript r "status_key" = Ret (VStr k)
                   /\ In k ["failure"; "running"; "cancelled";
                            "no_ci"; "unknown"; "success"])
              results.
Proof.
  destruct (build_repo_data_one_record_each
              Fixture.environ Fixture.http Fixture.py_repr
              Fixture.fromisoformat Fixture.strftime_art
              Fixture.local_refusal Sample.repos)
    as (Hreturned & Hreturns & _).
  destruct Hreturns as [results Hresults].
  { repeat constructor. }
  exists results. split; [exact Hresults|].
  exact (Hreturned results Hresults).
Defined.

(** C1 as it is stated fails when a run fetch fails by an exception or by
    the rate limit.  The run request of [a] finds no connection: of the
    three repositories none gets a record, for [RequestException] leaves
    [build_repo_data].  And when the server refuses the run request for
    the rate limit the process ends with status 1. *)
Lemma build_repo_data_without_report :
  let repos := [Fixture.repo "b"; Fixture.repo "a"; Fixture.repo "c"] in
  Sample.http_flaky (runs_request Fixture.environ Fixture.py_repr (VStr "a"))
  = NoResponse
  /\ result (build_repo_data Fixture.environ Sample.http_flaky
               Fixture.py_repr Fixture.fromisoformat Fixture.strftime_art
               Fixture.local_refusal repos)
     = Raise RequestException
  /\ (forall results,
        List.length results = List.length repos ->
        result (build_repo_data Fixture.environ Sample.http_flaky
                  Fixture.py_repr Fixture.fromisoformat Fixture.strftime_art
                  Fixture.local_refusal repos)
        <> Ret results)
  /\ result (build_repo_data Fixture.environ Fixture.http_limited
               Fixture.py_repr Fixture.fromisoformat Fixture.strftime_art
               Fixture.local_refusal repos)
     = Exit 1.
Proof.
  cbv zeta. repeat split; try reflexivity.
  intros results _. discriminate.
Qed.

